(** * ElderCareCompanion: the alert rule engine, the record normalizer and
      the risk predictors, embedded from the Python sources

    - [alert_system.py]      : [generate_alerts] and the three per-domain rules
    - [data_processor.py]    : [process_health_data], [process_safety_data],
                               [process_reminder_data]
    - [predictive_models.py] : [HealthRiskPredictor], [FallRiskPredictor],
                               [ReminderEffectivenessPredictor]

    The sources work on pandas data frames.  A frame is embedded row by row:
    a row is a finite map from column names to cells, and every column
    operation the sources use (comparison with a constant, [map], [fillna],
    [astype], [str.extract], [dt.date], ...) is element-wise, so it becomes a
    map over the rows.  Fallible operations return a [result]; the predictors,
    which update the frame they are given and their own attributes, run in a
    small state monad over a store of frames. *)

From Stdlib Require Import ZArith QArith Lia Ascii String.
From stdpp Require Import base tactics option list sorting strings pretty gmap fin_maps.

Open Scope Z_scope.

(** ** Python values and exceptions *)

Module Py.

(** The cells that occur in the frames of this program.  [VFloat] carries the
    exact rational value of a float: the sources only compare floats with
    constants, and a comparison of floats is the comparison of their values.
    [VTimestamp] is an instant in nanoseconds since the epoch, [VDate] a
    calendar date in days since the epoch, [VTime] a time of day in seconds
    since midnight.  [VNaN] is the float NaN, the missing value of a numeric
    column and what [map] leaves for a cell it has no entry for; [VNone] is
    Python's [None], as a NULL read from the database is in a column of
    objects; [VNaT] is the missing instant. *)
Inductive value : Type :=
  | VStr (s : string)
  | VInt (n : Z)
  | VFloat (q : Q)
  | VBool (b : bool)
  | VTimestamp (t : Z)
  | VDate (d : Z)
  | VTime (secs : Z)
  | VNaN
  | VNone
  | VNaT.

#[global] Instance Q_eq_dec : EqDecision Q.
Proof. solve_decision. Defined.

#[global] Instance value_eq_dec : EqDecision value.
Proof. solve_decision. Defined.

(** The exceptions the embedded code can raise. *)
Inductive exn : Type :=
  | KeyError (key : string)
  | ValueError
  | TypeError
  | AttributeError
  | OverflowError.

#[global] Instance exn_eq_dec : EqDecision exn.
Proof. solve_decision. Defined.

Inductive result (A : Type) : Type :=
  | Ok (a : A)
  | Err (e : exn).
Arguments Ok {A} a.
Arguments Err {A} e.

#[global] Instance result_eq_dec `{EqDecision A} : EqDecision (result A).
Proof. solve_decision. Defined.

#[global] Instance result_ret : MRet result := fun A a => Ok a.
#[global] Instance result_bind : MBind result := fun A B f m =>
  match m with Ok a => f a | Err e => Err e end.
#[global] Instance result_fmap : FMap result := fun A B f m =>
  match m with Ok a => Ok (f a) | Err e => Err e end.

Definition is_Ok {A} (r : result A) : bool :=
  match r with Ok _ => true | Err _ => false end.

(** [mapM] of the result monad, left to right: the first failure wins. *)
Fixpoint for_each {A B} (f : A -> result B) (l : list A) : result (list B) :=
  match l with
  | [] => Ok []
  | x :: l' => y ← f x; ys ← for_each f l'; Ok (y :: ys)
  end.

Definition is_missing (v : value) : bool :=
  match v with VNaN | VNone | VNaT => true | _ => false end.

(** The numeric reading of a cell, for the kinds Python compares as numbers. *)
Definition as_number (v : value) : option Q :=
  match v with
  | VInt n => Some (inject_Z n)
  | VFloat q => Some q
  | VBool b => Some (if b then 1%Q else 0%Q)
  | _ => None
  end.

(** [a == b] against a cell or a constant of the program, none of which is
    [None].  Numbers (bool included) compare by value, a missing value (NaN,
    None, NaT) is equal to nothing, cells of different kinds are unequal. *)
Definition py_eq (a b : value) : bool :=
  match as_number a, as_number b with
  | Some x, Some y => Qeq_bool x y
  | _, _ =>
    match a, b with
    | VStr s, VStr s' => bool_decide (s = s')
    | VTimestamp t, VTimestamp t' => bool_decide (t = t')
    | VDate d, VDate d' => bool_decide (d = d')
    | VTime s, VTime s' => bool_decide (s = s')
    | _, _ => false
    end
  end.

(** [v > n] for an integer constant [n]: numbers compare by value, NaN
    compares false, any other kind, [None] included, raises TypeError. *)
Definition py_gt (v : value) (n : Z) : result bool :=
  match as_number v with
  | Some x => Ok (negb (Qle_bool x (inject_Z n)))
  | None => match v with VNaN => Ok false | _ => Err TypeError end
  end.

(** Truth value of a cell, as [Series.any] reads it (missing cells are
    skipped, so they count as false). *)
Definition truthy (v : value) : bool :=
  match v with
  | VStr s => negb (bool_decide (s = ""))
  | VInt n => negb (bool_decide (n = 0))
  | VFloat q => negb (Qeq_bool q 0)
  | VBool b => b
  | VTimestamp _ | VDate _ | VTime _ => true
  | VNaN | VNone | VNaT => false
  end.

Definition two_digits (n : Z) : string :=
  (if bool_decide (n < 10) then "0" else "") +:+ pretty n.

(** [str(v)], the text an f-string puts in place of [{v}].  The decimal text
    of a float and the calendar text of an instant or a date are left to
    [float_repr] and [isoformat]. *)
Section Str.
Variable float_repr : Q -> string.
Variable isoformat : value -> string.

Definition py_str (v : value) : string :=
  match v with
  | VStr s => s
  | VInt n => pretty n
  | VFloat q => float_repr q
  | VBool b => if b then "True" else "False"
  | VTimestamp _ | VDate _ => isoformat v
  | VTime s =>
      two_digits (s / 3600) +:+ ":" +:+ two_digits (s / 60 mod 60)
        +:+ ":" +:+ two_digits (s mod 60)
  | VNaN => "nan"
  | VNone => "None"
  | VNaT => "NaT"
  end.
End Str.

(** [", ".join]-style concatenation with a separator. *)
Fixpoint join (sep : string) (l : list string) : string :=
  match l with
  | [] => ""
  | [s] => s
  | s :: l' => s +:+ sep +:+ join sep l'
  end.

(** [<] on cells: numbers by value, text lexicographically, instants, dates
    and times of day among themselves; a comparison with NaN or NaT is
    false; any other pair, and every pair with [None], raises TypeError. *)
Definition py_lt (a b : value) : result bool :=
  match as_number a, as_number b with
  | Some x, Some y => Ok (negb (Qle_bool y x))
  | _, _ =>
    match a, b with
    | VStr s, VStr s' => Ok (String.ltb s s')
    | VTimestamp t, VTimestamp t' => Ok (bool_decide (t < t'))
    | VDate d, VDate d' => Ok (bool_decide (d < d'))
    | VTime s, VTime s' => Ok (bool_decide (s < s'))
    | VNaN, (VNaN | VInt _ | VFloat _ | VBool _)
    | (VInt _ | VFloat _ | VBool _), VNaN => Ok false
    | VNaT, (VNaT | VTimestamp _) | VTimestamp _, VNaT => Ok false
    | _, _ => Err TypeError
    end
  end.

(** [list.sort(key=..., reverse=...)], as CPython's [listsort] does it.  It
    asks only [x < y] of the keys, and an exception raised by a comparison
    leaves the sort.  With [reverse=True] the list is reversed, sorted in
    ascending order and reversed again.  The ascending sort takes the run the
    list starts with ([count_run]: the longest prefix that does not descend,
    or that descends strictly, which is then reversed) and puts the remaining
    elements into it one by one by binary insertion ([binarysort]).  For
    fewer than 64 elements this is all CPython does; a longer list is cut
    into such runs, which are merged, and the outcome is the same whenever
    [<] orders the keys totally, a stable sort having one outcome then. *)
Section Sort.
Context {A : Type} (key : A -> value).







End Sort.

End Py.
Export Py.

(** ** Data frames *)

Module Frame.

(** A row carries its index label and its cells.  A frame keeps the column
    names in order (a frame without rows still has columns). *)
Record Row : Type := mkRow { label : Z; cells : gmap string value }.

Record DataFrame : Type := mkFrame { columns : list string; rows : list Row }.

#[global] Instance Row_eq_dec : EqDecision Row.
Proof. solve_decision. Defined.

#[global] Instance DataFrame_eq_dec : EqDecision DataFrame.
Proof. solve_decision. Defined.

(** [row[c]] *)
Definition get (r : Row) (c : string) : result value :=
  match cells r !! c with
  | Some v => Ok v
  | None => Err (KeyError c)
  end.

(** The cell of a row, NaN where the row has none. *)
Definition cell (c : string) (r : Row) : value := default VNaN (cells r !! c).

Definition set (c : string) (v : value) (r : Row) : Row :=
  mkRow (label r) (<[c := v]> (cells r)).

(** [c in df.columns] *)
Definition has_column (df : DataFrame) (c : string) : bool :=
  bool_decide (c ∈ columns df).

(** [df.empty]: no rows or no columns. *)
Definition empty (df : DataFrame) : bool :=
  match rows df, columns df with
  | [], _ | _, [] => true
  | _, _ => false
  end.

(** The column list after [df[c] = ...]: a new column goes last. *)
Definition add_column (c : string) (cols : list string) : list string :=
  if bool_decide (c ∈ cols) then cols else cols ++ [c].

(** [df[dst] = f(df[src])] for an element-wise [f]; KeyError when [src] is
    not a column, and the first cell on which [f] fails decides the
    exception. *)
Definition assign (src dst : string) (f : value -> result value)
    (df : DataFrame) : result DataFrame :=
  if has_column df src then
    rs ← for_each (fun r => v ← get r src; w ← f v; Ok (set dst w r)) (rows df);
    Ok (mkFrame (add_column dst (columns df)) rs)
  else Err (KeyError src).

(** [df[c] = v] for a scalar [v]. *)
Definition assign_const (c : string) (v : value) (df : DataFrame) : DataFrame :=
  mkFrame (add_column c (columns df)) (set c v <$> rows df).

(** [df[df[c] == k]] *)
Definition where_eq (c : string) (k : value) (r : Row) : bool :=
  match cells r !! c with
  | Some v => py_eq v k
  | None => false
  end.

Definition select_eq (c : string) (k : value) (df : DataFrame) : result DataFrame :=
  if has_column df c then
    Ok (mkFrame (columns df) (filter (fun r => where_eq c k r = true) (rows df)))
  else Err (KeyError c).

(** [df.columns = [f(col) for col in df.columns]] *)
Definition rename_cells (f : string -> string) (m : gmap string value)
    : gmap string value :=
  list_to_map (prod_map f id <$> map_to_list m).

Definition rename_columns (f : string -> string) (df : DataFrame) : DataFrame :=
  mkFrame (f <$> columns df)
          ((fun r => mkRow (label r) (rename_cells f (cells r))) <$> rows df).

(** [df.loc[idx, c] = v]: every row labelled [idx] is updated. *)
Definition loc_set (idx : Z) (c : string) (v : value) (df : DataFrame) : DataFrame :=
  mkFrame (add_column c (columns df))
          ((fun r => if bool_decide (label r = idx) then set c v r else r) <$> rows df).

End Frame.
Export Frame.

(** ** alert_system.py *)

Module alert_system.

(** The dictionary an alert is, with its six fixed keys. *)
Record Alert : Type := mkAlert {
  Device_ID : value;
  Alert_Type : string;
  Timestamp : value;
  Status : string;
  Message : string;
  Priority : string
}.

#[global] Instance Alert_eq_dec : EqDecision Alert.
Proof. solve_decision. Defined.

Section Alerts.
Variable float_repr : Q -> string.
Variable isoformat : value -> string.

Abbreviation str := (py_str float_repr isoformat).

(** One [if row[flag] == 'Yes': alert_reasons.append(...)] step. *)
Definition reason (row : Row) (flag : string) (text : result string)
    : result (list string) :=
  f ← get row flag;
  if py_eq f (VStr "Yes") then t ← text; Ok [t] else Ok [].

Definition health_alert (row : Row) : result Alert :=
  device_id ← get row "Device-ID/User-ID";
  timestamp ← get row "Timestamp";
  r1 ← reason row "Heart Rate Below/Above Threshold (Yes/No)"
         (v ← get row "Heart Rate"; Ok ("Abnormal heart rate: " +:+ str v));
  r2 ← reason row "Blood Pressure Below/Above Threshold (Yes/No)"
         (v ← get row "Blood Pressure"; Ok ("Abnormal blood pressure: " +:+ str v));
  r3 ← reason row "Glucose Levels Below/Above Threshold (Yes/No)"
         (v ← get row "Glucose Levels"; Ok ("Abnormal glucose level: " +:+ str v));
  r4 ← reason row "SpO₂ Below Threshold (Yes/No)"
         (v ← get row "Oxygen Saturation (SpO₂%)";
          Ok ("Low oxygen saturation: " +:+ str v +:+ "%"));
  let alert_reasons := r1 ++ r2 ++ r3 ++ r4 in
  let message := join "; " alert_reasons in
  notified ← get row "Caregiver Notified (Yes/No)";
  Ok {| Device_ID := device_id;
        Alert_Type := "Health";
        Timestamp := timestamp;
        Status := if py_eq notified (VStr "No") then "Active" else "Notified";
        Message := message;
        Priority := if bool_decide (1 < length alert_reasons)%nat
                    then "High" else "Medium" |}.

Definition generate_health_alerts (df : DataFrame) : result (list Alert) :=
  alert_records ← select_eq "Alert Triggered (Yes/No)" (VStr "Yes") df;
  for_each health_alert (rows alert_records).

Definition safety_alert (row : Row) : result Alert :=
  device_id ← get row "Device-ID/User-ID";
  timestamp ← get row "Timestamp";
  location ← get row "Location";
  impact ← get row "Impact Force Level";
  inactivity ← get row "Post-Fall Inactivity Duration (Seconds)";
  let message := "Fall detected in " +:+ str location +:+ " with " +:+ str impact
                   +:+ " impact. " +:+ str inactivity +:+ " seconds of inactivity." in
  notified ← get row "Caregiver Notified (Yes/No)";
  high ← (if py_eq impact (VStr "High") then Ok true else py_gt inactivity 300);
  Ok {| Device_ID := device_id;
        Alert_Type := "Fall";
        Timestamp := timestamp;
        Status := if py_eq notified (VBool false) then "Active" else "Notified";
        Message := message;
        Priority := if (high : bool) then "High" else "Medium" |}.

Definition generate_safety_alerts (df : DataFrame) : result (list Alert) :=
  fall_records ← select_eq "Fall Detected (Yes/No)" (VBool true) df;
  for_each safety_alert (rows fall_records).

(** [reminder_type in ['Medication', 'Appointment']] *)
Definition important (reminder_type : value) : bool :=
  py_eq reminder_type (VStr "Medication") || py_eq reminder_type (VStr "Appointment").

(** The body of the loop: the alerts one row appends, none or one. *)
Definition reminder_alert (row : Row) : result (list Alert) :=
  device_id ← get row "Device-ID/User-ID";
  timestamp ← get row "Timestamp";
  reminder_type ← get row "Reminder Type";
  scheduled_time ← get row "Scheduled Time";
  let message := str reminder_type +:+ " reminder scheduled for "
                   +:+ str scheduled_time +:+ " was not acknowledged." in
  if important reminder_type then
    Ok [ {| Device_ID := device_id;
            Alert_Type := "Reminder";
            Timestamp := timestamp;
            Status := "Active";
            Message := message;
            Priority := if py_eq reminder_type (VStr "Medication")
                        then "Medium" else "Low" |} ]
  else Ok [].

(** [df[(df[sent] == True) & (df[acknowledged] == False)]] *)
Definition unacknowledged (r : Row) : bool :=
  where_eq "Reminder Sent (Yes/No)" (VBool true) r
  && where_eq "Acknowledged (Yes/No)" (VBool false) r.

Definition generate_reminder_alerts (df : DataFrame) : result (list Alert) :=
  if has_column df "Reminder Sent (Yes/No)" then
    if has_column df "Acknowledged (Yes/No)" then
      let unack_records := filter (fun r => unacknowledged r = true) (rows df) in
      appended ← for_each reminder_alert unack_records;
      Ok (List.concat appended)
    else Err (KeyError "Acknowledged (Yes/No)")
  else Err (KeyError "Reminder Sent (Yes/No)").



End Alerts.

(** *** Caregiver notification *)

(** [str.lower] on the letters A to Z.  The other characters stay: the
    lower-casing of text outside ASCII yields none of the letters of the
    phrase the rule looks for. *)
Definition lower_char (c : ascii) : ascii :=
  let n := nat_of_ascii c in
  if (65 <=? n)%nat && (n <=? 90)%nat then ascii_of_nat (n + 32) else c.

Fixpoint lower (s : string) : string :=
  match s with
  | EmptyString => EmptyString
  | String c s' => String (lower_char c) (lower s')
  end.

(** [needle in hay] on strings. *)
Fixpoint contains (needle hay : string) : bool :=
  String.prefix needle hay
  || match hay with
     | EmptyString => false
     | String _ hay' => contains needle hay'
     end.

(** The last test returns False on either branch, as in the source, where
    the tracking of repeated misses is left open. *)
Definition should_notify_caregiver (alert : Alert) : bool :=
  if bool_decide (Priority alert = "High") then true
  else if bool_decide (Alert_Type alert = "Health")
          && contains "heart rate" (lower (Message alert)) then true
  else if bool_decide (Alert_Type alert = "Fall")
          && (contains "High" (Message alert) || contains "Medium" (Message alert))
       then true
  else if bool_decide (Alert_Type alert = "Reminder")
          && contains "Medication" (Message alert) then false
  else false.

End alert_system.
Export alert_system.

(** ** data_processor.py *)

Module data_processor.

(** *** Text helpers *)

Definition is_digit (c : ascii) : bool :=
  match Ascii.is_nat c with Some _ => true | None => false end.

Definition digit_value (c : ascii) : Z :=
  match Ascii.is_nat c with Some d => Z.of_nat d | None => 0 end.

(** White space as [str.strip] sees it, within ASCII. *)
Definition is_space (c : ascii) : bool :=
  let n := nat_of_ascii c in
  ((9 <=? n) && (n <=? 13) || (28 <=? n) && (n <=? 32))%nat.

Fixpoint lstrip (s : string) : string :=
  match s with
  | String c s' => if is_space c then lstrip s' else s
  | EmptyString => EmptyString
  end.

Fixpoint rstrip (s : string) : string :=
  match s with
  | String c s' =>
      match rstrip s' with
      | EmptyString => if is_space c then EmptyString else String c EmptyString
      | t => String c t
      end
  | EmptyString => EmptyString
  end.

(** [s.strip()] *)
Definition strip (s : string) : string := rstrip (lstrip s).

(** The longest prefix of digits, and what follows it. *)
Fixpoint span_digits (s : string) : string * string :=
  match s with
  | String c s' =>
      if is_digit c then let '(d, rest) := span_digits s' in (String c d, rest)
      else (EmptyString, s)
  | EmptyString => (EmptyString, EmptyString)
  end.

(** A match of [(\d+)/(\d+)] that starts at the head of [s]: [\d+] is greedy,
    and giving digits back cannot help, because the character after a shorter
    run is a digit and not the slash. *)
Definition match_here (s : string) : option (string * string) :=
  match span_digits s with
  | (String c d, String "/" rest) =>
      match span_digits rest with
      | (String c' d', _) => Some (String c d, String c' d')
      | _ => None
      end
  | _ => None
  end.

(** [re.search(r'(\d+)/(\d+)', s)]: the leftmost match, its two groups. *)
Fixpoint search (s : string) : option (string * string) :=
  match match_here s with
  | Some groups => Some groups
  | None =>
      match s with
      | String _ s' => search s'
      | EmptyString => None
      end
  end.

(** The number a run of decimal digits denotes. *)
Fixpoint decimal (acc : Z) (s : string) : Z :=
  match s with
  | String c s' => decimal (10 * acc + digit_value c) s'
  | EmptyString => acc
  end.

(** The digits of an [int(...)] literal, with single underscores between
    digits allowed. *)
Fixpoint digits_with_underscores (after_digit : bool) (acc : Z) (s : string)
    : option Z :=
  match s with
  | EmptyString => if after_digit then Some acc else None
  | String c s' =>
      if is_digit c then digits_with_underscores true (10 * acc + digit_value c) s'
      else if (Ascii.eqb c "_" && after_digit)%bool
           then match s' with
                | String c' _ =>
                    if is_digit c' then digits_with_underscores false acc s' else None
                | EmptyString => None
                end
           else None
  end.

(** [int(s)] for text: surrounding white space, an optional sign, digits. *)
Definition int_of_string (s : string) : option Z :=
  match strip s with
  | String "-" s' => Z.opp <$> digits_with_underscores false 0 s'
  | String "+" s' => digits_with_underscores false 0 s'
  | s' => digits_with_underscores false 0 s'
  end.

(** *** Element-wise column operations *)

Definition day_ns : Z := 86400 * 1000000000.
Definition hour_ns : Z := 3600 * 1000000000.

Definition instant (o : option Z) : value :=
  match o with Some t => VTimestamp t | None => VNaT end.

Definition time_of_day (o : option Z) : value :=
  match o with Some s => VTime s | None => VNaT end.

(** [.dt.date], [.dt.hour], [.dt.dayofweek] (Monday is 0; the epoch was a
    Thursday).  The accessor exists on columns of instants only. *)
Definition dt_date (v : value) : result value :=
  match v with
  | VTimestamp t => Ok (VDate (t / day_ns))
  | VNaT => Ok VNaT
  | _ => Err AttributeError
  end.

Definition dt_hour (v : value) : result value :=
  match v with
  | VTimestamp t => Ok (VInt (t mod day_ns / hour_ns))
  | VNaT => Ok VNaN
  | _ => Err AttributeError
  end.

Definition dt_dayofweek (v : value) : result value :=
  match v with
  | VTimestamp t => Ok (VInt ((t / day_ns + 3) mod 7))
  | VNaT => Ok VNaN
  | _ => Err AttributeError
  end.

(** [.str.extract(r'(\d+)/(\d+)')]: the two groups of the first match, NaN
    twice where there is no match or the cell is not text.  This is the
    accessor of a column that holds text in some row; a column without any
    has no [.str], and pandas raises AttributeError for it. *)
Definition str_extract (v : value) : value * value :=
  match v with
  | VStr s =>
      match search s with
      | Some (a, b) => (VStr a, VStr b)
      | None => (VNaN, VNaN)
      end
  | _ => (VNaN, VNaN)
  end.

Definition int64_min : Z := - 2 ^ 63.
Definition int64_max : Z := 2 ^ 63 - 1.

(** [.astype(int)] on a cell, to a signed 64-bit integer.  A text is read
    as [int] reads it, and a Python integer is taken as it is: either raises
    OverflowError beyond 64 bits.  A float is cut towards zero; beyond 64
    bits numpy's cast does not raise and leaves the smallest integer (on
    x86-64).  NaN cannot be converted.  Cells of the remaining kinds do not
    reach [astype] in this program; the conversion of such a cell is a
    TypeError here, as [int(None)] is. *)
Definition in_int64 (n : Z) : bool := bool_decide (int64_min <= n <= int64_max).

Definition astype_int (v : value) : result value :=
  match v with
  | VInt n => if in_int64 n then Ok (VInt n) else Err OverflowError
  | VBool b => Ok (VInt (if b then 1 else 0))
  | VFloat q =>
      let n := Z.quot (Qnum q) (Zpos (Qden q)) in
      Ok (VInt (if in_int64 n then n else int64_min))
  | VStr s =>
      match int_of_string s with
      | Some n =>
          if bool_decide (int64_min <= n <= int64_max) then Ok (VInt n)
          else Err OverflowError
      | None => Err ValueError
      end
  | VNaN => Err ValueError
  | _ => Err TypeError
  end.

(** [.fillna(0)]: a missing cell becomes the number zero.  In a column of
    floats pandas writes that zero as 0.0, which is the same number and
    differs in its text only. *)
Definition fillna_0 (v : value) : value :=
  if is_missing v then VInt 0 else v.

(** [.map({'Yes': True, 'No': False})]: a cell that is not a key of the
    dictionary becomes NaN. *)
Definition map_yes_no (v : value) : value :=
  match v with
  | VStr "Yes" => VBool true
  | VStr "No" => VBool false
  | _ => VNaN
  end.

Section Processor.
(** [pd.to_datetime] on a cell that is neither an instant nor missing: the
    instant the cell denotes, [None] for NaT, or the exception. *)
Variable parse_datetime : value -> result (option Z).
(** [pd.to_datetime(..., format='%H:%M:%S')] on a cell, read as seconds
    since midnight. *)
Variable parse_time : value -> result (option Z).

Definition to_datetime (v : value) : result value :=
  match v with
  | VTimestamp t => Ok (VTimestamp t)
  | VNaN | VNone | VNaT => Ok VNaT
  | _ => instant <$> parse_datetime v
  end.

Definition to_time (v : value) : result value :=
  time_of_day <$> parse_time v.

(** The three steps every normalizer starts with. *)
Definition common_steps (df : DataFrame) : result DataFrame :=
  df ← assign "Timestamp" "Timestamp" to_datetime df;
  df ← assign "Timestamp" "Date" dt_date df;
  Ok (rename_columns strip df).

(** [if col in df.columns: df[col] = f(df[col])] *)
Definition when_present (col : string) (f : value -> result value)
    (df : DataFrame) : result DataFrame :=
  if has_column df col then assign col col f df else Ok df.

(** The frame is updated in place and returned; the embedding returns the
    updated frame. *)
Definition process_health_data (df : DataFrame) : result DataFrame :=
  df ← common_steps df;
  df ← assign "Blood Pressure" "Systolic" (fun v => Ok (fst (str_extract v))) df;
  df ← assign "Blood Pressure" "Diastolic" (fun v => Ok (snd (str_extract v))) df;
  df ← assign "Systolic" "Systolic" astype_int df;
  df ← assign "Diastolic" "Diastolic" astype_int df;
  if has_column df "Oxygen Saturation (SpO₂%)" then
    assign "Oxygen Saturation (SpO₂%)" "SpO₂" astype_int df
  else Ok df.

Definition process_safety_data (df : DataFrame) : result DataFrame :=
  df ← common_steps df;
  df ← when_present "Post-Fall Inactivity Duration (Seconds)"
         (fun v => Ok (fillna_0 v)) df;
  df ← when_present "Fall Detected (Yes/No)" (fun v => Ok (map_yes_no v)) df;
  df ← when_present "Alert Triggered (Yes/No)" (fun v => Ok (map_yes_no v)) df;
  when_present "Caregiver Notified (Yes/No)" (fun v => Ok (map_yes_no v)) df.

Definition process_reminder_data (df : DataFrame) : result DataFrame :=
  df ← common_steps df;
  df ← assign "Scheduled Time" "Scheduled Time" to_time df;
  df ← when_present "Reminder Sent (Yes/No)" (fun v => Ok (map_yes_no v)) df;
  when_present "Acknowledged (Yes/No)" (fun v => Ok (map_yes_no v)) df.

End Processor.
End data_processor.
Export data_processor.

(** ** predictive_models.py *)

Module predictive_models.

(** *** pandas operations of the predictors *)

(** [df[cols]]: KeyError on the first name that is not a column. *)
Definition project (cols : list string) (df : DataFrame) : result DataFrame :=
  match List.find (fun c => negb (has_column df c)) cols with
  | Some c => Err (KeyError c)
  | None =>
      Ok (mkFrame cols
            ((fun r => mkRow (label r)
                         (filter (fun kv : string * value => kv.1 ∈ cols) (cells r)))
               <$> rows df))
  end.

(** [df[c]] as the list of its cells. *)
Definition column (c : string) (df : DataFrame) : result (list value) :=
  if has_column df c then for_each (fun r => get r c) (rows df)
  else Err (KeyError c).

(** [df[c] = values] for an array of values: the lengths must agree. *)
Definition assign_values (c : string) (vs : list value) (df : DataFrame)
    : result DataFrame :=
  if bool_decide (length vs = length (rows df)) then
    Ok (mkFrame (add_column c (columns df))
          (zip_with (fun v r => set c v r) vs (rows df)))
  else Err ValueError.

(** [pd.concat([a, b], axis=1)] for two frames over the same index. *)
Definition concat_columns (a b : DataFrame) : DataFrame :=
  mkFrame (columns a ++ columns b)
          (zip_with (fun r r' => mkRow (label r) (cells r ∪ cells r')) (rows a) (rows b)).

(** [.unique()]: the distinct cells in order of first appearance. *)
Fixpoint unique (l : list value) : list value :=
  match l with
  | [] => []
  | v :: l' => v :: filter (fun w => py_eq w v = false) (unique l')
  end.

(** The order [sort_values] puts cells in: numbers before text, missing
    cells last, and [<] within a kind. *)
Definition kind_rank (v : value) : nat :=
  match v with
  | VInt _ | VFloat _ | VBool _ => 0
  | VStr _ => 1
  | VTimestamp _ => 2
  | VDate _ => 3
  | VTime _ => 4
  | VNaN | VNone | VNaT => 5
  end.

Definition sorts_before (a b : value) : bool :=
  if (kind_rank a <? kind_rank b)%nat then true
  else if (kind_rank b <? kind_rank a)%nat then false
  else match py_lt a b with Ok c => c | Err _ => false end.

(** Lexicographic order of two rows on the columns [by]. *)
Fixpoint row_before (by_ : list string) (r r' : Row) : bool :=
  match by_ with
  | [] => false
  | c :: by' =>
      sorts_before (cell c r) (cell c r')
      || negb (sorts_before (cell c r') (cell c r)) && row_before by' r r'
  end.

Section StableSort.
Context {A : Type} (before : A -> A -> bool).

Fixpoint insert_stable (x : A) (l : list A) : list A :=
  match l with
  | [] => [x]
  | y :: l' => if before y x then y :: insert_stable x l' else x :: y :: l'
  end.

Fixpoint stable_sort (l : list A) : list A :=
  match l with
  | [] => []
  | x :: l' => insert_stable x (stable_sort l')
  end.
End StableSort.

(** [df.sort_values(by)]: a new frame, the rows keep their labels. *)
Definition sort_values (by_ : list string) (df : DataFrame) : result DataFrame :=
  match List.find (fun c => negb (has_column df c)) by_ with
  | Some c => Err (KeyError c)
  | None => Ok (mkFrame (columns df) (stable_sort (row_before by_) (rows df)))
  end.

(** [pd.cut(x, bins, labels)] with the defaults [right=True] and
    [include_lowest=False]: the label of the interval [(lo, hi]] that holds
    [x], NaN when no interval does. *)
Fixpoint cut (bins : list Q) (labels : list string) (x : Q) : value :=
  match bins, labels with
  | lo :: (hi :: _) as bins', lab :: labels' =>
      if negb (Qle_bool x lo) && Qle_bool x hi then VStr lab
      else cut bins' labels' x
  | _, _ => VNaN
  end.

Definition pd_cut (bins : list Q) (labels : list string) (v : value) : value :=
  match as_number v with
  | Some x => cut bins labels x
  | None => VNaN
  end.

Fixpoint fold_result {A S : Type} (f : S -> A -> result S) (l : list A) (s : S)
    : result S :=
  match l with
  | [] => Ok s
  | x :: l' => s' ← f s x; fold_result f l' s'
  end.

(** *** The target of the fall risk model *)

Definition instant_of (v : value) : option Z :=
  match v with VTimestamp t => Some t | _ => None end.

(** [(device_data['Timestamp'] > row['Timestamp']) &
     (device_data['Timestamp'] <= row['Next_Day_Timestamp'])], where
    [Next_Day_Timestamp] is [Timestamp + pd.Timedelta(days=1)]; a comparison
    with NaT is false. *)
Definition in_next_day (row other : Row) : bool :=
  match instant_of (cell "Timestamp" row), instant_of (cell "Timestamp" other) with
  | Some t, Some t' => bool_decide (t < t') && bool_decide (t' <= t + day_ns)
  | _, _ => false
  end.

(** The body of the inner loop, for one row of [device_data]. *)
Definition label_row (device_data : list Row) (safety_data : DataFrame) (row : Row)
    : result DataFrame :=
  let next_day := filter (fun r => in_next_day row r = true) device_data in
  if bool_decide (0 < length next_day)%nat then
    if has_column safety_data "Fall Detected (Yes/No)" then
      if existsb (fun r => truthy (cell "Fall Detected (Yes/No)" r)) next_day
      then Ok (loc_set (label row) "Next_Day_Fall" (VBool true) safety_data)
      else Ok safety_data
    else Err (KeyError "Fall Detected (Yes/No)")
  else Ok safety_data.

(** The body of the outer loop, for one device. *)
Definition label_device (safety_data : DataFrame) (device : value)
    : result DataFrame :=
  let device_data :=
    filter (fun r => where_eq "Device-ID/User-ID" device r = true) (rows safety_data) in
  fold_result (label_row device_data) device_data safety_data.

Definition label_next_day_fall (safety_data : DataFrame) : result DataFrame :=
  devices ← column "Device-ID/User-ID" safety_data;
  fold_result label_device (unique devices) safety_data.

(** *** scikit-learn and the clock, left abstract *)

(** What a classifier is built from: the pipeline of the health predictor
    (imputers, scaler and one-hot encoder over the listed columns, then a
    random forest), or the bare random forest of the other two. *)
Inductive algorithm : Type :=
  | HealthPipeline (numerical_features categorical_features : list string)
  | RandomForest.

Record library : Type := mkLibrary {
  (** a fitted classifier *)
  Model : Type;
  (** the outcome of [train_test_split(X, y, test_size=0.25, random_state=42)] *)
  Split : Type;
  train_test_split : DataFrame -> list value -> result Split;
  (** [model.fit(X_train, y_train)] *)
  fit : algorithm -> Split -> result Model;
  (** [accuracy_score(y_test, model.predict(X_test))] *)
  score : Model -> Split -> result Q;
  (** [model.predict_proba(X)[:, 1]], one probability per row *)
  predict_proba : Model -> DataFrame -> result (list Q);
  (** [model.feature_names_in_] *)
  feature_names_in : Model -> list string;
  (** [pd.get_dummies(data, prefix=..., drop_first=...)] *)
  get_dummies : option string -> bool -> DataFrame -> DataFrame;
  (** [pd.Timestamp.now()] *)
  now : Z;
  (** [pd.to_datetime(..., format='%H:%M:%S')] on a cell, in seconds since
      midnight *)
  parse_time : value -> result (option Z)
}.

Section Session.
Context (lib : library).

(** [self.model]: a classifier that was built, and fitted or not. *)
Inductive estimator : Type :=
  | Unfitted (a : algorithm)
  | Fitted (a : algorithm) (m : Model lib).

(** The attributes of a predictor object. *)
Record Predictor : Type := mkPredictor {
  model : option estimator;
  features : option (list string);
  trained : bool
}.

(** [__init__] *)
Definition init : Predictor := mkPredictor None None false.

(** The frames that exist, addressed by position, and the predictor a method
    runs on.  A method gets the address of the caller's frame, so an update
    of that frame is seen by the caller. *)
Record State : Type := mkState { frames : list DataFrame; self : Predictor }.

Definition M (A : Type) : Type := State -> result A * State.

#[global] Instance M_ret : MRet M := fun A a σ => (Ok a, σ).
#[global] Instance M_bind : MBind M := fun A B f m σ =>
  match m σ with
  | (Ok a, σ') => f a σ'
  | (Err e, σ') => (Err e, σ')
  end.

Definition lift {A} (r : result A) : M A := fun σ => (r, σ).

(** [try: body except Exception as e: handler(e)]; what [body] changed
    before it raised stays changed. *)
Definition try_except {A} (body : M A) (handler : exn -> M A) : M A := fun σ =>
  match body σ with
  | (Ok a, σ') => (Ok a, σ')
  | (Err e, σ') => handler e σ'
  end.

Definition read (l : nat) : M DataFrame := fun σ =>
  (Ok (default (mkFrame [] []) (frames σ !! l)), σ).

Definition write (l : nat) (df : DataFrame) : M unit := fun σ =>
  (Ok tt, mkState (<[l := df]> (frames σ)) (self σ)).

(** A new frame object. *)
Definition alloc (df : DataFrame) : M nat := fun σ =>
  (Ok (length (frames σ)), mkState (frames σ ++ [df]) (self σ)).

(** [df.copy()] *)
Definition copy (l : nat) : M nat := df ← read l; alloc df.

(** An in-place update of the frame at [l]; nothing is written when the
    right-hand side raises. *)
Definition update (l : nat) (f : DataFrame -> result DataFrame) : M unit :=
  df ← read l; df' ← lift (f df); write l df'.

Definition get_self : M Predictor := fun σ => (Ok (self σ), σ).

Definition set_model (m : option estimator) : M unit := fun σ =>
  (Ok tt, mkState (frames σ) (mkPredictor m (features (self σ)) (trained (self σ)))).

Definition set_features (fs : option (list string)) : M unit := fun σ =>
  (Ok tt, mkState (frames σ) (mkPredictor (model (self σ)) fs (trained (self σ)))).

Definition set_trained (b : bool) : M unit := fun σ =>
  (Ok tt, mkState (frames σ) (mkPredictor (model (self σ)) (features (self σ)) b)).

(** What [train] returns: the dictionary with the accuracy, or the one with
    the error, whose text is [str(e)] or a fixed message. *)
Inductive error_text : Type :=
  | Raised (e : exn)
  | Fixed (s : string).

Inductive TrainingResult : Type :=
  | Success (accuracy : Q) (model_type : string) (feature_count : nat)
  | Failure (error : error_text) (model_type_and_feature_count : option (string * nat)).

(** [result_df[score] = 0; result_df[level] = 'Low'] *)
Definition sentinel (score level : string) (l : nat) : M unit :=
  update l (fun df => Ok (assign_const score (VInt 0) df));;
  update l (fun df => Ok (assign_const level (VStr "Low") df)).

(** [pd.DataFrame({...})] with one row. *)
Definition one_row (cols : list (string * value)) : DataFrame :=
  mkFrame cols.*1 [mkRow 0 (list_to_map cols)].

(** The path of every [predict] before training: a copy of the input (a
    made-up row when the input is empty) with the sentinel score and level. *)
Definition untrained_result (new_data : nat) (minimal : DataFrame)
    (score level : string) : M nat :=
  df ← read new_data;
  result_df ← (if negb (empty df) then copy new_data else alloc minimal);
  sentinel score level result_df;;
  mret result_df.

(** The [except] branch of every [predict]. *)
Definition failed_result (new_data : nat) (score level : string) : M nat :=
  result_df ← copy new_data;
  sentinel score level result_df;;
  mret result_df.

(** [model.predict_proba(X)] on [self.model]; a classifier that was not
    fitted raises. *)
Definition probabilities (est : estimator) (X : DataFrame) : result (list value) :=
  match est with
  | Fitted _ m => ps ← predict_proba lib m X; Ok (List.map VFloat ps)
  | Unfitted _ => Err ValueError
  end.

(** [self.model.fit(...)] and the evaluation that follows it. *)
Definition fit_and_score (split : Split lib) : M Q :=
  me ← get_self;
  a ← lift (match model me with
            | Some (Unfitted a) | Some (Fitted a _) => Ok a
            | None => Err AttributeError
            end);
  m ← lift (fit lib a split);
  set_model (Some (Fitted a m));;
  lift (score lib m split).

(** [len(self.features) if self.features else 0] *)
Definition feature_count (me : Predictor) : nat :=
  match features me with Some fs => length fs | None => 0%nat end.

(** The bins and labels of the three [pd.cut] calls. *)
Definition labels : list string := ["Low"; "Medium"; "High"].

End Session.
Module HealthRiskPredictor.
Section Methods.
Context (lib : library).

Definition all_features : list string :=
  ["Heart Rate"; "Systolic"; "Diastolic"; "Glucose Levels"; "SpO₂";
   "Movement Activity"; "Fall Detected (Yes/No)";
   "Reminder Sent (Yes/No)"; "Acknowledged (Yes/No)"].

(** The frame that comes back is the frame that was passed: the [Risk]
    column is written to the caller's frame. *)
Definition preprocess_data (merged_data : nat) : M lib nat :=
  df ← read lib merged_data;
  let fs := filter (fun f => has_column df f = true) all_features in
  set_features lib (Some fs);;
  update lib merged_data (assign "Has Any Alert" "Risk" Ok);;
  df ← read lib merged_data;
  let categorical_features :=
    filter (fun f => has_column df f = true) ["Movement Activity"] in
  let numerical_features := filter (fun f => f ∉ categorical_features) fs in
  set_model lib (Some (Unfitted lib (HealthPipeline numerical_features categorical_features)));;
  mret merged_data.

Definition train (merged_data : nat) : M lib TrainingResult :=
  data ← preprocess_data merged_data;
  me ← get_self lib;
  df ← read lib data;
  X ← lift lib (project (default [] (features lib me)) df);
  y ← lift lib (column "Risk" df);
  try_except lib
    (split ← lift lib (train_test_split lib X y);
     accuracy ← fit_and_score lib split;
     set_trained lib true;;
     mret (Success accuracy "Random Forest" (length (default [] (features lib me)))))
    (fun e =>
       me ← get_self lib;
       mret (Failure (Raised e) (Some ("Random Forest", feature_count lib me)))).

Definition minimal : DataFrame :=
  one_row [("Device-ID/User-ID", VStr "USER001");
           ("Timestamp", VTimestamp (now lib));
           ("Heart Rate", VInt 70);
           ("Blood Pressure", VStr "120/80");
           ("Systolic", VInt 120);
           ("Diastolic", VInt 80);
           ("Glucose Levels", VInt 100);
           ("Oxygen Saturation (SpO₂%)", VInt 98);
           ("SpO₂", VInt 98);
           ("Heart Rate Below/Above Threshold (Yes/No)", VBool false);
           ("Blood Pressure Threshold (Yes/No)", VBool false);
           ("Glucose Levels Below/Above Threshold (Yes/No)", VBool false);
           ("SpO₂ Below Threshold (Yes/No)", VBool false)].

Definition bins : list Q := [0; 3 # 10; 7 # 10; 1]%Q.

Definition predict_risk (new_data : nat) : M lib nat :=
  me ← get_self lib;
  match trained lib me, model lib me with
  | true, Some est =>
      try_except lib
        (processed_data ← copy lib new_data;
         df ← read lib processed_data;
         let fs := default [] (features lib me) in
         let missing := filter (fun f => has_column df f = false) fs in
         update lib processed_data
           (fun df => Ok (foldl (fun d f => assign_const f VNaN d) df missing));;
         df ← read lib processed_data;
         X ← lift lib (project fs df);
         probs ← lift lib (probabilities lib est X);
         update lib processed_data (assign_values "Risk_Score" probs);;
         update lib processed_data
           (assign "Risk_Score" "Risk_Level" (fun v => Ok (pd_cut bins labels v)));;
         mret processed_data)
        (fun _ => failed_result lib new_data "Risk_Score" "Risk_Level")
  | _, _ => untrained_result lib new_data minimal "Risk_Score" "Risk_Level"
  end.

End Methods.
End HealthRiskPredictor.

Module FallRiskPredictor.
Section Methods.
Context (lib : library).

(** [Hour] and [DayOfWeek] are written to the caller's frame; the sorted
    frame, which gets the target column, is a new one. *)
Definition preprocess_data (safety_data : option nat) : M lib (option nat) :=
  match safety_data with
  | None => mret None
  | Some safety_data =>
      df ← read lib safety_data;
      if bool_decide (length (rows df) = 0%nat) then mret None
      else
        update lib safety_data (assign "Timestamp" "Hour" dt_hour);;
        update lib safety_data (assign "Timestamp" "DayOfWeek" dt_dayofweek);;
        df ← read lib safety_data;
        sorted ← lift lib (sort_values ["Device-ID/User-ID"; "Timestamp"] df);
        safety_data ← alloc lib sorted;
        update lib safety_data (fun df => Ok (assign_const "Next_Day_Fall" (VBool false) df));;
        update lib safety_data label_next_day_fall;;
        set_features lib (Some ["Hour"; "DayOfWeek"; "Movement Activity"; "Location"]);;
        mret (Some safety_data)
  end.

Definition train (safety_data : option nat) : M lib TrainingResult :=
  data ← preprocess_data safety_data;
  match data with
  | None => mret (Failure (Fixed "No valid safety data for training") None)
  | Some data =>
      me ← get_self lib;
      df ← read lib data;
      selected ← lift lib (project (default [] (features lib me)) df);
      let X := get_dummies lib None true selected in
      y ← lift lib (column "Next_Day_Fall" df);
      try_except lib
        (split ← lift lib (train_test_split lib X y);
         set_model lib (Some (Unfitted lib RandomForest));;
         accuracy ← fit_and_score lib split;
         set_trained lib true;;
         mret (Success accuracy "Random Forest" (length (columns X))))
        (fun e => mret (Failure (Raised e) (Some ("Random Forest", 0%nat))))
  end.

Definition minimal : DataFrame :=
  one_row [("Device-ID/User-ID", VStr "USER001");
           ("Timestamp", VTimestamp (now lib));
           ("Movement Activity", VStr "Walking");
           ("Fall Detected (Yes/No)", VBool false);
           ("Impact Force Level", VStr "None");
           ("Post Fall Inactivity (minutes)", VInt 0);
           ("Location", VStr "Living Room")].

Definition bins : list Q := [0; 3 # 10; 6 # 10; 1]%Q.

Definition predict_fall_risk (new_data : nat) : M lib nat :=
  me ← get_self lib;
  match trained lib me, model lib me with
  | true, Some est =>
      try_except lib
        (processed_data ← copy lib new_data;
         update lib processed_data (assign "Timestamp" "Hour" dt_hour);;
         update lib processed_data (assign "Timestamp" "DayOfWeek" dt_dayofweek);;
         df ← read lib processed_data;
         selected ← lift lib (project (default [] (features lib me)) df);
         let X := get_dummies lib None true selected in
         names ← lift lib (match est with
                           | Fitted _ _ m => Ok (feature_names_in lib m)
                           | Unfitted _ _ => Err AttributeError
                           end);
         let missing_cols := filter (fun c => has_column X c = false) names in
         let X := foldl (fun d c => assign_const c (VInt 0) d) X missing_cols in
         X ← lift lib (project names X);
         probs ← lift lib (probabilities lib est X);
         update lib processed_data (assign_values "Fall_Risk_Score" probs);;
         update lib processed_data
           (assign "Fall_Risk_Score" "Fall_Risk_Level" (fun v => Ok (pd_cut bins labels v)));;
         mret processed_data)
        (fun _ => failed_result lib new_data "Fall_Risk_Score" "Fall_Risk_Level")
  | _, _ => untrained_result lib new_data minimal "Fall_Risk_Score" "Fall_Risk_Level"
  end.

End Methods.
End FallRiskPredictor.

Module ReminderEffectivenessPredictor.
Section Methods.
Context (lib : library).

(** [pd.to_datetime(..., format='%H:%M:%S').dt.hour] *)
Definition scheduled_hour (v : value) : result value :=
  o ← parse_time lib v;
  Ok (match o with Some s => VInt (s / 3600) | None => VNaN end).

(** The one-hot columns of [Reminder Type], put next to the frame. *)
Definition with_type_dummies (df : DataFrame) : result DataFrame :=
  reminder_type ← project ["Reminder Type"] df;
  Ok (concat_columns df (get_dummies lib (Some "Type") false reminder_type)).

Definition all_features : list string :=
  ["Hour"; "DayOfWeek"; "Type_Medication"; "Type_Appointment";
   "Type_Exercise"; "Type_Hydration"].

(** [Hour] and [DayOfWeek] are written to the caller's frame; the frame
    that [pd.concat] returns is a new one. *)
Definition preprocess_data (reminder_data : option nat) : M lib (option nat) :=
  match reminder_data with
  | None => mret None
  | Some reminder_data =>
      df ← read lib reminder_data;
      if bool_decide (length (rows df) = 0%nat) then mret None
      else
        update lib reminder_data (assign "Scheduled Time" "Hour" scheduled_hour);;
        update lib reminder_data (assign "Timestamp" "DayOfWeek" dt_dayofweek);;
        df ← read lib reminder_data;
        joined ← lift lib (with_type_dummies df);
        reminder_data ← alloc lib joined;
        update lib reminder_data (assign "Acknowledged (Yes/No)" "Effective" Ok);;
        df ← read lib reminder_data;
        set_features lib (Some (filter (fun f => has_column df f = true) all_features));;
        mret (Some reminder_data)
  end.

Definition train (reminder_data : option nat) : M lib TrainingResult :=
  data ← preprocess_data reminder_data;
  match data with
  | None => mret (Failure (Fixed "No valid reminder data for training") None)
  | Some data =>
      df ← read lib data;
      sent ← lift lib (select_eq "Reminder Sent (Yes/No)" (VBool true) df);
      if bool_decide (length (rows sent) = 0%nat)
      then mret (Failure (Fixed "No sent reminders in the data") None)
      else
        me ← get_self lib;
        X ← lift lib (project (default [] (features lib me)) sent);
        y ← lift lib (column "Effective" sent);
        try_except lib
          (split ← lift lib (train_test_split lib X y);
           set_model lib (Some (Unfitted lib RandomForest));;
           accuracy ← fit_and_score lib split;
           set_trained lib true;;
           mret (Success accuracy "Random Forest" (feature_count lib me)))
          (fun e =>
             me ← get_self lib;
             mret (Failure (Raised e) (Some ("Random Forest", feature_count lib me))))
  end.

Definition minimal : DataFrame :=
  one_row [("Device-ID/User-ID", VStr "USER001");
           ("Timestamp", VTimestamp (now lib));
           ("Reminder Type", VStr "Medication");
           ("Scheduled Time", VTime (now lib mod day_ns / 1000000000));
           ("Reminder Sent (Yes/No)", VBool true);
           ("Acknowledged (Yes/No)", VBool false)].

Definition bins : list Q := [0; 3 # 10; 7 # 10; 1]%Q.

Definition predict_effectiveness (new_data : nat) : M lib nat :=
  me ← get_self lib;
  match trained lib me, model lib me with
  | true, Some est =>
      try_except lib
        (processed_data ← copy lib new_data;
         update lib processed_data (assign "Scheduled Time" "Hour" scheduled_hour);;
         update lib processed_data (assign "Timestamp" "DayOfWeek" dt_dayofweek);;
         update lib processed_data with_type_dummies;;
         let fs := default [] (features lib me) in
         update lib processed_data
           (fun df => Ok (foldl (fun d f => if has_column d f then d
                                            else assign_const f (VInt 0) d) df fs));;
         df ← read lib processed_data;
         X ← lift lib (project fs df);
         probs ← lift lib (probabilities lib est X);
         update lib processed_data (assign_values "Effectiveness_Score" probs);;
         update lib processed_data
           (assign "Effectiveness_Score" "Effectiveness_Level"
              (fun v => Ok (pd_cut bins labels v)));;
         mret processed_data)
        (fun _ => failed_result lib new_data "Effectiveness_Score" "Effectiveness_Level")
  | _, _ =>
      untrained_result lib new_data minimal "Effectiveness_Score" "Effectiveness_Level"
  end.

End Methods.
End ReminderEffectivenessPredictor.

End predictive_models.
Export predictive_models.

(** ** Conditions on frames and the words of the rules *)

Module conditions.

Definition has_cells (cs : list string) (r : Row) : bool :=
  forallb (fun c => bool_decide (is_Some (cells r !! c))) cs.

(** Every name of [cs] is a column, and every row has a cell in it. *)
Definition frame_has (cs : list string) (df : DataFrame) : bool :=
  forallb (has_column df) cs && forallb (has_cells cs) (rows df).

Definition health_columns : list string :=
  ["Alert Triggered (Yes/No)"; "Device-ID/User-ID"; "Timestamp";
   "Heart Rate Below/Above Threshold (Yes/No)"; "Heart Rate";
   "Blood Pressure Below/Above Threshold (Yes/No)"; "Blood Pressure";
   "Glucose Levels Below/Above Threshold (Yes/No)"; "Glucose Levels";
   "SpO₂ Below Threshold (Yes/No)"; "Oxygen Saturation (SpO₂%)";
   "Caregiver Notified (Yes/No)"].

Definition threshold_flags : list string :=
  ["Heart Rate Below/Above Threshold (Yes/No)";
   "Blood Pressure Below/Above Threshold (Yes/No)";
   "Glucose Levels Below/Above Threshold (Yes/No)";
   "SpO₂ Below Threshold (Yes/No)"].

(** The event's alert-triggered flag is 'Yes'. *)
Definition alert_triggered (r : Row) : bool :=
  where_eq "Alert Triggered (Yes/No)" (VStr "Yes") r.

(** How many of the four threshold flags of the event are 'Yes'. *)
Definition flags_set (r : Row) : nat :=
  length (List.filter (fun c => where_eq c (VStr "Yes") r) threshold_flags).

Definition safety_columns : list string :=
  ["Fall Detected (Yes/No)"; "Device-ID/User-ID"; "Timestamp"; "Location";
   "Impact Force Level"; "Post-Fall Inactivity Duration (Seconds)";
   "Caregiver Notified (Yes/No)"].

(** A cell that [>] accepts: a number or NaN. *)
Definition comparable (v : value) : bool :=
  match v with VInt _ | VFloat _ | VBool _ | VNaN => true | _ => false end.

Definition safety_frame_ok (df : DataFrame) : bool :=
  frame_has safety_columns df
  && forallb (fun r => comparable (cell "Post-Fall Inactivity Duration (Seconds)" r))
       (rows df).

Definition fall_detected (r : Row) : bool :=
  where_eq "Fall Detected (Yes/No)" (VBool true) r.

(** The cell is a number greater than [n]. *)
Definition exceeds (v : value) (n : Z) : Prop :=
  exists x, as_number v = Some x /\ (inject_Z n < x)%Q.

Definition reminder_columns : list string :=
  ["Reminder Sent (Yes/No)"; "Acknowledged (Yes/No)"; "Device-ID/User-ID";
   "Timestamp"; "Reminder Type"; "Scheduled Time"].

(** sent = true, acknowledged = false, and the type is Medication or
    Appointment. *)
Definition alerting (r : Row) : bool :=
  py_eq (cell "Reminder Sent (Yes/No)" r) (VBool true)
  && py_eq (cell "Acknowledged (Yes/No)" r) (VBool false)
  && (bool_decide (cell "Reminder Type" r = VStr "Medication")
      || bool_decide (cell "Reminder Type" r = VStr "Appointment")).

(** The [Timestamp] cells of the frame are instants. *)
Definition is_timestamp (v : value) : bool :=
  match v with VTimestamp _ => true | _ => false end.

Definition instants (df : DataFrame) : bool :=
  forallb (fun r => is_timestamp (cell "Timestamp" r)) (rows df).


(** Order and equality of sort keys that are instants. *)
Section Keys.
Context {A : Type} (key : A -> value).


Definition key_lt (x y : A) : Prop :=
  exists tx ty, key x = VTimestamp tx /\ key y = VTimestamp ty /\ tx < ty.

Definition key_le (x y : A) : Prop :=
  exists tx ty, key x = VTimestamp tx /\ key y = VTimestamp ty /\ tx <= ty.

Definition at_key (t : Z) (x : A) : Prop := key x = VTimestamp t.

#[global] Instance at_key_dec t x : Decision (at_key t x).
Proof. unfold at_key. apply _. Defined.

(** The order within the run a list starts with: in a descending run each
    element is smaller than the one before it, in the other it is not. *)
Definition run_order (descending : bool) : relation A :=
  if descending then flip key_lt else key_le.
End Keys.

(** The frames the target of the fall risk model is built from: events
    with a device, a timestamp that [.dt] accepts and a fall flag, under
    distinct index labels. *)
Definition activity_columns : list string :=
  ["Device-ID/User-ID"; "Timestamp"; "Fall Detected (Yes/No)"].

Definition activity_frame_ok (df : DataFrame) : bool :=
  negb (bool_decide (rows df = []))
  && frame_has activity_columns df
  && forallb (fun r => is_Ok (dt_hour (cell "Timestamp" r))) (rows df)
  && bool_decide (NoDup (label <$> rows df)).

(** [other] lies in the 24 hours after [anchor]: strictly later, and at
    most [day_ns] later. *)
Definition within_next_day (anchor other : value) : Prop :=
  exists t t', anchor = VTimestamp t /\ other = VTimestamp t' /\
               t < t' <= t + day_ns.

(** Some event of the same device in the 24 hours after [r] is a fall. *)
Definition fall_in_next_day (events : list Row) (r : Row) : Prop :=
  exists r', r' ∈ events /\
    py_eq (cell "Device-ID/User-ID" r') (cell "Device-ID/User-ID" r) = true /\
    within_next_day (cell "Timestamp" r) (cell "Timestamp" r') /\
    truthy (cell "Fall Detected (Yes/No)" r') = true.

(** [r'] is the event [r] with its target: the same label, device,
    timestamp and fall flag, and [Next_Day_Fall] true exactly when a fall
    of the device follows within 24 hours. *)
Definition labelled (events : list Row) (r r' : Row) : Prop :=
  label r' = label r /\
  cell "Device-ID/User-ID" r' = cell "Device-ID/User-ID" r /\
  cell "Timestamp" r' = cell "Timestamp" r /\
  cell "Fall Detected (Yes/No)" r' = cell "Fall Detected (Yes/No)" r /\
  exists b, cell "Next_Day_Fall" r' = VBool b /\
            (b = true <-> fall_in_next_day events r).

(** The outcome of a [predict] that took the sentinel path on the frame at
    [new_data]: a new frame, the caller's frame as it was, score 0 and level
    "Low" in every row, and the rows of the input (of the made-up frame when
    the input is empty) under these two columns. *)
Definition sentinel_outcome (lib : library) (σ : State lib) (new_data : nat)
    (minimal : DataFrame) (score level : string)
    (outcome : result nat * State lib) : Prop :=
  exists result_df scored,
    outcome.1 = Ok result_df /\
    frames lib outcome.2 !! result_df = Some scored /\
    result_df <> new_data /\
    frames lib outcome.2 !! new_data = frames lib σ !! new_data /\
    Forall (fun r => cell score r = VInt 0 /\ cell level r = VStr "Low") (rows scored) /\
    forall df, frames lib σ !! new_data = Some df ->
      rows scored = (fun r => set level (VStr "Low") (set score (VInt 0) r))
                      <$> (if empty df then rows minimal else rows df).


(** The two numbers of the first digits-slash-digits in a blood pressure
    text; none when the cell is not text or the text has no such part. *)
Definition blood_pressure (v : value) : option (Z * Z) :=
  match v with
  | VStr s =>
      match search s with
      | Some (a, b) => Some (decimal 0 a, decimal 0 b)
      | None => None
      end
  | _ => None
  end.

Definition stripped (name : string) : bool := bool_decide (strip name = name).

(** The raw health frames [process_health_data] is stated for: timestamps
    that [pd.to_datetime] converts, column names without surrounding white
    space, a blood pressure column, and an oxygen saturation column, if
    there is one, that [astype(int)] converts. *)
Definition health_raw_ok (parse_datetime : value -> result (option Z))
    (df : DataFrame) : bool :=
  frame_has ["Timestamp"; "Blood Pressure"] df
  && forallb (fun r => is_Ok (to_datetime parse_datetime (cell "Timestamp" r))) (rows df)
  && forallb stripped (columns df)
  && forallb (fun r => forallb (fun kv => stripped kv.1) (map_to_list (cells r))) (rows df)
  && (negb (has_column df "Oxygen Saturation (SpO₂%)")
      || forallb (fun r => bool_decide (is_Some (cells r !! "Oxygen Saturation (SpO₂%)"))
                           && is_Ok (astype_int (cell "Oxygen Saturation (SpO₂%)" r)))
           (rows df)).

(** *** What the rules make of one event *)

Section Outcomes.
Variable float_repr : Q -> string.
Variable isoformat : value -> string.

(** What the health rule makes of one triggered event. *)
Definition health_alert_of (row : Row) (a : Alert) : Prop :=
  Alert_Type a = "Health" /\
  Device_ID a = cell "Device-ID/User-ID" row /\
  Timestamp a = cell "Timestamp" row /\
  Priority a = if bool_decide (1 < flags_set row)%nat then "High" else "Medium".

(** What the fall rule makes of one fall event. *)
Definition safety_alert_of (row : Row) (a : Alert) : Prop :=
  Alert_Type a = "Fall" /\
  Device_ID a = cell "Device-ID/User-ID" row /\
  Timestamp a = cell "Timestamp" row /\
  Message a =
    "Fall detected in " +:+ py_str float_repr isoformat (cell "Location" row)
      +:+ " with " +:+ py_str float_repr isoformat (cell "Impact Force Level" row)
      +:+ " impact. "
      +:+ py_str float_repr isoformat (cell "Post-Fall Inactivity Duration (Seconds)" row)
      +:+ " seconds of inactivity." /\
  (Priority a = "High" <->
     cell "Impact Force Level" row = VStr "High" \/
     exceeds (cell "Post-Fall Inactivity Duration (Seconds)" row) 300) /\
  (Priority a = "High" \/ Priority a = "Medium").

(** What the reminder rule makes of one alerting reminder. *)
Definition reminder_alert_of (row : Row) (a : Alert) : Prop :=
  Alert_Type a = "Reminder" /\
  Device_ID a = cell "Device-ID/User-ID" row /\
  Timestamp a = cell "Timestamp" row /\
  Status a = "Active" /\
  (cell "Reminder Type" row = VStr "Medication" -> Priority a = "Medium") /\
  (cell "Reminder Type" row = VStr "Appointment" -> Priority a = "Low").

End Outcomes.

(** The blood pressure column holds ASCII text, in at least one row. *)
Definition is_ascii (s : string) : bool :=
  forallb (fun c => (nat_of_ascii c <? 128)%nat) (list_ascii_of_string s).

Definition ascii_text (v : value) : bool :=
  match v with VStr s => is_ascii s | _ => true end.

Definition blood_pressure_text (df : DataFrame) : bool :=
  negb (bool_decide (rows df = []))
  && forallb (fun r => ascii_text (cell "Blood Pressure" r)) (rows df).

(** Strings of decimal digits only. *)
Fixpoint all_digits (s : string) : bool :=
  match s with
  | String c s' => is_digit c && all_digits s'
  | EmptyString => true
  end.

(** Every row has a cell in every column. *)
Definition complete (df : DataFrame) : bool :=
  forallb (has_cells (columns df)) (rows df).

(** The raw frames the normalizers are stated for: a [Timestamp] column that
    [pd.to_datetime] converts, and column names without surrounding white
    space. *)
Definition raw_ok (parse_datetime : value -> result (option Z)) (df : DataFrame) : bool :=
  has_column df "Timestamp" && complete df
  && forallb (fun r => is_Ok (to_datetime parse_datetime (cell "Timestamp" r))) (rows df)
  && forallb stripped (columns df)
  && forallb (fun r => forallb (fun kv => stripped kv.1) (map_to_list (cells r))) (rows df).



(** There is a [Scheduled Time] column, and the times in it parse. *)
Definition scheduled_times_ok (parse_time : value -> result (option Z))
    (df : DataFrame) : bool :=
  has_column df "Scheduled Time"
  && forallb (fun r => is_Ok (to_time parse_time (cell "Scheduled Time" r))) (rows df).

(** Every blood pressure has the two groups, and both fit 64 bits. *)
Definition blood_pressure_fits (df : DataFrame) : bool :=
  forallb (fun r => match blood_pressure (cell "Blood Pressure" r) with
                    | Some (x, y) =>
                        bool_decide (x <= int64_max) && bool_decide (y <= int64_max)
                    | None => false
                    end) (rows df).

End conditions.
Export conditions.

(** ** Bookkeeping for the loops of the fall risk target *)

Module bookkeeping.

(** The rows whose labels are in [L] have [Next_Day_Fall] set. *)
Definition mark (L : list Z) (r : Row) : Row :=
  if bool_decide (label r ∈ L) then set "Next_Day_Fall" (VBool true) r else r.

(** What the inner loop finds for [row] among the events [dd]. *)
Definition falls_next (dd : list Row) (row : Row) : bool :=
  existsb (fun r => in_next_day row r && truthy (cell "Fall Detected (Yes/No)" r)) dd.

(** One turn of the inner loop, and one of the outer loop, on the list of
    labels set so far. *)
Definition step (dd : list Row) (L : list Z) (row : Row) : list Z :=
  if falls_next dd row then label row :: L else L.

(** [device_data] for the device [d]. *)
Definition of_device (d : value) (rs : list Row) : list Row :=
  filter (fun r => where_eq "Device-ID/User-ID" d r = true) rs.

Definition device_step (rs : list Row) (L : list Z) (d : value) : list Z :=
  foldl (step (of_device d rs)) L (of_device d rs).

(** The value of a result that is known to be there. *)
Definition unwrap (r : result value) : value :=
  match r with Ok v => v | Err _ => VNaN end.

(** The row after [Hour], [DayOfWeek] and the initial [Next_Day_Fall]. *)
Definition with_time_features (r : Row) : Row :=
  let r1 := set "Hour" (unwrap (dt_hour (cell "Timestamp" r))) r in
  set "DayOfWeek" (unwrap (dt_dayofweek (cell "Timestamp" r1))) r1.

Definition unlabelled (r : Row) : Row :=
  set "Next_Day_Fall" (VBool false) (with_time_features r).

(** The rows of the health normalizer, step by step: after the common
    steps, after the extraction of the two groups, after the casts, and
    after the oxygen saturation alias. *)
Definition common_row (parse_datetime : value -> result (option Z)) (r : Row) : Row :=
  let r1 := set "Timestamp" (unwrap (to_datetime parse_datetime (cell "Timestamp" r))) r in
  set "Date" (unwrap (dt_date (cell "Timestamp" r1))) r1.

Definition extracted_row (parse_datetime : value -> result (option Z)) (r : Row) : Row :=
  let r2 := common_row parse_datetime r in
  let r3 := set "Systolic" (str_extract (cell "Blood Pressure" r2)).1 r2 in
  set "Diastolic" (str_extract (cell "Blood Pressure" r3)).2 r3.

Definition cast_row (r : Row) : Row :=
  let r4 := set "Systolic" (unwrap (astype_int (cell "Systolic" r))) r in
  set "Diastolic" (unwrap (astype_int (cell "Diastolic" r4))) r4.

Definition extracted_columns (df : DataFrame) : list string :=
  add_column "Diastolic" (add_column "Systolic" (add_column "Date" (columns df))).

Definition with_spo2 (r : Row) : Row :=
  set "SpO₂" (unwrap (astype_int (cell "Oxygen Saturation (SpO₂%)" r))) r.

Definition normalized_health_row (parse_datetime : value -> result (option Z))
    (oxygen : bool) (r : Row) : Row :=
  let r5 := cast_row (extracted_row parse_datetime r) in
  if oxygen then with_spo2 r5 else r5.

(** The row after [if col in df.columns: df[col] = g(df[col])]. *)
Definition mapped (present : bool) (col : string) (g : value -> value) (r : Row) : Row :=
  if present then set col (g (cell col r)) r else r.

(** The rows [process_safety_data] and [process_reminder_data] return. *)
Definition normalized_safety_row (parse_datetime : value -> result (option Z))
    (df : DataFrame) (r : Row) : Row :=
  let flag c := mapped (has_column df c) c map_yes_no in
  flag "Caregiver Notified (Yes/No)"
    (flag "Alert Triggered (Yes/No)"
       (flag "Fall Detected (Yes/No)"
          (mapped (has_column df "Post-Fall Inactivity Duration (Seconds)")
             "Post-Fall Inactivity Duration (Seconds)" fillna_0
             (common_row parse_datetime r)))).

Definition normalized_reminder_row (parse_datetime parse_time : value -> result (option Z))
    (df : DataFrame) (r : Row) : Row :=
  let flag c := mapped (has_column df c) c map_yes_no in
  let r2 := common_row parse_datetime r in
  flag "Acknowledged (Yes/No)"
    (flag "Reminder Sent (Yes/No)"
       (set "Scheduled Time" (unwrap (to_time parse_time (cell "Scheduled Time" r2))) r2)).

(** The columns [process_health_data] returns. *)
Definition normalized_health_columns (df : DataFrame) : list string :=
  let cols := add_column "Diastolic" (add_column "Systolic" (extracted_columns df)) in
  if has_column df "Oxygen Saturation (SpO₂%)" then add_column "SpO₂" cols else cols.

(** The row [process_health_data] returns, as the raw row with the derived
    fields put over it. *)
Definition health_row (parse_datetime : value -> result (option Z))
    (oxygen : bool) (r : Row) : Row :=
  let v1 := unwrap (to_datetime parse_datetime (cell "Timestamp" r)) in
  let bp := str_extract (cell "Blood Pressure" r) in
  let m := <["Diastolic" := unwrap (astype_int bp.2)]>
             (<["Systolic" := unwrap (astype_int bp.1)]>
                (<["Date" := unwrap (dt_date v1)]>
                   (<["Timestamp" := v1]> (cells r)))) in
  mkRow (label r)
    (if oxygen
     then <["SpO₂" := unwrap (astype_int (cell "Oxygen Saturation (SpO₂%)" r))]> m
     else m).

End bookkeeping.
Export bookkeeping.

(** ** Assertions on the predictors' store *)

Module triples.
Section Triples.
Context {lib : library}.

(** [m], started in a state that satisfies [P], ends with a result and in a
    state that satisfy [Q]. *)
Definition hoare {A} (P : State lib -> Prop) (m : M lib A)
    (Q : result A -> State lib -> Prop) : Prop :=
  forall σ, P σ -> Q (m σ).1 (m σ).2.

(** The postcondition that asks [Q] of a value returned and [E] of the state
    an exception leaves. *)
Definition post {A} (Q : A -> State lib -> Prop) (E : State lib -> Prop)
    : result A -> State lib -> Prop :=
  fun r σ => match r with Ok a => Q a σ | Err _ => E σ end.

(** The frames [fs] that existed are still there, as they were. *)
Definition frames_kept (fs : list DataFrame) (σ : State lib) : Prop :=
  fs `prefix_of` frames lib σ.

(** They are, and [l] is the address of a frame made since. *)
Definition made_since (fs : list DataFrame) (l : nat) (σ : State lib) : Prop :=
  frames_kept fs σ /\ (length fs <= l < length (frames lib σ))%nat.

(** The predictor is trained, or not, as [b] says. *)
Definition trained_is (b : bool) (σ : State lib) : Prop :=
  trained lib (self lib σ) = b.

(** Nothing happened to the flag, whether the operation returned or raised. *)
Definition unchanged (b : bool) {A} : result A -> State lib -> Prop :=
  post (fun _ => trained_is b) (trained_is b).

(** After [train]: the flag is set when the accuracy came back, and is what
    it was when the error dictionary did or an exception left. *)
Definition train_post (b : bool) : result TrainingResult -> State lib -> Prop :=
  post (fun res => match res with
                   | Success _ _ _ => trained_is true
                   | Failure _ _ => trained_is b
                   end)
       (trained_is b).

Definition train_outcome (σ : State lib) (outcome : result TrainingResult * State lib)
    : Prop :=
  train_post (trained lib (self lib σ)) outcome.1 outcome.2.

(** The operation returned the address of a frame made during the call, and
    left the frames of [σ] in place and as they were. *)
Definition new_frame (σ : State lib) (outcome : result nat * State lib) : Prop :=
  exists l, outcome.1 = Ok l /\
            frames lib σ `prefix_of` frames lib outcome.2 /\
            (length (frames lib σ) <= l < length (frames lib outcome.2))%nat.

(** The operation returned a frame that holds the rows of the caller's frame
    with score 0 and level "Low". *)
Definition low_risk (σ : State lib) (new_data : nat) (score level : string)
    (outcome : result nat * State lib) : Prop :=
  exists result_df scored,
    outcome.1 = Ok result_df /\
    frames lib outcome.2 !! result_df = Some scored /\
    forall df, frames lib σ !! new_data = Some df ->
      rows scored = (fun r => set level (VStr "Low") (set score (VInt 0) r)) <$> rows df.

End Triples.
End triples.
Export triples.

(** ** Example batches *)

Module Examples.

Definition no_repr : Q -> string := fun _ => "".
Definition no_isoformat : value -> string := fun _ => "".

Definition frame_of (cols : list string) (rs : list (list value)) : DataFrame :=
  mkFrame cols
    (imap (fun i vs => mkRow (Z.of_nat i) (list_to_map (zip cols vs))) rs).

Definition hour : Z := 3600 * 1000000000.

(** Two health events: heart rate and blood pressure out of range, then
    glucose alone; and one that triggered no alert. *)
Definition health_batch : DataFrame :=
  frame_of health_columns
    [ [VStr "Yes"; VStr "U1"; VTimestamp (10 * hour);
       VStr "Yes"; VInt 180; VStr "Yes"; VStr "150/95";
       VStr "No"; VInt 95; VStr "No"; VInt 98; VStr "No"];
      [VStr "Yes"; VStr "U1"; VTimestamp (12 * hour);
       VStr "No"; VInt 72; VStr "No"; VStr "120/80";
       VStr "Yes"; VInt 210; VStr "No"; VInt 97; VStr "Yes"];
      [VStr "No"; VStr "U3"; VTimestamp (13 * hour);
       VStr "No"; VInt 70; VStr "No"; VStr "118/79";
       VStr "No"; VInt 99; VStr "No"; VInt 99; VStr "No"] ].

(** Three safety events after normalization: two falls and no fall. *)
Definition safety_batch : DataFrame :=
  frame_of safety_columns
    [ [VBool true; VStr "U2"; VTimestamp (12 * hour); VStr "Bathroom";
       VStr "Low"; VInt 45; VBool true];
      [VBool true; VStr "U2"; VTimestamp (11 * hour); VStr "Kitchen";
       VStr "Medium"; VInt 400; VBool false];
      [VBool false; VStr "U1"; VTimestamp (9 * hour); VStr "Bedroom";
       VStr ""; VInt 0; VBool false] ].

(** Reminders after normalization. *)
Definition reminder_batch : DataFrame :=
  frame_of reminder_columns
    [ [VBool true; VBool false; VStr "U1"; VTimestamp (12 * hour);
       VStr "Medication"; VTime 28800];
      [VBool true; VBool false; VStr "U1"; VTimestamp (8 * hour);
       VStr "Exercise"; VTime 25200];
      [VBool true; VBool true; VStr "U2"; VTimestamp (7 * hour);
       VStr "Appointment"; VTime 32400];
      [VBool true; VBool false; VStr "U2"; VTimestamp (14 * hour);
       VStr "Appointment"; VTime 50400] ].

(** Safety events as they are read, with textual flags, and what
    [process_safety_data] makes of them. *)
Definition safety_raw : DataFrame :=
  frame_of safety_columns
    [ [VStr "Yes"; VStr "U2"; VTimestamp (12 * hour); VStr "Bathroom";
       VStr "Low"; VInt 45; VStr "Yes"];
      [VStr "No"; VStr "U1"; VTimestamp (9 * hour); VStr "Bedroom";
       VStr ""; VNaN; VStr "No"] ].

Definition safety_normalized : DataFrame :=
  frame_of (safety_columns ++ ["Date"])
    [ [VBool true; VStr "U2"; VTimestamp (12 * hour); VStr "Bathroom";
       VStr "Low"; VInt 45; VBool true; VDate 0];
      [VBool false; VStr "U1"; VTimestamp (9 * hour); VStr "Bedroom";
       VStr ""; VInt 0; VBool false; VDate 0] ].

Definition safety_renormalized : DataFrame :=
  frame_of (safety_columns ++ ["Date"])
    [ [VNaN; VStr "U2"; VTimestamp (12 * hour); VStr "Bathroom";
       VStr "Low"; VInt 45; VNaN; VDate 0];
      [VNaN; VStr "U1"; VTimestamp (9 * hour); VStr "Bedroom";
       VStr ""; VInt 0; VNaN; VDate 0] ].

(** Reminders as they are read, and normalized once and twice. *)
Definition reminder_raw : DataFrame :=
  frame_of reminder_columns
    [ [VStr "Yes"; VStr "No"; VStr "U1"; VTimestamp (12 * hour);
       VStr "Medication"; VStr "08:00:00"] ].

Definition reminder_normalized : DataFrame :=
  frame_of (reminder_columns ++ ["Date"])
    [ [VBool true; VBool false; VStr "U1"; VTimestamp (12 * hour);
       VStr "Medication"; VTime 28800; VDate 0] ].

Definition reminder_renormalized : DataFrame :=
  frame_of (reminder_columns ++ ["Date"])
    [ [VNaN; VNaN; VStr "U1"; VTimestamp (12 * hour);
       VStr "Medication"; VTime 28800; VDate 0] ].

(** Raw health events, and the normalized frame. *)
Definition health_raw_columns : list string :=
  ["Device-ID/User-ID"; "Timestamp"; "Heart Rate"; "Blood Pressure";
   "Glucose Levels"; "Oxygen Saturation (SpO₂%)"].

Definition health_raw : DataFrame :=
  frame_of health_raw_columns
    [ [VStr "U1"; VTimestamp (10 * hour); VInt 180; VStr "150/95"; VInt 95; VInt 98];
      [VStr "U3"; VTimestamp (37 * hour); VInt 70; VStr "118/79"; VInt 99; VInt 99] ].

Definition health_normalized : DataFrame :=
  frame_of (health_raw_columns ++ ["Date"; "Systolic"; "Diastolic"; "SpO₂"])
    [ [VStr "U1"; VTimestamp (10 * hour); VInt 180; VStr "150/95"; VInt 95; VInt 98;
       VDate 0; VInt 150; VInt 95; VInt 98];
      [VStr "U3"; VTimestamp (37 * hour); VInt 70; VStr "118/79"; VInt 99; VInt 99;
       VDate 1; VInt 118; VInt 79; VInt 99] ].

(** A [pd.to_datetime] that converts no text; the timestamps of the frames
    below are instants already. *)
Definition unparsed : value -> result (option Z) := fun _ => Err ValueError.

(** A blood pressure without the pattern, and one whose systolic part does
    not fit 64 bits. *)
Definition health_no_pattern : DataFrame :=
  frame_of health_raw_columns
    [ [VStr "U1"; VTimestamp (10 * hour); VInt 180; VStr "n/a"; VInt 95; VInt 98] ].

Definition health_too_large : DataFrame :=
  frame_of health_raw_columns
    [ [VStr "U1"; VTimestamp (10 * hour); VInt 180;
       VStr "99999999999999999999/80"; VInt 95; VInt 98] ].

(** Safety events with the columns the fall risk model reads: one device,
    no fall at 100h, a fall two hours later, no fall thirty hours later. *)
Definition movement_columns : list string :=
  ["Device-ID/User-ID"; "Timestamp"; "Movement Activity";
   "Fall Detected (Yes/No)"; "Location"].

(** The three events of one device at [t0], two hours later (a fall) and
    thirty hours later. *)
Definition three_events (device : string) (t0 : Z) : DataFrame :=
  frame_of movement_columns
    [ [VStr device; VTimestamp t0; VStr "Walking"; VBool false; VStr "Kitchen"];
      [VStr device; VTimestamp (t0 + 2 * hour); VStr "Walking"; VBool true;
       VStr "Bathroom"];
      [VStr device; VTimestamp (t0 + 30 * hour); VStr "Sitting"; VBool false;
       VStr "Bedroom"] ].

Definition activity_batch : DataFrame := three_events "U1" (100 * hour).

(** A merged frame for the health risk model. *)
Definition merged_batch : DataFrame :=
  frame_of ["Device-ID/User-ID"; "Heart Rate"; "Systolic"; "Has Any Alert"]
    [ [VStr "U1"; VInt 180; VInt 150; VBool true];
      [VStr "U3"; VInt 70; VInt 118; VBool false] ].

(** The score and level columns of the frame a predict operation returned. *)
Definition scored (score level : string) {lib : library}
    (outcome : result nat * State lib) : option (list (value * value)) :=
  match outcome with
  | (Ok l, σ) =>
      (fun df => (fun r => (cell score r, cell level r)) <$> rows df) <$> frames lib σ !! l
  | (Err _, _) => None
  end.

(** The columns of the caller's frame, at address 0, after an operation. *)
Definition columns_after {A : Type} {lib : library} (outcome : result A * State lib)
    : option (list string) :=
  columns <$> frames lib outcome.2 !! 0%nat.

(** A stand-in for scikit-learn: the classifier gives every row the
    probability [p]. *)
Definition constant_classifier (p : Q) : library := {|
  Model := unit;
  Split := unit;
  train_test_split := fun _ _ => Ok tt;
  fit := fun _ _ => Ok tt;
  score := fun _ _ => Ok 1%Q;
  predict_proba := fun _ X => Ok (List.map (fun _ => p) (rows X));
  feature_names_in := fun _ => [];
  get_dummies := fun _ _ X => X;
  now := 0;
  parse_time := fun v =>
    match v with
    | VStr "08:00:00" => Ok (Some 28800)
    | VStr "14:00:00" => Ok (Some 50400)
    | VTime s => Ok (Some s)
    | _ => Err ValueError
    end
|}.

(** A session that holds the given frames and a predictor just built. *)
Definition fresh (lib : library) (fs : list DataFrame) : State lib :=
  mkState lib fs (init lib).

(** A frame with the flag columns of the three rules only, and one event that
    none of the rules picks. *)
Definition flags_only : DataFrame :=
  frame_of ["Alert Triggered (Yes/No)"; "Fall Detected (Yes/No)";
            "Reminder Sent (Yes/No)"; "Acknowledged (Yes/No)"]
    [ [VStr "No"; VBool false; VBool true; VBool true] ].

(** A frame with columns and no rows. *)
Definition no_rows : DataFrame := mkFrame ["Device-ID/User-ID"; "Timestamp"] [].

(** A stand-in for scikit-learn whose classifier raises when asked for
    probabilities. *)
Definition failing_classifier : library := {|
  Model := unit;
  Split := unit;
  train_test_split := fun _ _ => Ok tt;
  fit := fun _ _ => Ok tt;
  score := fun _ _ => Ok 1%Q;
  predict_proba := fun _ _ => Err ValueError;
  feature_names_in := fun _ => [];
  get_dummies := fun _ _ X => X;
  now := 0;
  parse_time := fun _ => Err ValueError
|}.

(** A session that holds the given frames and a predictor trained on the
    features [fs]. *)
Definition trained_session (lib : library) (m : Model lib) (fs : list string)
    (frames : list DataFrame) : State lib :=
  mkState lib frames (mkPredictor lib (Some (Fitted lib RandomForest m)) (Some fs) true).

(** A stand-in for scikit-learn whose [fit] raises. *)
Definition failing_fit : library := {|
  Model := unit;
  Split := unit;
  train_test_split := fun _ _ => Ok tt;
  fit := fun _ _ => Err ValueError;
  score := fun _ _ => Ok 1%Q;
  predict_proba := fun _ X => Ok (List.map (fun _ => 1%Q) (rows X));
  feature_names_in := fun _ => [];
  get_dummies := fun _ _ X => X;
  now := 0;
  parse_time := fun _ => Err ValueError
|}.



End Examples.

(** * Properties *)

(** ** The result monad and frames *)

Lemma for_each_Forall2 {A B} (f : A -> result B) (R : A -> B -> Prop) (l : list A) :
  Forall (fun x => exists y, f x = Ok y /\ R x y) l ->
  exists ys, for_each f l = Ok ys /\ Forall2 R l ys.
Proof.
  induction 1 as [|x l (y & Hy & HR) _ (ys & Hys & IH)]; simpl.
  - exists []. split; [reflexivity | constructor].
  - exists (y :: ys). rewrite Hy, Hys. split; [reflexivity | by constructor].
Qed.

Lemma has_cells_lookup cs r c :
  has_cells cs r = true -> c ∈ cs -> exists v, cells r !! c = Some v.
Proof.
  unfold has_cells. rewrite forallb_forall. intros H Hc.
  apply list_elem_of_In in Hc. apply H in Hc.
  apply bool_decide_eq_true_1 in Hc. destruct Hc as [v Hv]. eauto.
Qed.

Lemma frame_has_rows cs df r :
  frame_has cs df = true -> r ∈ rows df -> has_cells cs r = true.
Proof.
  unfold frame_has. rewrite andb_true_iff, !forallb_forall.
  intros [_ H] Hr. apply H. by apply list_elem_of_In.
Qed.

Lemma frame_has_column cs df c :
  frame_has cs df = true -> c ∈ cs -> has_column df c = true.
Proof.
  unfold frame_has. rewrite andb_true_iff, !forallb_forall.
  intros [H _] Hc. apply H. by apply list_elem_of_In.
Qed.

Lemma py_eq_str v s : py_eq v (VStr s) = true <-> v = VStr s.
Proof.
  unfold py_eq. destruct v; simpl; try (split; [discriminate|congruence]).
  rewrite bool_decide_eq_true. split; congruence.
Qed.

Lemma where_eq_cell c k r : where_eq c k r = py_eq (cell c r) k.
Proof. unfold where_eq, cell. destruct (cells r !! c); reflexivity. Qed.

Lemma py_gt_exceeds v n :
  comparable v = true ->
  exists b, py_gt v n = Ok b /\ (b = true <-> exceeds v n).
Proof.
  unfold py_gt, exceeds. intros Hv.
  destruct (as_number v) as [x|] eqn:Hx.
  - eexists. split; [reflexivity|]. rewrite negb_true_iff. split.
    + intros Hb. exists x. split; [reflexivity|].
      apply Qnot_le_lt. intros Hle. apply Qle_bool_iff in Hle. congruence.
    + intros (y & [= <-] & Hlt).
      destruct (Qle_bool x (inject_Z n)) eqn:Hb; [|reflexivity].
      apply Qle_bool_iff in Hb. exfalso. by apply (Qlt_not_le _ _ Hlt).
  - destruct v; try discriminate. exists false. split; [reflexivity|].
    split; [discriminate|]. by intros (y & [=] & _).
Qed.

(** A column of the list is a column of the frame, and a cell of the row. *)
Ltac column_of_list := apply list_elem_of_In; simpl; tauto.

(** ** The alert rules *)

Section AlertRules.
Variable float_repr : Q -> string.
Variable isoformat : value -> string.

Abbreviation str := (py_str float_repr isoformat).

Lemma health_alert_spec row :
  has_cells health_columns row = true ->
  exists a, health_alert float_repr isoformat row = Ok a /\ health_alert_of row a.
Proof.
  intros H.
  assert (Hc : forall c, c ∈ health_columns -> exists v, cells row !! c = Some v)
    by (intros c; by apply has_cells_lookup).
  unfold health_columns in Hc.
  destruct (Hc "Device-ID/User-ID") as [dev Hdev]; [column_of_list|].
  destruct (Hc "Timestamp") as [ts Hts]; [column_of_list|].
  destruct (Hc "Heart Rate Below/Above Threshold (Yes/No)") as [f1 Hf1]; [column_of_list|].
  destruct (Hc "Heart Rate") as [v1 Hv1]; [column_of_list|].
  destruct (Hc "Blood Pressure Below/Above Threshold (Yes/No)") as [f2 Hf2]; [column_of_list|].
  destruct (Hc "Blood Pressure") as [v2 Hv2]; [column_of_list|].
  destruct (Hc "Glucose Levels Below/Above Threshold (Yes/No)") as [f3 Hf3]; [column_of_list|].
  destruct (Hc "Glucose Levels") as [v3 Hv3]; [column_of_list|].
  destruct (Hc "SpO₂ Below Threshold (Yes/No)") as [f4 Hf4]; [column_of_list|].
  destruct (Hc "Oxygen Saturation (SpO₂%)") as [v4 Hv4]; [column_of_list|].
  destruct (Hc "Caregiver Notified (Yes/No)") as [cn Hcn]; [column_of_list|].
  unfold health_alert_of, health_alert, reason, flags_set, threshold_flags, where_eq, get, cell.
  simpl List.filter.
  rewrite Hdev, Hts, Hf1, Hv1, Hf2, Hv2, Hf3, Hv3, Hf4, Hv4, Hcn. simpl.
  destruct (py_eq f1 (VStr "Yes")), (py_eq f2 (VStr "Yes")),
    (py_eq f3 (VStr "Yes")), (py_eq f4 (VStr "Yes")); simpl;
    eexists; (split; [reflexivity|]); simpl; auto.
Qed.

Lemma health_alerts_total (df : DataFrame) :
  frame_has health_columns df = true ->
  exists alerts,
    generate_health_alerts float_repr isoformat df = Ok alerts /\
    Forall2 health_alert_of (filter (fun row => alert_triggered row = true) (rows df)) alerts.
Proof.
  intros Hdf. unfold generate_health_alerts, select_eq.
  rewrite (frame_has_column health_columns) by (try assumption; column_of_list).
  simpl. apply for_each_Forall2, Forall_forall. intros row Hrow.
  apply list_elem_of_filter in Hrow as [_ Hrow].
  apply health_alert_spec. by apply (frame_has_rows _ df).
Qed.

(** C1.  For a health frame that has the columns the rule reads, every
    event whose alert-triggered flag is 'Yes' yields exactly one alert, in
    order: the alerts returned stand one to one to the triggered events.
    The alert's priority is Medium when exactly one of the four threshold
    flags is 'Yes' and High when two or more are. *)
Theorem generate_health_alerts_priority (df : DataFrame) :
  frame_has health_columns df = true ->
  exists alerts,
    generate_health_alerts float_repr isoformat df = Ok alerts /\
    Forall2 (fun row a =>
               Alert_Type a = "Health" /\
               Device_ID a = cell "Device-ID/User-ID" row /\
               Timestamp a = cell "Timestamp" row /\
               (flags_set row = 1%nat -> Priority a = "Medium") /\
               ((2 <= flags_set row)%nat -> Priority a = "High"))
            (filter (fun row => alert_triggered row = true) (rows df)) alerts.
Proof.
  intros Hdf. destruct (health_alerts_total df Hdf) as (alerts & Hgen & Hall).
  exists alerts. split; [assumption|].
  eapply Forall2_impl; [exact Hall|].
  intros row a (Hty & Hdev & Hts & Hp). repeat split; try assumption.
  - intros H1. rewrite Hp, H1. reflexivity.
  - intros H2. rewrite Hp. by rewrite bool_decide_eq_true_2 by lia.
Qed.

Lemma safety_alert_spec row :
  has_cells safety_columns row = true ->
  comparable (cell "Post-Fall Inactivity Duration (Seconds)" row) = true ->
  exists a, safety_alert float_repr isoformat row = Ok a /\
    safety_alert_of float_repr isoformat row a.
Proof.
  intros H.
  assert (Hc : forall c, c ∈ safety_columns -> exists v, cells row !! c = Some v)
    by (intros c; by apply has_cells_lookup).
  unfold safety_columns in Hc.
  destruct (Hc "Device-ID/User-ID") as [dev Hdev]; [column_of_list|].
  destruct (Hc "Timestamp") as [ts Hts]; [column_of_list|].
  destruct (Hc "Location") as [loc Hloc]; [column_of_list|].
  destruct (Hc "Impact Force Level") as [imp Himp]; [column_of_list|].
  destruct (Hc "Post-Fall Inactivity Duration (Seconds)") as [ina Hina]; [column_of_list|].
  destruct (Hc "Caregiver Notified (Yes/No)") as [cn Hcn]; [column_of_list|].
  unfold safety_alert_of, safety_alert, get, cell.
  rewrite Hdev, Hts, Hloc, Himp, Hina, Hcn. simpl.
  intros Hcmp.
  destruct (py_gt_exceeds ina 300 Hcmp) as (b & Hb & Hbx).
  destruct (py_eq imp (VStr "High")) eqn:Hi; simpl.
  - apply py_eq_str in Hi. eexists. split; [reflexivity|]. simpl.
    repeat split; auto.
  - rewrite Hb. simpl. eexists. split; [reflexivity|]. simpl.
    repeat split; auto.
    + destruct b; [intros _; right; by apply Hbx | discriminate].
    + intros [Hh|Hx].
      * apply py_eq_str in Hh. congruence.
      * apply Hbx in Hx. by rewrite Hx.
    + destruct b; auto.
Qed.

Lemma safety_alerts_total (df : DataFrame) :
  safety_frame_ok df = true ->
  exists alerts,
    generate_safety_alerts float_repr isoformat df = Ok alerts /\
    Forall2 (safety_alert_of float_repr isoformat)
      (filter (fun row => fall_detected row = true) (rows df)) alerts.
Proof.
  unfold safety_frame_ok. rewrite andb_true_iff, forallb_forall. intros [Hdf Hcmp].
  unfold generate_safety_alerts, select_eq.
  rewrite (frame_has_column safety_columns) by (try assumption; column_of_list).
  simpl. apply for_each_Forall2, Forall_forall. intros row Hrow.
  apply list_elem_of_filter in Hrow as [_ Hrow].
  apply safety_alert_spec.
  - by apply (frame_has_rows _ df).
  - apply Hcmp. by apply list_elem_of_In.
Qed.

(** C2.  For a safety frame that has the columns the rule reads and numbers
    (or NaN) for inactivity, every event with fall-detected = True yields
    exactly one alert, in order.  Its priority is High if and only if the
    impact force level is "High" or the inactivity exceeds 300, and Medium
    otherwise.  Its message is the text "Fall detected in {location} with
    {impact} impact. {inactivity} seconds of inactivity.": for an event
    whose location and impact level are texts the two texts stand in it
    unchanged, with the decimal digits of the inactivity when that is an
    integer and with [repr] of it when it is a float; for cells of other
    kinds ([None] for a level that was not recorded, NaN) what [str] makes of
    them stands there. *)
Theorem generate_safety_alerts_rule (df : DataFrame) :
  safety_frame_ok df = true ->
  exists alerts,
    generate_safety_alerts float_repr isoformat df = Ok alerts /\
    Forall2 (fun row a =>
               (forall location impact,
                  cell "Location" row = VStr location ->
                  cell "Impact Force Level" row = VStr impact ->
                  (forall n : Z,
                     cell "Post-Fall Inactivity Duration (Seconds)" row = VInt n ->
                     Message a =
                       "Fall detected in " +:+ location +:+ " with " +:+ impact
                         +:+ " impact. " +:+ pretty n +:+ " seconds of inactivity.") /\
                  (forall q : Q,
                     cell "Post-Fall Inactivity Duration (Seconds)" row = VFloat q ->
                     Message a =
                       "Fall detected in " +:+ location +:+ " with " +:+ impact
                         +:+ " impact. " +:+ float_repr q
                         +:+ " seconds of inactivity.")) /\
               Message a =
                 "Fall detected in " +:+ str (cell "Location" row)
                   +:+ " with " +:+ str (cell "Impact Force Level" row)
                   +:+ " impact. "
                   +:+ str (cell "Post-Fall Inactivity Duration (Seconds)" row)
                   +:+ " seconds of inactivity." /\
               (Priority a = "High" <->
                  cell "Impact Force Level" row = VStr "High" \/
                  exceeds (cell "Post-Fall Inactivity Duration (Seconds)" row) 300) /\
               (Priority a <> "High" -> Priority a = "Medium"))
            (filter (fun row => fall_detected row = true) (rows df)) alerts.
Proof.
  intros Hdf. destruct (safety_alerts_total df Hdf) as (alerts & Hgen & Hall).
  exists alerts. split; [assumption|].
  eapply Forall2_impl; [exact Hall|].
  intros row a (_ & _ & _ & Hm & Hp & Hhm). split; [|split; [exact Hm|split]].
  - intros location impact Hloc Himp. rewrite Hloc, Himp in Hm.
    split; [intros n Hn|intros q Hq].
    + rewrite Hn in Hm. exact Hm.
    + rewrite Hq in Hm. exact Hm.
  - exact Hp.
  - intros Hn. by destruct Hhm.
Qed.

Lemma reminder_alert_spec row :
  has_cells reminder_columns row = true ->
  exists appended, reminder_alert float_repr isoformat row = Ok appended /\
    Forall2 reminder_alert_of
      (filter (fun r => important (cell "Reminder Type" r) = true) [row]) appended.
Proof.
  intros H.
  assert (Hc : forall c, c ∈ reminder_columns -> exists v, cells row !! c = Some v)
    by (intros c; by apply has_cells_lookup).
  unfold reminder_columns in Hc.
  destruct (Hc "Device-ID/User-ID") as [dev Hdev]; [column_of_list|].
  destruct (Hc "Timestamp") as [ts Hts]; [column_of_list|].
  destruct (Hc "Reminder Type") as [ty Hty]; [column_of_list|].
  destruct (Hc "Scheduled Time") as [st Hst]; [column_of_list|].
  unfold reminder_alert, get. rewrite filter_cons, filter_nil.
  unfold reminder_alert_of, cell. rewrite Hdev, Hts, Hty, Hst. simpl.
  destruct (important ty) eqn:Himp.
  - rewrite decide_True by reflexivity.
    eexists. split; [reflexivity|]. constructor; [|constructor]. simpl.
    rewrite Hdev, Hts, Hty. simpl.
    repeat split; auto.
    + intros ->. reflexivity.
    + intros ->. reflexivity.
  - rewrite decide_False by discriminate.
    eexists. split; [reflexivity|]. constructor.
Qed.

Lemma reminder_alerts_spec (l : list Row) :
  Forall (fun r => has_cells reminder_columns r = true) l ->
  exists appended, for_each (reminder_alert float_repr isoformat) l = Ok appended /\
    Forall2 reminder_alert_of
      (filter (fun r => important (cell "Reminder Type" r) = true) l)
      (List.concat appended).
Proof.
  induction 1 as [|row l Hrow _ (rest & Hrest & IH)]; simpl.
  - exists []. split; [reflexivity | constructor].
  - destruct (reminder_alert_spec row Hrow) as (one & Hone & H1).
    exists (one :: rest). rewrite Hone, Hrest. split; [reflexivity|].
    simpl. change (row :: l) with ([row] ++ l). rewrite filter_app.
    by apply Forall2_app.
Qed.

Lemma alerting_split r :
  alerting r = true <->
  important (cell "Reminder Type" r) = true /\ unacknowledged r = true.
Proof.
  unfold alerting, important, unacknowledged. rewrite !where_eq_cell.
  rewrite !andb_true_iff, !orb_true_iff, !bool_decide_eq_true, !py_eq_str. tauto.
Qed.

Lemma reminder_alerts_total (df : DataFrame) :
  frame_has reminder_columns df = true ->
  exists alerts,
    generate_reminder_alerts float_repr isoformat df = Ok alerts /\
    Forall2 reminder_alert_of (filter (fun row => alerting row = true) (rows df)) alerts.
Proof.
  intros Hdf. unfold generate_reminder_alerts.
  rewrite !(frame_has_column reminder_columns) by (try assumption; column_of_list).
  destruct (reminder_alerts_spec (filter (fun r => unacknowledged r = true) (rows df)))
    as (appended & Happ & HF).
  { apply Forall_forall. intros r Hr. apply list_elem_of_filter in Hr as [_ Hr].
    by apply (frame_has_rows _ df). }
  exists (List.concat appended). rewrite Happ. split; [reflexivity|].
  rewrite list_filter_filter in HF.
  erewrite list_filter_iff; [exact HF|]. intros r. apply alerting_split.
Qed.

(** C3.  For a reminder frame that has the columns the rule reads, the
    alerts returned stand one to one, in order, to the events with
    sent = True, acknowledged = False and type Medication or Appointment:
    such an event yields an alert and no other event does.  In particular
    an Exercise or Hydration reminder is never among them, whatever its
    flags.  The alert has status Active, and priority Medium for Medication
    and Low for Appointment. *)
Theorem generate_reminder_alerts_rule (df : DataFrame) :
  frame_has reminder_columns df = true ->
  exists alerts,
    generate_reminder_alerts float_repr isoformat df = Ok alerts /\
    Forall2 (fun row a =>
               Status a = "Active" /\
               (cell "Reminder Type" row = VStr "Medication" -> Priority a = "Medium") /\
               (cell "Reminder Type" row = VStr "Appointment" -> Priority a = "Low"))
            (filter (fun row => alerting row = true) (rows df)) alerts /\
    (forall row, cell "Reminder Type" row = VStr "Exercise" \/
                 cell "Reminder Type" row = VStr "Hydration" ->
                 alerting row = false).
Proof.
  intros Hdf. destruct (reminder_alerts_total df Hdf) as (alerts & Hgen & Hall).
  exists alerts. split; [assumption|]. split.
  - eapply Forall2_impl; [exact Hall|].
    intros row a (_ & _ & _ & Hs & Hm & Ha). auto.
  - intros row [H|H]; unfold alerting; rewrite H; simpl; by rewrite andb_false_r.
Qed.

End AlertRules.

Lemma generate_health_alerts_priority_witness :
  frame_has health_columns Examples.health_batch = true /\
  exists alerts,
    generate_health_alerts Examples.no_repr Examples.no_isoformat Examples.health_batch
      = Ok alerts /\
    length alerts = 2%nat.
Proof.
  split; [vm_compute; reflexivity|].
  destruct (generate_health_alerts_priority Examples.no_repr Examples.no_isoformat
              Examples.health_batch) as (alerts & Hgen & Hall).
  - vm_compute; reflexivity.
  - exists alerts. split; [exact Hgen|].
    apply Forall2_length in Hall. rewrite <- Hall. vm_compute. reflexivity.
Defined.

Lemma generate_safety_alerts_rule_witness :
  safety_frame_ok Examples.safety_batch = true /\
  exists alerts,
    generate_safety_alerts Examples.no_repr Examples.no_isoformat Examples.safety_batch
      = Ok alerts /\
    Message <$> alerts
    = ["Fall detected in Bathroom with Low impact. 45 seconds of inactivity.";
       "Fall detected in Kitchen with Medium impact. 400 seconds of inactivity."] /\
    Priority <$> alerts = ["Medium"; "High"].
Proof.
  split; [vm_compute; reflexivity|].
  destruct (generate_safety_alerts_rule Examples.no_repr Examples.no_isoformat
              Examples.safety_batch) as (alerts & Hgen & Hall).
  - vm_compute; reflexivity.
  - exists alerts. split; [exact Hgen|].
    vm_compute in Hgen. injection Hgen as <-. split; reflexivity.
Defined.

Lemma generate_reminder_alerts_rule_witness :
  frame_has reminder_columns Examples.reminder_batch = true /\
  exists alerts,
    generate_reminder_alerts Examples.no_repr Examples.no_isoformat Examples.reminder_batch
      = Ok alerts /\
    length alerts = 2%nat.
Proof.
  split; [vm_compute; reflexivity|].
  destruct (generate_reminder_alerts_rule Examples.no_repr Examples.no_isoformat
              Examples.reminder_batch) as (alerts & Hgen & Hall & _).
  - vm_compute; reflexivity.
  - exists alerts. split; [exact Hgen|].
    apply Forall2_length in Hall. rewrite <- Hall. vm_compute. reflexivity.
Defined.

(** ** The order of the alerts *)

Section SortFacts.
Context {A : Type} (key : A -> value).




#[local] Instance key_le_trans : Transitive (key_le key).
Proof.
  intros x y z (tx & ty & Hx & Hy & ?) (ty' & tz & Hy' & Hz & ?).
  rewrite Hy in Hy'. injection Hy' as <-. exists tx, tz. repeat split; auto. lia.
Qed.

#[local] Instance key_lt_trans : Transitive (key_lt key).
Proof.
  intros x y z (tx & ty & Hx & Hy & ?) (ty' & tz & Hy' & Hz & ?).
  rewrite Hy in Hy'. injection Hy' as <-. exists tx, tz. repeat split; auto. lia.
Qed.








#[local] Instance run_order_trans d : Transitive (run_order key d).
Proof.
  destruct d; simpl; [|apply _].
  intros x y z Hxy Hyz. unfold flip in *. by etrans.
Qed.









End SortFacts.

Section AlertOrder.
Variable float_repr : Q -> string.
Variable isoformat : value -> string.

Lemma instants_cell df row :
  instants df = true -> row ∈ rows df -> exists t, cell "Timestamp" row = VTimestamp t.
Proof.
  unfold instants. rewrite forallb_forall. intros H Hrow.
  apply list_elem_of_In, H in Hrow.
  destruct (cell "Timestamp" row); try discriminate. eauto.
Qed.





End AlertOrder.



(** ** The store of frames *)

Section Store.
Context (lib : library).

Lemma bind_ok {A B} (m : M lib A) (f : A -> M lib B) σ a σ' :
  m σ = (Ok a, σ') -> (m ≫= f) σ = f a σ'.
Proof. intros H. unfold mbind, M_bind. by rewrite H. Qed.

Lemma bind_err {A B} (m : M lib A) (f : A -> M lib B) σ e σ' :
  m σ = (Err e, σ') -> (m ≫= f) σ = (Err e, σ').
Proof. intros H. unfold mbind, M_bind. by rewrite H. Qed.

Lemma read_ok σ l df :
  frames lib σ !! l = Some df -> read lib l σ = (Ok df, σ).
Proof. intros H. unfold read. by rewrite H. Qed.

Lemma update_ok σ l f df df' :
  frames lib σ !! l = Some df -> f df = Ok df' ->
  update lib l f σ = (Ok tt, mkState lib (<[l := df']> (frames lib σ)) (self lib σ)).
Proof.
  intros Hl Hf. unfold update.
  rewrite (bind_ok _ _ _ _ _ (read_ok σ l df Hl)).
  unfold lift. erewrite bind_ok; [|by rewrite Hf]. reflexivity.
Qed.

Lemma update_err σ l f df e :
  frames lib σ !! l = Some df -> f df = Err e -> update lib l f σ = (Err e, σ).
Proof.
  intros Hl Hf. unfold update.
  rewrite (bind_ok _ _ _ _ _ (read_ok σ l df Hl)).
  unfold lift. erewrite bind_err; [|by rewrite Hf]. reflexivity.
Qed.

Lemma copy_ok σ l df :
  frames lib σ !! l = Some df ->
  copy lib l σ = (Ok (length (frames lib σ)), mkState lib (frames lib σ ++ [df]) (self lib σ)).
Proof.
  intros Hl. unfold copy. by rewrite (bind_ok _ _ _ _ _ (read_ok σ l df Hl)).
Qed.

Lemma lookup_new {A} (l : list A) x : (l ++ [x]) !! length l = Some x.
Proof. by rewrite lookup_app_r, Nat.sub_diag by lia. Qed.

Lemma insert_new {A} (l : list A) x y : <[length l := y]> (l ++ [x]) = l ++ [y].
Proof. induction l as [|z l IH]; simpl; [reflexivity|]. by rewrite IH. Qed.

Lemma lookup_old {A} (l : list A) x i y : l !! i = Some y -> (l ++ [x]) !! i = Some y.
Proof. intros H. by apply lookup_app_l_Some. Qed.
End Store.

Lemma cell_set c v r : cell c (set c v r) = v.
Proof. unfold cell, set. simpl. by rewrite lookup_insert_eq. Qed.

Lemma cell_set_ne c c' v r : c <> c' -> cell c' (set c v r) = cell c' r.
Proof. intros H. unfold cell, set. simpl. by rewrite lookup_insert_ne. Qed.

(** ** Prediction before training *)

Lemma sentinel_ok lib σ l df score level :
  frames lib σ !! l = Some df ->
  sentinel lib score level l σ =
    (Ok tt,
     mkState lib
       (<[l := assign_const level (VStr "Low") (assign_const score (VInt 0) df)]>
          (frames lib σ))
       (self lib σ)).
Proof.
  intros Hl. unfold sentinel.
  assert (Hlt : (l < length (frames lib σ))%nat) by (by eapply lookup_lt_Some).
  erewrite bind_ok; [|by eapply update_ok].
  erewrite update_ok; [|simpl; by apply list_lookup_insert_eq|reflexivity].
  simpl. by rewrite list_insert_insert_eq.
Qed.

Lemma untrained_result_spec lib σ new_data df minimal score level :
  frames lib σ !! new_data = Some df -> score <> level ->
  sentinel_outcome lib σ new_data minimal score level
    (untrained_result lib new_data minimal score level σ).
Proof.
  intros Hdf Hne.
  assert (Hlt : (new_data < length (frames lib σ))%nat) by (by eapply lookup_lt_Some).
  set (src := if empty df then minimal else df).
  assert (Hout : untrained_result lib new_data minimal score level σ =
    (Ok (length (frames lib σ)),
     mkState lib
       (frames lib σ ++ [assign_const level (VStr "Low") (assign_const score (VInt 0) src)])
       (self lib σ))).
  { unfold untrained_result.
    rewrite (bind_ok _ _ _ _ _ _ (read_ok lib σ new_data df Hdf)).
    assert (Hnew : (if negb (empty df) then copy lib new_data else alloc lib minimal) σ =
              (Ok (length (frames lib σ)),
               mkState lib (frames lib σ ++ [src]) (self lib σ))).
    { subst src. destruct (empty df); simpl; [reflexivity|by apply copy_ok]. }
    rewrite (bind_ok _ _ _ _ _ _ Hnew).
    erewrite bind_ok; [|apply sentinel_ok; simpl; apply lookup_new].
    simpl. by rewrite insert_new. }
  rewrite Hout. unfold sentinel_outcome. simpl.
  eexists _, _. split; [reflexivity|]. split; [apply lookup_new|].
  split; [lia|]. split; [by rewrite lookup_app_l|]. split.
  - unfold assign_const. simpl.
    apply Forall_fmap, Forall_fmap, Forall_forall. intros r _. simpl.
    by rewrite cell_set_ne, !cell_set.
  - intros df' Hdf'. rewrite Hdf in Hdf'. injection Hdf' as <-.
    unfold assign_const. simpl. rewrite <- list_fmap_compose.
    subst src. by destruct (empty df).
Qed.

(** C6.  On a predictor just built, each of the three predict operations
    returns, for every frame it is given and without raising, a new frame in
    which every row has score 0 and level "Low": the rows of the input under
    these two columns (the rows of a made-up one-row frame when the input is
    empty).  The caller's frame stays as it was. *)
Theorem predict_before_train (lib : library) (σ : State lib) (new_data : nat)
    (df : DataFrame) :
  frames lib σ !! new_data = Some df ->
  self lib σ = init lib ->
  sentinel_outcome lib σ new_data (HealthRiskPredictor.minimal lib)
    "Risk_Score" "Risk_Level"
    (HealthRiskPredictor.predict_risk lib new_data σ) /\
  sentinel_outcome lib σ new_data (FallRiskPredictor.minimal lib)
    "Fall_Risk_Score" "Fall_Risk_Level"
    (FallRiskPredictor.predict_fall_risk lib new_data σ) /\
  sentinel_outcome lib σ new_data (ReminderEffectivenessPredictor.minimal lib)
    "Effectiveness_Score" "Effectiveness_Level"
    (ReminderEffectivenessPredictor.predict_effectiveness lib new_data σ).
Proof.
  intros Hdf Hself.
  assert (Hme : get_self lib σ = (Ok (init lib), σ)) by (unfold get_self; by rewrite Hself).
  unfold HealthRiskPredictor.predict_risk, FallRiskPredictor.predict_fall_risk,
    ReminderEffectivenessPredictor.predict_effectiveness.
  rewrite !(bind_ok _ _ _ _ _ _ Hme). simpl.
  repeat split; by apply (untrained_result_spec lib σ new_data df).
Qed.

Lemma predict_before_train_witness :
  let lib := Examples.constant_classifier 0 in
  let σ := Examples.fresh lib [Examples.safety_batch] in
  frames lib σ !! 0%nat = Some Examples.safety_batch /\
  self lib σ = init lib /\
  sentinel_outcome lib σ 0 (FallRiskPredictor.minimal lib)
    "Fall_Risk_Score" "Fall_Risk_Level"
    (FallRiskPredictor.predict_fall_risk lib 0 σ).
Proof.
  intros lib σ. split; [reflexivity|]. split; [reflexivity|].
  apply (predict_before_train lib σ 0 Examples.safety_batch); reflexivity.
Defined.

(** ** The target of the fall risk model *)

(** ** Equality of cells *)

Lemma Qeq_bool_sym x y : Qeq_bool x y = Qeq_bool y x.
Proof.
  destruct (Qeq_bool x y) eqn:H1, (Qeq_bool y x) eqn:H2; try reflexivity.
  - apply Qeq_bool_iff, Qeq_sym, Qeq_bool_iff in H1. congruence.
  - apply Qeq_bool_iff, Qeq_sym, Qeq_bool_iff in H2. congruence.
Qed.

Lemma Qeq_bool_trans x y z :
  Qeq_bool x y = true -> Qeq_bool y z = true -> Qeq_bool x z = true.
Proof.
  rewrite !Qeq_bool_iff. apply Qeq_trans.
Qed.

Lemma py_eq_sym a b : py_eq a b = py_eq b a.
Proof.
  unfold py_eq.
  destruct a, b; simpl; try reflexivity; try apply Qeq_bool_sym;
    apply bool_decide_ext; split; congruence.
Qed.

Lemma py_eq_trans a b c : py_eq a b = true -> py_eq b c = true -> py_eq a c = true.
Proof.
  unfold py_eq.
  destruct a, b; simpl; try discriminate; destruct c; simpl; try discriminate;
    try apply Qeq_bool_trans;
    rewrite !bool_decide_eq_true; congruence.
Qed.

Lemma py_eq_refl_l a b : py_eq a b = true -> py_eq a a = true.
Proof. intros H. apply (py_eq_trans a b a); [assumption|]. by rewrite py_eq_sym. Qed.

(** Every cell of a list that equals something has a representative in
    [unique]. *)
Lemma unique_representative (l : list value) v :
  v ∈ l -> py_eq v v = true -> exists d, d ∈ unique l /\ py_eq v d = true.
Proof.
  induction l as [|w l IH]; [by intros ?%elem_of_nil|].
  intros Hv Hrefl. simpl. apply elem_of_cons in Hv as [->|Hv].
  - exists w. split; [apply elem_of_cons; by left|assumption].
  - destruct (IH Hv Hrefl) as (d & Hd & Hvd).
    destruct (py_eq d w) eqn:Hdw.
    + exists w. split; [apply elem_of_cons; by left|].
      by apply (py_eq_trans v d w).
    + exists d. split; [|assumption].
      apply elem_of_cons. right. apply list_elem_of_filter. by split.
Qed.

Lemma unique_subset (l : list value) d : d ∈ unique l -> d ∈ l.
Proof.
  induction l as [|w l IH]; simpl; [done|].
  rewrite !elem_of_cons, list_elem_of_filter. intros [->|[_ H]]; auto.
Qed.

(** ** Column assignments that succeed *)

Lemma for_each_fmap {A B} (f : A -> result B) (g : A -> B) (l : list A) :
  Forall (fun x => f x = Ok (g x)) l -> for_each f l = Ok (g <$> l).
Proof.
  induction 1 as [|x l Hx _ IH]; simpl; [reflexivity|]. by rewrite Hx, IH.
Qed.

Lemma assign_fmap src dst f (g : Row -> value) df :
  has_column df src = true ->
  Forall (fun r => exists v, cells r !! src = Some v /\ f v = Ok (g r)) (rows df) ->
  assign src dst f df
  = Ok (mkFrame (add_column dst (columns df)) ((fun r => set dst (g r) r) <$> rows df)).
Proof.
  intros Hsrc Hrows. unfold assign. rewrite Hsrc.
  rewrite (for_each_fmap _ (fun r => set dst (g r) r)); [reflexivity|].
  eapply Forall_impl; [exact Hrows|]. intros r (v & Hv & Hf).
  unfold get. rewrite Hv. simpl. by rewrite Hf.
Qed.

Lemma has_column_add c cols df :
  has_column (mkFrame (add_column c cols) df) c = true.
Proof.
  unfold has_column, add_column. simpl. apply bool_decide_eq_true_2.
  case_bool_decide; [assumption|]. apply elem_of_app. right. by apply list_elem_of_singleton.
Qed.

Lemma has_column_add_other c c' cols rs rs' :
  has_column (mkFrame cols rs) c' = true ->
  has_column (mkFrame (add_column c cols) rs') c' = true.
Proof.
  unfold has_column, add_column. simpl. rewrite !bool_decide_eq_true. intros H.
  case_bool_decide; [assumption|]. apply elem_of_app. by left.
Qed.

Lemma add_column_present c cols : c ∈ cols -> add_column c cols = cols.
Proof. intros H. unfold add_column. by rewrite bool_decide_eq_true_2. Qed.

(** ** The stable sort *)

Lemma insert_stable_Permutation {A} (before : A -> A -> bool) x l :
  insert_stable before x l ≡ₚ x :: l.
Proof.
  induction l as [|y l IH]; simpl; [reflexivity|].
  destruct (before y x); [|reflexivity].
  rewrite IH. apply Permutation_swap.
Qed.

Lemma stable_sort_Permutation {A} (before : A -> A -> bool) l :
  stable_sort before l ≡ₚ l.
Proof.
  induction l as [|x l IH]; simpl; [reflexivity|].
  by rewrite insert_stable_Permutation, IH.
Qed.

Lemma label_mark L r : label (mark L r) = label r.
Proof. unfold mark. by case_bool_decide. Qed.

Lemma cell_mark L c r : c <> "Next_Day_Fall" -> cell c (mark L r) = cell c r.
Proof. intros H. unfold mark. case_bool_decide; [|reflexivity]. by apply cell_set_ne. Qed.

Lemma mark_nil r : mark [] r = r.
Proof. unfold mark. rewrite bool_decide_eq_false_2; [reflexivity|]. apply not_elem_of_nil. Qed.

Lemma set_set c v w r : set c v (set c w r) = set c v r.
Proof. unfold set. simpl. by rewrite insert_insert_eq. Qed.

Lemma loc_set_mark cols rs L idx :
  "Next_Day_Fall" ∈ cols ->
  loc_set idx "Next_Day_Fall" (VBool true) (mkFrame cols (mark L <$> rs))
  = mkFrame cols (mark (idx :: L) <$> rs).
Proof.
  intros Hcol. unfold loc_set. simpl. rewrite add_column_present by assumption.
  f_equal. rewrite <- list_fmap_compose. apply list_fmap_ext. intros _ r _. simpl.
  rewrite label_mark. unfold mark.
  repeat case_bool_decide; try reflexivity; try apply set_set.
  all: exfalso; rewrite ?elem_of_cons in *; naive_solver.
Qed.

Lemma in_next_day_mark L L' r r' :
  in_next_day (mark L r) (mark L' r') = in_next_day r r'.
Proof. unfold in_next_day. by rewrite !cell_mark. Qed.

Lemma existsb_filter {A} (p q : A -> bool) (l : list A) :
  existsb p (filter (fun x => q x = true) l) = existsb (fun x => q x && p x) l.
Proof.
  induction l as [|x l IH]; [reflexivity|].
  rewrite filter_cons. simpl. destruct (q x) eqn:Hq.
  - rewrite decide_True by reflexivity. simpl. by rewrite IH.
  - rewrite decide_False by discriminate. simpl. exact IH.
Qed.

Lemma existsb_fmap {A B} (f : A -> B) (p : B -> bool) (l : list A) :
  existsb p (f <$> l) = existsb (fun x => p (f x)) l.
Proof.
  induction l as [|x l IH]; [reflexivity|].
  rewrite fmap_cons. cbn [existsb]. by rewrite IH.
Qed.

Lemma existsb_ext' {A} (p q : A -> bool) (l : list A) :
  (forall x, p x = q x) -> existsb p l = existsb q l.
Proof. intros H. induction l as [|x l IH]; simpl; [reflexivity|]. by rewrite H, IH. Qed.

Lemma label_row_mark cols rs L L0 dd row :
  "Next_Day_Fall" ∈ cols -> "Fall Detected (Yes/No)" ∈ cols ->
  label_row (mark L0 <$> dd) (mkFrame cols (mark L <$> rs)) (mark L0 row)
  = Ok (mkFrame cols (mark (step dd L row) <$> rs)).
Proof.
  intros Hndf Hfall. unfold label_row, step.
  assert (Hhas : has_column (mkFrame cols (mark L <$> rs)) "Fall Detected (Yes/No)" = true)
    by (by apply bool_decide_eq_true_2).
  rewrite Hhas.
  assert (Hex : existsb (fun r => truthy (cell "Fall Detected (Yes/No)" r))
                  (filter (fun r => in_next_day (mark L0 row) r = true) (mark L0 <$> dd))
                = falls_next dd row).
  { rewrite existsb_filter, existsb_fmap. unfold falls_next.
    apply existsb_ext'. intros r. rewrite in_next_day_mark, cell_mark; [reflexivity|discriminate]. }
  rewrite Hex, label_mark.
  destruct (filter (fun r => in_next_day (mark L0 row) r = true) (mark L0 <$> dd))
    as [|r next_day]; simpl in *.
  - by rewrite <- Hex.
  - destruct (falls_next dd row); [|reflexivity].
    by rewrite loc_set_mark.
Qed.

Lemma inner_loop cols rs L0 dd rows_ L :
  "Next_Day_Fall" ∈ cols -> "Fall Detected (Yes/No)" ∈ cols ->
  fold_result (label_row (mark L0 <$> dd)) (mark L0 <$> rows_) (mkFrame cols (mark L <$> rs))
  = Ok (mkFrame cols (mark (foldl (step dd) L rows_) <$> rs)).
Proof.
  intros Hndf Hfall. revert L. induction rows_ as [|row rows_ IH]; intros L; simpl.
  - reflexivity.
  - rewrite label_row_mark by assumption. simpl. apply IH.
Qed.

Lemma filter_fmap_same {A} (f : A -> A) (P : A -> Prop) `{!forall x, Decision (P x)}
    (l : list A) :
  (forall x, P (f x) <-> P x) -> filter P (f <$> l) = f <$> filter P l.
Proof.
  intros HP. induction l as [|x l IH]; [reflexivity|].
  rewrite fmap_cons, !filter_cons, IH.
  destruct (decide (P x)) as [Hx|Hx].
  - rewrite decide_True by (by apply HP). by rewrite fmap_cons.
  - rewrite decide_False by (by rewrite HP). reflexivity.
Qed.

Lemma of_device_mark d L rs : of_device d (mark L <$> rs) = mark L <$> of_device d rs.
Proof.
  unfold of_device. apply filter_fmap_same. intros r.
  rewrite !where_eq_cell, cell_mark; [reflexivity|discriminate].
Qed.

Lemma label_device_mark cols rs L d :
  "Next_Day_Fall" ∈ cols -> "Fall Detected (Yes/No)" ∈ cols ->
  label_device (mkFrame cols (mark L <$> rs)) d
  = Ok (mkFrame cols (mark (foldl (step (of_device d rs)) L (of_device d rs)) <$> rs)).
Proof.
  intros Hndf Hfall. unfold label_device. simpl.
  change (filter _ (mark L <$> rs)) with (of_device d (mark L <$> rs)).
  rewrite of_device_mark. by apply inner_loop.
Qed.

Lemma outer_loop cols rs devices L :
  "Next_Day_Fall" ∈ cols -> "Fall Detected (Yes/No)" ∈ cols ->
  fold_result label_device devices (mkFrame cols (mark L <$> rs))
  = Ok (mkFrame cols (mark (foldl (device_step rs) L devices) <$> rs)).
Proof.
  intros Hndf Hfall. revert L. induction devices as [|d devices IH]; intros L; simpl.
  - reflexivity.
  - rewrite label_device_mark by assumption. simpl. apply IH.
Qed.

Lemma elem_of_inner dd rows_ L idx :
  idx ∈ foldl (step dd) L rows_ <->
  idx ∈ L \/ exists row, row ∈ rows_ /\ label row = idx /\ falls_next dd row = true.
Proof.
  revert L. induction rows_ as [|row rows_ IH]; intros L; simpl.
  - split; [by left|]. intros [H|(row & H & _)]; [assumption|by apply elem_of_nil in H].
  - rewrite IH. unfold step. split.
    + intros [H|(r & Hr & Hl & Hf)].
      * destruct (falls_next dd row) eqn:Hf; [|by left].
        apply elem_of_cons in H as [->|H]; [|by left].
        right. exists row. split; [apply elem_of_cons; by left|]. by split.
      * right. exists r. split; [apply elem_of_cons; by right|]. by split.
    + intros [H|(r & Hr & Hl & Hf)].
      * left. destruct (falls_next dd row); [apply elem_of_cons; by right|assumption].
      * apply elem_of_cons in Hr as [->|Hr].
        -- left. rewrite Hf. apply elem_of_cons. by left.
        -- right. exists r. by repeat split.
Qed.

Lemma elem_of_outer rs devices L idx :
  idx ∈ foldl (device_step rs) L devices <->
  idx ∈ L \/ exists d row, d ∈ devices /\ row ∈ of_device d rs /\ label row = idx /\
                           falls_next (of_device d rs) row = true.
Proof.
  revert L. induction devices as [|d devices IH]; intros L; simpl.
  - split; [by left|]. intros [H|(d & row & H & _)]; [assumption|by apply elem_of_nil in H].
  - rewrite IH. unfold device_step. rewrite elem_of_inner. split.
    + intros [[H|(row & Hr & Hl & Hf)]|(d' & row & Hd & Hr & Hl & Hf)].
      * by left.
      * right. exists d, row. split; [apply elem_of_cons; by left|]. by repeat split.
      * right. exists d', row. split; [apply elem_of_cons; by right|]. by repeat split.
    + intros [H|(d' & row & Hd & Hr & Hl & Hf)].
      * left. by left.
      * apply elem_of_cons in Hd as [->|Hd].
        -- left. right. exists row. by repeat split.
        -- right. exists d', row. by repeat split.
Qed.

Lemma insert_stable_fmap {A B} (k : A -> B) (before : B -> B -> bool) x l :
  insert_stable before (k x) (k <$> l)
  = k <$> insert_stable (fun a b => before (k a) (k b)) x l.
Proof.
  induction l as [|y l IH]; [reflexivity|].
  rewrite fmap_cons. cbn [insert_stable].
  destruct (before (k y) (k x)); [|reflexivity].
  by rewrite IH, fmap_cons.
Qed.

Lemma stable_sort_fmap {A B} (k : A -> B) (before : B -> B -> bool) l :
  stable_sort before (k <$> l) = k <$> stable_sort (fun a b => before (k a) (k b)) l.
Proof.
  induction l as [|x l IH]; [reflexivity|].
  rewrite fmap_cons. cbn [stable_sort]. by rewrite IH, insert_stable_fmap.
Qed.

Lemma in_next_day_within r r' :
  in_next_day r r' = true <-> within_next_day (cell "Timestamp" r) (cell "Timestamp" r').
Proof.
  unfold in_next_day, within_next_day, instant_of.
  destruct (cell "Timestamp" r) as [| | | |t| | | | |];
    try (split; [discriminate|by intros (? & ? & [=] & _)]).
  destruct (cell "Timestamp" r') as [| | | |t'| | | | |];
    try (split; [discriminate|by intros (? & ? & _ & [=] & _)]).
  rewrite andb_true_iff, !bool_decide_eq_true. split.
  - intros [H1 H2]. exists t, t'. auto.
  - intros (? & ? & [= <-] & [= <-] & H1 & H2). auto.
Qed.

Lemma falls_next_true dd row :
  falls_next dd row = true <->
  exists r, r ∈ dd /\ within_next_day (cell "Timestamp" row) (cell "Timestamp" r) /\
            truthy (cell "Fall Detected (Yes/No)" r) = true.
Proof.
  unfold falls_next. rewrite existsb_exists. split.
  - intros (r & Hr & Hb). apply andb_true_iff in Hb as [H1 H2].
    exists r. split; [by apply list_elem_of_In|]. split; [by apply in_next_day_within|assumption].
  - intros (r & Hr & H1 & H2). exists r. split; [by apply list_elem_of_In|].
    apply andb_true_iff. split; [by apply in_next_day_within|assumption].
Qed.

Lemma same_label (rs : list Row) r r' :
  NoDup (label <$> rs) -> r ∈ rs -> r' ∈ rs -> label r = label r' -> r = r'.
Proof.
  intros Hnd Hr Hr' Hl.
  apply list_elem_of_lookup in Hr as [i Hi]. apply list_elem_of_lookup in Hr' as [j Hj].
  assert (i = j) as ->.
  { apply (NoDup_lookup (label <$> rs) i j (label r)); [assumption| |].
    - by rewrite list_lookup_fmap, Hi.
    - by rewrite list_lookup_fmap, Hj, Hl. }
  congruence.
Qed.

(** Which labels the two loops collect. *)
Lemma collected_labels (rs : list Row) r :
  NoDup (label <$> rs) -> r ∈ rs ->
  label r ∈ foldl (device_step rs) [] (unique (cell "Device-ID/User-ID" <$> rs))
  <-> fall_in_next_day rs r.
Proof.
  intros Hnd Hr. rewrite elem_of_outer. split.
  - intros [H|(d & row & Hd & Hrow & Hl & Hf)]; [by apply elem_of_nil in H|].
    unfold of_device in Hrow. apply list_elem_of_filter in Hrow as [Hdev Hrow].
    assert (row = r) as -> by (by apply (same_label rs)).
    apply falls_next_true in Hf as (r2 & Hr2 & Hw & Ht).
    apply list_elem_of_filter in Hr2 as [Hdev2 Hr2].
    exists r2. split; [assumption|]. split; [|by split].
    rewrite where_eq_cell in Hdev, Hdev2.
    apply (py_eq_trans _ d); [assumption|]. by rewrite py_eq_sym.
  - intros (r2 & Hr2 & Hdev & Hw & Ht). right.
    assert (Hrefl : py_eq (cell "Device-ID/User-ID" r) (cell "Device-ID/User-ID" r) = true).
    { apply (py_eq_refl_l _ (cell "Device-ID/User-ID" r2)). by rewrite py_eq_sym. }
    destruct (unique_representative (cell "Device-ID/User-ID" <$> rs)
                (cell "Device-ID/User-ID" r)) as (d & Hd & Hrd);
      [by apply list_elem_of_fmap_2|assumption|].
    exists d, r. split; [assumption|]. split; [|split; [reflexivity|]].
    + apply list_elem_of_filter. split; [by rewrite where_eq_cell|assumption].
    + apply falls_next_true. exists r2. split; [|by split].
      apply list_elem_of_filter. split; [|assumption].
      rewrite where_eq_cell. by apply (py_eq_trans _ (cell "Device-ID/User-ID" r)).
Qed.

Lemma label_next_day_fall_mark cols rs :
  "Next_Day_Fall" ∈ cols -> "Fall Detected (Yes/No)" ∈ cols ->
  "Device-ID/User-ID" ∈ cols ->
  Forall (fun r => is_Some (cells r !! "Device-ID/User-ID")) rs ->
  label_next_day_fall (mkFrame cols rs)
  = Ok (mkFrame cols
          (mark (foldl (device_step rs) [] (unique (cell "Device-ID/User-ID" <$> rs)))
             <$> rs)).
Proof.
  intros Hndf Hfall Hdev Hcells. unfold label_next_day_fall, column.
  unfold has_column. simpl. rewrite bool_decide_eq_true_2 by assumption.
  rewrite (for_each_fmap _ (cell "Device-ID/User-ID")).
  - simpl. rewrite <- (outer_loop cols rs _ []) by assumption.
    do 2 f_equal. rewrite <- (list_fmap_id rs) at 1. apply list_fmap_ext.
    intros _ r _. by rewrite mark_nil.
  - eapply Forall_impl; [exact Hcells|]. intros r [v Hv].
    unfold get, cell. by rewrite Hv.
Qed.

Lemma elem_of_add_column c c' cols : c' ∈ add_column c cols <-> c' = c \/ c' ∈ cols.
Proof.
  unfold add_column. case_bool_decide as H.
  - split; [by right|]. intros [->|?]; assumption.
  - rewrite elem_of_app, list_elem_of_singleton. tauto.
Qed.

Lemma has_column_elem df c : has_column df c = true <-> c ∈ columns df.
Proof. unfold has_column. apply bool_decide_eq_true. Qed.

Lemma unlabelled_label r : label (unlabelled r) = label r.
Proof. reflexivity. Qed.

Lemma unlabelled_cell c r :
  c <> "Hour" -> c <> "DayOfWeek" -> c <> "Next_Day_Fall" ->
  cell c (unlabelled r) = cell c r.
Proof.
  intros H1 H2 H3. unfold unlabelled, with_time_features.
  by rewrite !cell_set_ne by congruence.
Qed.

Lemma fall_in_next_day_unlabelled events rs r :
  events ≡ₚ rs ->
  fall_in_next_day (unlabelled <$> events) (unlabelled r) <-> fall_in_next_day rs r.
Proof.
  intros Hperm. unfold fall_in_next_day. split.
  - intros (r' & Hr' & Hdev & Hw & Ht).
    apply list_elem_of_fmap in Hr' as (r2 & -> & Hr2).
    rewrite !unlabelled_cell in Hdev by discriminate.
    rewrite !unlabelled_cell in Hw by discriminate.
    rewrite !unlabelled_cell in Ht by discriminate.
    exists r2. split; [by rewrite <- Hperm|]. by repeat split.
  - intros (r2 & Hr2 & Hdev & Hw & Ht).
    exists (unlabelled r2). rewrite !unlabelled_cell by discriminate.
    split; [|by repeat split]. apply list_elem_of_fmap_2. by rewrite Hperm.
Qed.

Lemma labelled_mark events rs r :
  events ≡ₚ rs -> NoDup (label <$> rs) -> r ∈ events ->
  labelled rs r
    (mark (foldl (device_step (unlabelled <$> events)) []
             (unique (cell "Device-ID/User-ID" <$> (unlabelled <$> events))))
       (unlabelled r)).
Proof.
  intros Hperm Hnd Hr. unfold labelled.
  rewrite label_mark, !cell_mark, !unlabelled_cell by discriminate.
  repeat split; try reflexivity.
  set (L := foldl _ _ _).
  exists (bool_decide (label r ∈ L)). split.
  - unfold mark. rewrite unlabelled_label. case_bool_decide.
    + apply cell_set.
    + unfold unlabelled. apply cell_set.
  - rewrite bool_decide_eq_true. subst L.
    rewrite <- (fall_in_next_day_unlabelled events rs r Hperm).
    rewrite <- (unlabelled_label r) at 1. apply collected_labels.
    + rewrite <- list_fmap_compose.
      rewrite (list_fmap_ext (label ∘ unlabelled) label events) by done.
      by rewrite Hperm.
    + by apply list_elem_of_fmap_2.
Qed.

Lemma dt_hour_ok v : is_Ok (dt_hour v) = true -> dt_hour v = Ok (unwrap (dt_hour v)).
Proof. by destruct v. Qed.

Lemma dt_dayofweek_ok v :
  is_Ok (dt_hour v) = true -> dt_dayofweek v = Ok (unwrap (dt_dayofweek v)).
Proof. by destruct v. Qed.

Section FallTarget.
Context (lib : library).

Lemma preprocess_data_eval σ safety_data df :
  frames lib σ !! safety_data = Some df ->
  activity_frame_ok df = true ->
  exists changed out events,
    FallRiskPredictor.preprocess_data lib (Some safety_data) σ
    = (Ok (Some (length (frames lib σ))),
       mkState lib (<[safety_data := changed]> (frames lib σ) ++ [out])
         (mkPredictor lib (model lib (self lib σ))
            (Some ["Hour"; "DayOfWeek"; "Movement Activity"; "Location"])
            (trained lib (self lib σ)))) /\
    events ≡ₚ rows df /\
    Forall2 (labelled (rows df)) events (rows out).
Proof.
  intros Hl Hok. unfold activity_frame_ok in Hok.
  rewrite !andb_true_iff, negb_true_iff, bool_decide_eq_false, bool_decide_eq_true,
    forallb_forall in Hok.
  destruct Hok as [[[Hne Hhas] Hdt] Hnd].
  assert (Hlt : (safety_data < length (frames lib σ))%nat) by (by eapply lookup_lt_Some).
  assert (Hts : has_column df "Timestamp" = true)
    by (apply (frame_has_column activity_columns); [assumption|column_of_list]).
  assert (Hdev : has_column df "Device-ID/User-ID" = true)
    by (apply (frame_has_column activity_columns); [assumption|column_of_list]).
  assert (Hfall : has_column df "Fall Detected (Yes/No)" = true)
    by (apply (frame_has_column activity_columns); [assumption|column_of_list]).
  assert (Hcells : forall r c, r ∈ rows df -> c ∈ activity_columns ->
                               exists v, cells r !! c = Some v).
  { intros r c Hr Hc. apply (has_cells_lookup activity_columns); [|assumption].
    by apply (frame_has_rows _ df). }
  set (df1 := mkFrame (add_column "Hour" (columns df))
                ((fun r => set "Hour" (unwrap (dt_hour (cell "Timestamp" r))) r)
                   <$> rows df)).
  assert (A1 : assign "Timestamp" "Hour" dt_hour df = Ok df1).
  { apply assign_fmap; [assumption|]. apply Forall_forall. intros r Hr.
    destruct (Hcells r "Timestamp" Hr) as [v Hv]; [column_of_list|].
    exists v. split; [assumption|].
    assert (Hok : is_Ok (dt_hour (cell "Timestamp" r)) = true)
      by (apply Hdt; by apply list_elem_of_In).
    assert (cell "Timestamp" r = v) as Hc by (unfold cell; by rewrite Hv).
    rewrite Hc in *. by apply dt_hour_ok. }
  set (df2 := mkFrame (add_column "DayOfWeek" (columns df1))
                (with_time_features <$> rows df)).
  assert (A2 : assign "Timestamp" "DayOfWeek" dt_dayofweek df1 = Ok df2).
  { rewrite (assign_fmap _ _ _ (fun r1 => unwrap (dt_dayofweek (cell "Timestamp" r1)))).
    - subst df2 df1. simpl. by rewrite <- list_fmap_compose.
    - subst df1. apply has_column_elem. simpl. apply elem_of_add_column. right.
      by apply has_column_elem.
    - subst df1. simpl. apply Forall_fmap, Forall_forall. intros r Hr.
      destruct (Hcells r "Timestamp" Hr) as [v Hv]; [column_of_list|].
      exists v. simpl. split; [by rewrite lookup_insert_ne|].
      rewrite cell_set_ne by discriminate.
      assert (Hok : is_Ok (dt_hour (cell "Timestamp" r)) = true)
        by (apply Hdt; by apply list_elem_of_In).
      assert (cell "Timestamp" r = v) as Hc by (unfold cell; by rewrite Hv).
      rewrite Hc in *. by apply dt_dayofweek_ok. }
  assert (Hcols2 : forall c, c ∈ columns df -> c ∈ columns df2).
  { intros c Hc. subst df2 df1. simpl.
    apply elem_of_add_column. right. apply elem_of_add_column. by right. }
  set (before := fun a b => row_before ["Device-ID/User-ID"; "Timestamp"]
                              (with_time_features a) (with_time_features b)).
  set (events := stable_sort before (rows df)).
  set (sorted := mkFrame (columns df2) (with_time_features <$> events)).
  assert (A3 : sort_values ["Device-ID/User-ID"; "Timestamp"] df2 = Ok sorted).
  { unfold sort_values. simpl.
    rewrite (proj2 (has_column_elem df2 "Device-ID/User-ID"))
      by (by apply Hcols2, has_column_elem).
    rewrite (proj2 (has_column_elem df2 "Timestamp"))
      by (by apply Hcols2, has_column_elem).
    simpl. subst sorted events before. by rewrite stable_sort_fmap. }
  set (cols := add_column "Next_Day_Fall" (columns df2)).
  set (L := foldl (device_step (unlabelled <$> events)) []
              (unique (cell "Device-ID/User-ID" <$> (unlabelled <$> events)))).
  set (out := mkFrame cols (mark L <$> (unlabelled <$> events))).
  assert (Hperm : events ≡ₚ rows df) by apply stable_sort_Permutation.
  assert (A4 : label_next_day_fall (assign_const "Next_Day_Fall" (VBool false) sorted)
               = Ok out).
  { unfold assign_const. subst sorted. simpl. rewrite <- list_fmap_compose.
    apply label_next_day_fall_mark.
    - apply elem_of_add_column. by left.
    - apply elem_of_add_column. right. by apply Hcols2, has_column_elem.
    - apply elem_of_add_column. right. by apply Hcols2, has_column_elem.
    - apply Forall_fmap, Forall_forall. intros r Hr. rewrite Hperm in Hr.
      destruct (Hcells r "Device-ID/User-ID" Hr) as [v Hv]; [column_of_list|].
      exists v. simpl. by rewrite !lookup_insert_ne. }
  exists df2, out, events. split; [|split; [assumption|]].
  - set (fr := <[safety_data := df2]> (frames lib σ)).
    assert (Hlen : length fr = length (frames lib σ)) by apply length_insert.
    set (F0 := assign_const "Next_Day_Fall" (VBool false) sorted) in *.
    assert (E1 : update lib safety_data (assign "Timestamp" "Hour" dt_hour) σ
                 = (Ok tt, mkState lib (<[safety_data := df1]> (frames lib σ)) (self lib σ)))
      by (by eapply update_ok).
    assert (E2 : update lib safety_data (assign "Timestamp" "DayOfWeek" dt_dayofweek)
                   (mkState lib (<[safety_data := df1]> (frames lib σ)) (self lib σ))
                 = (Ok tt, mkState lib fr (self lib σ))).
    { erewrite update_ok; [|simpl; by apply list_lookup_insert_eq|exact A2].
      simpl. subst fr. by rewrite list_insert_insert_eq. }
    assert (E3 : read lib safety_data (mkState lib fr (self lib σ))
                 = (Ok df2, mkState lib fr (self lib σ))).
    { apply read_ok. simpl. subst fr. by apply list_lookup_insert_eq. }
    assert (E4 : alloc lib sorted (mkState lib fr (self lib σ))
                 = (Ok (length (frames lib σ)),
                    mkState lib (fr ++ [sorted]) (self lib σ))).
    { unfold alloc. simpl. by rewrite Hlen. }
    assert (E5 : update lib (length (frames lib σ))
                   (fun df => Ok (assign_const "Next_Day_Fall" (VBool false) df))
                   (mkState lib (fr ++ [sorted]) (self lib σ))
                 = (Ok tt, mkState lib (fr ++ [F0]) (self lib σ))).
    { erewrite update_ok; [|simpl; rewrite <- Hlen; apply lookup_new|reflexivity].
      simpl. rewrite <- Hlen. by rewrite insert_new. }
    assert (E6 : update lib (length (frames lib σ)) label_next_day_fall
                   (mkState lib (fr ++ [F0]) (self lib σ))
                 = (Ok tt, mkState lib (fr ++ [out]) (self lib σ))).
    { erewrite update_ok; [|simpl; rewrite <- Hlen; apply lookup_new|exact A4].
      simpl. rewrite <- Hlen. by rewrite insert_new. }
    unfold FallRiskPredictor.preprocess_data.
    rewrite (bind_ok _ _ _ _ _ _ (read_ok lib σ safety_data df Hl)).
    rewrite bool_decide_eq_false_2
      by (intros Hzero; apply Hne; by apply length_zero_iff_nil).
    rewrite (bind_ok _ _ _ _ _ _ E1), (bind_ok _ _ _ _ _ _ E2), (bind_ok _ _ _ _ _ _ E3).
    unfold lift. erewrite bind_ok; [|by rewrite A3].
    rewrite (bind_ok _ _ _ _ _ _ E4), (bind_ok _ _ _ _ _ _ E5), (bind_ok _ _ _ _ _ _ E6).
    reflexivity.
  - subst out. simpl. apply Forall2_fmap_r, Forall2_fmap_r, Forall_Forall2_diag.
    apply Forall_forall. intros r Hr. by apply labelled_mark.
Qed.
End FallTarget.

Lemma Forall2_fmap_eq {A B C} (f : B -> C) (g : A -> C) (l : list A) (k : list B) :
  Forall2 (fun x y => f y = g x) l k -> f <$> k = g <$> l.
Proof. induction 1 as [|x y l k H _ IH]; [reflexivity|]. by rewrite !fmap_cons, H, IH. Qed.

Lemma Forall2_impl_elem {A B} (P Q : A -> B -> Prop) (l : list A) (k : list B) :
  Forall2 P l k -> (forall x y, x ∈ l -> P x y -> Q x y) -> Forall2 Q l k.
Proof.
  induction 1 as [|x y l k H _ IH]; intros HPQ; constructor.
  - apply HPQ; [apply elem_of_cons; by left|assumption].
  - apply IH. intros x' y' Hx'. apply HPQ. apply elem_of_cons. by right.
Qed.

(** Reads the [Timestamp] cell of a row of [Examples.three_events] in [H]. *)
Ltac timestamp_cell H :=
  unfold cell in H; simpl in H;
  rewrite lookup_insert_ne, lookup_insert_eq in H by discriminate; simpl in H.

(** C5.  The target of the fall risk model looks forward, per device, over
    the window that opens strictly after the event and closes 24 hours
    later, the end included.  For every frame of events with a device, a
    timestamp and a fall flag under distinct labels, [preprocess_data]
    returns a new frame with the same events (in sorted order) in which
    [Next_Day_Fall] of an event at [t] is true exactly when some event of
    the same device at [t'], [t < t' <= t + 24h], is a fall.  For the three
    events of one device at [t0] (no fall), [t0 + 2h] (fall) and [t0 + 30h]
    (no fall) the label at [t0] is true and the labels at [t0 + 2h] and
    [t0 + 30h] are false. *)
Theorem next_day_fall_window (lib : library) :
  (forall (σ : State lib) (safety_data : nat) (df : DataFrame),
     frames lib σ !! safety_data = Some df ->
     activity_frame_ok df = true ->
     exists prepared out events,
       (FallRiskPredictor.preprocess_data lib (Some safety_data) σ).1
         = Ok (Some prepared) /\
       frames lib (FallRiskPredictor.preprocess_data lib (Some safety_data) σ).2
         !! prepared = Some out /\
       events ≡ₚ rows df /\
       Forall2 (labelled (rows df)) events (rows out)) /\
  (forall (device : string) (t0 : Z),
     exists prepared out,
       (FallRiskPredictor.preprocess_data lib (Some 0%nat)
          (Examples.fresh lib [Examples.three_events device t0])).1 = Ok (Some prepared) /\
       frames lib (FallRiskPredictor.preprocess_data lib (Some 0%nat)
                     (Examples.fresh lib [Examples.three_events device t0])).2 !! prepared = Some out /\
       (fun r => (cell "Timestamp" r, cell "Next_Day_Fall" r)) <$> rows out
       ≡ₚ [(VTimestamp t0, VBool true);
           (VTimestamp (t0 + 2 * Examples.hour), VBool false);
           (VTimestamp (t0 + 30 * Examples.hour), VBool false)]).
Proof.
  split.
  - intros σ safety_data df Hl Hok.
    destruct (preprocess_data_eval lib σ safety_data df Hl Hok)
      as (changed & out & events & -> & Hperm & Hall).
    exists (length (frames lib σ)), out, events. simpl.
    repeat split; try assumption.
    rewrite <- (length_insert (frames lib σ) safety_data changed). apply lookup_new.
  - intros device t0.
    destruct (preprocess_data_eval lib (Examples.fresh lib [Examples.three_events device t0]) 0
                (Examples.three_events device t0)) as (changed & out & events & -> & Hperm & Hall);
      [reflexivity|vm_compute; reflexivity|].
    exists 1%nat, out. simpl. split; [reflexivity|]. split; [reflexivity|].
    set (G := fun r : Row => (cell "Timestamp" r, VBool (bool_decide (label r = 0)))).
    rewrite (Forall2_fmap_eq _ G events (rows out)).
    + rewrite Hperm. vm_compute. reflexivity.
    + eapply Forall2_impl_elem; [exact Hall|].
      intros r r' Hr (_ & _ & Hts & _ & b & Hb & Hiff). subst G. simpl.
      rewrite Hts, Hb. do 2 f_equal.
      rewrite Hperm in Hr. unfold Examples.three_events, Examples.frame_of in Hr. simpl in Hr.
      unfold fall_in_next_day, within_next_day in Hiff.
      unfold Examples.three_events, Examples.frame_of in Hiff. simpl in Hiff.
      apply elem_of_cons in Hr as [->|Hr]; [|apply elem_of_cons in Hr as [->|Hr];
        [|apply list_elem_of_singleton in Hr as ->]].
      * destruct b; [reflexivity|].
        assert (false = true) as Habs; [|discriminate].
        apply Hiff. eexists. split; [apply elem_of_cons; right; apply elem_of_cons; by left|].
        split; [unfold py_eq; simpl; by apply bool_decide_eq_true_2|].
        split; [|reflexivity].
        exists t0, (t0 + 2 * Examples.hour).
        split; [reflexivity|]. split; [reflexivity|]. unfold Examples.hour, day_ns. clear. lia.
      * destruct b; [exfalso|reflexivity].
        destruct (proj1 Hiff eq_refl) as (r2 & Hr2 & _ & (t & t' & Ht & Ht' & Hlt) & _).
        timestamp_cell Ht. injection Ht as <-.
        apply elem_of_cons in Hr2 as [->|Hr2]; [|apply elem_of_cons in Hr2 as [->|Hr2];
          [|apply list_elem_of_singleton in Hr2 as ->]];
          timestamp_cell Ht'; injection Ht' as <-; unfold day_ns, Examples.hour in Hlt; lia.
      * destruct b; [exfalso|reflexivity].
        destruct (proj1 Hiff eq_refl) as (r2 & Hr2 & _ & (t & t' & Ht & Ht' & Hlt) & _).
        timestamp_cell Ht. injection Ht as <-.
        apply elem_of_cons in Hr2 as [->|Hr2]; [|apply elem_of_cons in Hr2 as [->|Hr2];
          [|apply list_elem_of_singleton in Hr2 as ->]];
          timestamp_cell Ht'; injection Ht' as <-; unfold day_ns, Examples.hour in Hlt; lia.
Qed.

Lemma next_day_fall_window_witness :
  let lib := Examples.constant_classifier 0 in
  let σ := Examples.fresh lib [Examples.activity_batch] in
  frames lib σ !! 0%nat = Some Examples.activity_batch /\
  activity_frame_ok Examples.activity_batch = true /\
  exists prepared out events,
    (FallRiskPredictor.preprocess_data lib (Some 0%nat) σ).1 = Ok (Some prepared) /\
    frames lib (FallRiskPredictor.preprocess_data lib (Some 0%nat) σ).2 !! prepared
      = Some out /\
    events ≡ₚ rows Examples.activity_batch /\
    Forall2 (labelled (rows Examples.activity_batch)) events (rows out).
Proof.
  intros lib σ. split; [reflexivity|]. split; [vm_compute; reflexivity|].
  apply (proj1 (next_day_fall_window lib) σ 0%nat Examples.activity_batch);
    [reflexivity|vm_compute; reflexivity].
Defined.

(** ** Levels *)

Lemma Qle_bool_false x y : Qle_bool x y = false <-> (y < x)%Q.
Proof.
  split.
  - intros H. apply Qnot_le_lt. intros Hle. apply Qle_bool_iff in Hle. congruence.
  - intros H. destruct (Qle_bool x y) eqn:Hb; [|reflexivity].
    apply Qle_bool_iff in Hb. exfalso. by apply (Qlt_not_le _ _ H).
Qed.

(** Where the three intervals of [pd.cut] lie, for bins [0; 0.3; b; 1]. *)
Lemma cut_levels (b x : Q) :
  (3 # 10 <= b)%Q -> (b <= 1)%Q ->
  ((0 < x)%Q -> (x <= 3 # 10)%Q -> cut [0; 3 # 10; b; 1]%Q labels x = VStr "Low") /\
  ((3 # 10 < x)%Q -> (x <= b)%Q -> cut [0; 3 # 10; b; 1]%Q labels x = VStr "Medium") /\
  ((b < x)%Q -> (x <= 1)%Q -> cut [0; 3 # 10; b; 1]%Q labels x = VStr "High") /\
  ((x <= 0)%Q -> cut [0; 3 # 10; b; 1]%Q labels x = VNaN) /\
  ((1 < x)%Q -> cut [0; 3 # 10; b; 1]%Q labels x = VNaN).
Proof.
  intros Hb1 Hb2. unfold cut, labels. repeat split.
  - intros H0 H1. apply Qle_bool_false in H0. apply Qle_bool_iff in H1.
    by rewrite H0, H1.
  - intros H0 H1.
    assert (H0' := proj2 (Qle_bool_false _ _) H0). rewrite H0'.
    apply Qle_bool_iff in H1. rewrite H1.
    rewrite (proj2 (Qle_bool_false x 0)) by (eapply Qlt_trans; [|exact H0]; reflexivity).
    reflexivity.
  - intros H0 H1.
    assert (H0' := proj2 (Qle_bool_false _ _) H0). rewrite H0'.
    apply Qle_bool_iff in H1. rewrite H1.
    assert (H3 : (3 # 10 < x)%Q) by (eapply Qle_lt_trans; eassumption).
    rewrite (proj2 (Qle_bool_false x (3 # 10)) H3).
    rewrite (proj2 (Qle_bool_false x 0)) by (eapply Qlt_trans; [|exact H3]; reflexivity).
    reflexivity.
  - intros H0.
    assert (H1 : Qle_bool x 0 = true) by (by apply Qle_bool_iff).
    assert (H2 : Qle_bool x (3 # 10) = true).
    { apply Qle_bool_iff. eapply Qle_trans; [exact H0|]. discriminate. }
    assert (H3 : Qle_bool x b = true).
    { apply Qle_bool_iff. eapply Qle_trans; [exact H0|].
      eapply Qle_trans; [|exact Hb1]. discriminate. }
    by rewrite H1, H2, H3.
  - intros H1.
    assert (H2 : Qle_bool x 1 = false) by (by apply Qle_bool_false).
    assert (H3 : Qle_bool x b = false).
    { apply Qle_bool_false. eapply Qle_lt_trans; eassumption. }
    assert (H4 : Qle_bool x (3 # 10) = false).
    { apply Qle_bool_false. eapply Qle_lt_trans; [|exact H1]. discriminate. }
    assert (H5 : Qle_bool x 0 = false).
    { apply Qle_bool_false. eapply Qlt_trans; [|exact H1]. reflexivity. }
    by rewrite H2, H3, H4, H5.
Qed.

(** C7 does not hold of the code: a score of exactly 0 falls outside every
    interval of [pd.cut], whose lowest interval is open at 0, so the level
    of such a row is NaN and not "Low".  With a classifier that gives
    probability 0, each of the three trained predictors returns score 0.0
    and level NaN in every row. *)
Theorem zero_score_has_no_level :
  let lib := Examples.constant_classifier 0 in
  cut HealthRiskPredictor.bins labels 0 = VNaN /\
  cut FallRiskPredictor.bins labels 0 = VNaN /\
  cut ReminderEffectivenessPredictor.bins labels 0 = VNaN /\
  Examples.scored "Risk_Score" "Risk_Level"
    (HealthRiskPredictor.predict_risk lib 0
       (HealthRiskPredictor.train lib 0 (Examples.fresh lib [Examples.merged_batch])).2)
    = Some [(VFloat 0, VNaN); (VFloat 0, VNaN)] /\
  Examples.scored "Fall_Risk_Score" "Fall_Risk_Level"
    (FallRiskPredictor.predict_fall_risk lib 0
       (FallRiskPredictor.train lib (Some 0%nat) (Examples.fresh lib [Examples.activity_batch])).2)
    = Some [(VFloat 0, VNaN); (VFloat 0, VNaN); (VFloat 0, VNaN)] /\
  Examples.scored "Effectiveness_Score" "Effectiveness_Level"
    (ReminderEffectivenessPredictor.predict_effectiveness lib 0
       (ReminderEffectivenessPredictor.train lib (Some 0%nat) (Examples.fresh lib [Examples.reminder_batch])).2)
    = Some [(VFloat 0, VNaN); (VFloat 0, VNaN); (VFloat 0, VNaN); (VFloat 0, VNaN)].
Proof. repeat split; vm_compute; reflexivity. Qed.

(** ** Normalizing twice *)

(** C8 does not hold of the code: normalizing a safety batch that was
    normalized before succeeds but turns every Yes/No flag, by then a
    boolean, into NaN, because True and False are not keys of the
    Yes/No dictionary; the same happens to a reminder batch. *)
Theorem renormalizing_loses_the_flags (parse_datetime : value -> result (option Z)) :
  process_safety_data parse_datetime Examples.safety_raw = Ok Examples.safety_normalized /\
  process_safety_data parse_datetime Examples.safety_normalized = Ok Examples.safety_renormalized /\
  Examples.safety_renormalized <> Examples.safety_normalized /\
  cell "Fall Detected (Yes/No)" <$> rows Examples.safety_normalized = [VBool true; VBool false] /\
  cell "Fall Detected (Yes/No)" <$> rows Examples.safety_renormalized = [VNaN; VNaN] /\
  process_reminder_data parse_datetime (parse_time (Examples.constant_classifier 0)) Examples.reminder_raw
    = Ok Examples.reminder_normalized /\
  process_reminder_data parse_datetime (parse_time (Examples.constant_classifier 0))
    Examples.reminder_normalized = Ok Examples.reminder_renormalized /\
  Examples.reminder_renormalized <> Examples.reminder_normalized.
Proof.
  repeat split; try (vm_compute; reflexivity).
  - intros H. apply (f_equal (fun df => cell "Fall Detected (Yes/No)" <$> rows df)) in H.
    vm_compute in H. discriminate.
  - intros H. apply (f_equal (fun df => cell "Reminder Sent (Yes/No)" <$> rows df)) in H.
    vm_compute in H. discriminate.
Qed.

(** The health normalizer maps no flags, and normalizing its result again
    changes nothing. *)
Lemma health_renormalizing_is_stable (parse_datetime : value -> result (option Z)) :
  process_health_data parse_datetime Examples.health_raw = Ok Examples.health_normalized /\
  process_health_data parse_datetime Examples.health_normalized = Ok Examples.health_normalized.
Proof. split; vm_compute; reflexivity. Qed.

(** ** Blood pressure *)

Lemma digit_not_space c : is_digit c = true -> is_space c = false.
Proof. destruct c as [[] [] [] [] [] [] [] []]; (discriminate || reflexivity). Qed.

Lemma digit_not_underscore c : is_digit c = true -> Ascii.eqb c "_" = false.
Proof. destruct c as [[] [] [] [] [] [] [] []]; (discriminate || reflexivity). Qed.

Lemma span_digits_digits s : all_digits (span_digits s).1 = true.
Proof.
  induction s as [|c s IH]; simpl; [reflexivity|].
  destruct (is_digit c) eqn:Hc; [|reflexivity].
  destruct (span_digits s) as [d rest]. simpl in *. by rewrite Hc, IH.
Qed.

Lemma match_here_digits s a b :
  match_here s = Some (a, b) ->
  all_digits a = true /\ all_digits b = true /\ a <> EmptyString /\ b <> EmptyString.
Proof.
  unfold match_here.
  pose proof (span_digits_digits s) as Ha.
  destruct (span_digits s) as [[|c d] rest]; [discriminate|].
  destruct rest as [|c0 rest]; [discriminate|].
  destruct (Ascii.eqb_spec c0 "/") as [->|Hne].
  - pose proof (span_digits_digits rest) as Hb.
    destruct (span_digits rest) as [[|c' d'] rest']; [discriminate|].
    intros [= <- <-]. simpl in *. repeat split; auto; discriminate.
  - destruct c0 as [[] [] [] [] [] [] [] []]; try discriminate. by destruct Hne.
Qed.

Lemma search_digits s a b :
  search s = Some (a, b) ->
  all_digits a = true /\ all_digits b = true /\ a <> EmptyString /\ b <> EmptyString.
Proof.
  induction s as [|c s IH]; [discriminate|].
  change (search (String c s))
    with (match match_here (String c s) with
          | Some groups => Some groups
          | None => search s
          end).
  destruct (match_here (String c s)) as [[??]|] eqn:H; [|exact IH].
  intros [= -> ->]. by apply (match_here_digits (String c s)).
Qed.

Lemma lstrip_digits s : all_digits s = true -> lstrip s = s.
Proof.
  destruct s as [|c s]; simpl; [reflexivity|].
  intros [Hc _]%andb_true_iff. by rewrite digit_not_space.
Qed.

Lemma rstrip_digits s : all_digits s = true -> rstrip s = s.
Proof.
  induction s as [|c s IH]; simpl; [reflexivity|].
  intros [Hc Hs]%andb_true_iff. rewrite IH by assumption.
  destruct s; [by rewrite digit_not_space|reflexivity].
Qed.

Lemma digits_with_underscores_digits s acc :
  all_digits s = true ->
  digits_with_underscores true acc s = Some (decimal acc s).
Proof.
  revert acc. induction s as [|c s IH]; intros acc; simpl; [reflexivity|].
  intros [Hc Hs]%andb_true_iff. rewrite Hc. by apply IH.
Qed.

Lemma int_of_string_digits s :
  all_digits s = true -> s <> EmptyString -> int_of_string s = Some (decimal 0 s).
Proof.
  intros Hs Hne. unfold int_of_string, strip.
  rewrite lstrip_digits, rstrip_digits by assumption.
  destruct s as [|c s]; [done|]. simpl in Hs. apply andb_true_iff in Hs as [Hc Hs].
  assert (Hgo : digits_with_underscores false 0 (String c s) = Some (decimal 0 (String c s))).
  { simpl. rewrite Hc. by apply digits_with_underscores_digits. }
  destruct c as [[] [] [] [] [] [] [] []]; try discriminate; exact Hgo.
Qed.

Lemma decimal_nonneg s acc : 0 <= acc -> 0 <= decimal acc s.
Proof.
  revert acc. induction s as [|c s IH]; intros acc Hacc; simpl; [assumption|].
  apply IH. unfold digit_value. destruct (Ascii.is_nat c); lia.
Qed.

(** What [astype(int)] makes of the two cells [str.extract] produced. *)
Lemma astype_int_extract v :
  match blood_pressure v with
  | Some (x, y) =>
      astype_int (str_extract v).1
        = (if bool_decide (x <= int64_max) then Ok (VInt x) else Err OverflowError) /\
      astype_int (str_extract v).2
        = (if bool_decide (y <= int64_max) then Ok (VInt y) else Err OverflowError)
  | None =>
      astype_int (str_extract v).1 = Err ValueError /\
      astype_int (str_extract v).2 = Err ValueError
  end.
Proof.
  unfold blood_pressure, str_extract. destruct v; try (split; reflexivity).
  destruct (search s) as [[a b]|] eqn:Hs; [|split; reflexivity].
  destruct (search_digits s a b Hs) as (Ha & Hb & Hane & Hbne).
  simpl. rewrite !int_of_string_digits by assumption.
  pose proof (decimal_nonneg a 0 ltac:(lia)). pose proof (decimal_nonneg b 0 ltac:(lia)).
  split; apply (f_equal (fun c : bool => if c then _ else _));
    apply bool_decide_ext; unfold int64_min; lia.
Qed.


(** ** The health normalizer *)

Lemma fmap_fixed {A} (f : A -> A) (l : list A) :
  Forall (fun x => f x = x) l -> f <$> l = l.
Proof. induction 1 as [|x l Hx _ IH]; [reflexivity|]. by rewrite fmap_cons, Hx, IH. Qed.

Lemma rename_cells_id f (m : gmap string value) :
  (forall k v, m !! k = Some v -> f k = k) -> rename_cells f m = m.
Proof.
  intros H. unfold rename_cells. rewrite fmap_fixed; [apply list_to_map_to_list|].
  apply Forall_forall. intros [k v] Hkv. apply elem_of_map_to_list in Hkv.
  unfold prod_map. simpl. by rewrite (H k v).
Qed.

Lemma to_datetime_date parse_datetime v w :
  to_datetime parse_datetime v = Ok w -> dt_date w = Ok (unwrap (dt_date w)).
Proof.
  unfold to_datetime.
  destruct v; try (intros [= <-]; reflexivity);
    destruct (parse_datetime _) as [[t|]|]; simpl; intros [= <-]; reflexivity.
Qed.

Lemma is_Ok_unwrap (r : result value) : is_Ok r = true -> r = Ok (unwrap r).
Proof. by destruct r. Qed.

Section HealthNormalizer.
Variable parse_datetime : value -> result (option Z).

Lemma common_steps_eval (df : DataFrame) :
  frame_has ["Timestamp"] df = true ->
  Forall (fun r => is_Ok (to_datetime parse_datetime (cell "Timestamp" r)) = true)
    (rows df) ->
  Forall (fun c => stripped c = true) (columns df) ->
  Forall (fun r => forall k v, cells r !! k = Some v -> stripped k = true) (rows df) ->
  common_steps parse_datetime df
  = Ok (mkFrame (add_column "Date" (columns df)) (common_row parse_datetime <$> rows df)).
Proof.
  intros Hhas Hts Hcols Hkeys. unfold common_steps.
  assert (Hcol : has_column df "Timestamp" = true)
    by (apply (frame_has_column ["Timestamp"]); [assumption|column_of_list]).
  rewrite (assign_fmap _ _ _
             (fun r => unwrap (to_datetime parse_datetime (cell "Timestamp" r)))).
  2: assumption.
  2: { apply Forall_forall. intros r Hr.
       destruct (has_cells_lookup ["Timestamp"] r "Timestamp") as [v Hv];
         [by apply (frame_has_rows _ df)|column_of_list|].
       exists v. split; [assumption|].
       assert (Hc : cell "Timestamp" r = v) by (unfold cell; by rewrite Hv).
       rewrite <- Hc. apply is_Ok_unwrap.
       by apply (proj1 (Forall_forall _ _) Hts). }
  simpl.
  rewrite (assign_fmap _ _ _ (fun r1 => unwrap (dt_date (cell "Timestamp" r1)))).
  2: apply has_column_add.
  2: { simpl. apply Forall_fmap, Forall_forall. intros r Hr. simpl.
       exists (unwrap (to_datetime parse_datetime (cell "Timestamp" r))).
       split; [by rewrite lookup_insert_eq|].
       rewrite cell_set.
       apply (to_datetime_date parse_datetime (cell "Timestamp" r)).
       apply is_Ok_unwrap. by apply (proj1 (Forall_forall _ _) Hts). }
  simpl. rewrite <- list_fmap_compose.
  rewrite (add_column_present "Timestamp") by (by apply has_column_elem).
  unfold rename_columns. simpl. do 2 f_equal.
  - apply fmap_fixed. unfold add_column. case_bool_decide.
    + eapply Forall_impl; [exact Hcols|]. intros c Hc. by apply bool_decide_eq_true in Hc.
    + apply Forall_app. split; [|by repeat constructor].
      eapply Forall_impl; [exact Hcols|]. intros c Hc. by apply bool_decide_eq_true in Hc.
  - rewrite <- list_fmap_compose. apply list_fmap_ext. intros i r Hr. simpl.
    apply list_elem_of_lookup_2 in Hr.
    change (mkRow (label r) (rename_cells strip (cells (common_row parse_datetime r)))
            = common_row parse_datetime r).
    rewrite rename_cells_id; [reflexivity|].
    intros k v. unfold common_row. simpl.
    rewrite !lookup_insert. repeat case_decide; subst; try reflexivity.
    intros Hk. eapply bool_decide_eq_true_1.
    exact (proj1 (Forall_forall _ _) Hkeys r Hr k v Hk).
Qed.
End HealthNormalizer.

Lemma for_each_err {A B} (f : A -> result B) (l : list A) x :
  x ∈ l -> is_Ok (f x) = false ->
  exists y e, y ∈ l /\ f y = Err e /\ for_each f l = Err e.
Proof.
  induction l as [|a l IH]; intros Hx Hf; [by apply elem_of_nil in Hx|].
  simpl. destruct (f a) as [b|e] eqn:Ha.
  - apply elem_of_cons in Hx. destruct Hx as [->|Hx]; [by rewrite Ha in Hf|].
    destruct (IH Hx Hf) as (y & e & Hy & Hfy & Hl).
    exists y, e. split; [by apply elem_of_cons; right|]. split; [assumption|].
    simpl. by rewrite Hl.
  - exists a, e. split; [by apply elem_of_cons; left|]. by split.
Qed.

Lemma cell_common parse_datetime c r :
  c <> "Timestamp" -> c <> "Date" -> cell c (common_row parse_datetime r) = cell c r.
Proof. intros H1 H2. unfold common_row. by rewrite !cell_set_ne. Qed.

Lemma cell_extracted_bp parse_datetime r :
  cell "Systolic" (extracted_row parse_datetime r) = (str_extract (cell "Blood Pressure" r)).1 /\
  cell "Diastolic" (extracted_row parse_datetime r) = (str_extract (cell "Blood Pressure" r)).2.
Proof.
  unfold extracted_row. rewrite cell_set, cell_set_ne, cell_set by discriminate.
  rewrite cell_set_ne by discriminate. by rewrite cell_common by discriminate.
Qed.

Lemma forallb_Forall {A} (f : A -> bool) (l : list A) :
  forallb f l = true -> Forall (fun x => f x = true) l.
Proof.
  rewrite forallb_forall, Forall_forall. intros H x Hx. apply H. by apply list_elem_of_In.
Qed.

Section HealthCasts.
Variable parse_datetime : value -> result (option Z).

Lemma health_raw_ok_spec df :
  health_raw_ok parse_datetime df = true ->
  frame_has ["Timestamp"; "Blood Pressure"] df = true /\
  Forall (fun r => is_Ok (to_datetime parse_datetime (cell "Timestamp" r)) = true) (rows df) /\
  Forall (fun c => stripped c = true) (columns df) /\
  Forall (fun r => forall k v, cells r !! k = Some v -> stripped k = true) (rows df) /\
  (has_column df "Oxygen Saturation (SpO₂%)" = true ->
   Forall (fun r => (exists v, cells r !! "Oxygen Saturation (SpO₂%)" = Some v) /\
                    is_Ok (astype_int (cell "Oxygen Saturation (SpO₂%)" r)) = true)
     (rows df)).
Proof.
  unfold health_raw_ok. rewrite !andb_true_iff.
  intros [[[[H1 H2] H3] H4] H5]. split; [assumption|].
  split; [by apply forallb_Forall|]. split; [by apply forallb_Forall|]. split.
  - apply forallb_Forall in H4. eapply Forall_impl; [exact H4|].
    intros r Hr k v Hk. simpl in Hr. apply forallb_Forall in Hr.
    apply (proj1 (Forall_forall _ _) Hr (k, v)). by apply elem_of_map_to_list.
  - intros Hcol. rewrite Hcol in H5. simpl in H5. apply forallb_Forall in H5.
    eapply Forall_impl; [exact H5|]. intros r Hr. simpl in Hr.
    apply andb_true_iff in Hr. destruct Hr as [Hr1 Hr2].
    apply bool_decide_eq_true_1 in Hr1. destruct Hr1 as [v Hv]. eauto.
Qed.

Lemma extraction_eval df :
  health_raw_ok parse_datetime df = true ->
  process_health_data parse_datetime df
  = (df ← assign "Systolic" "Systolic" astype_int
            (mkFrame (extracted_columns df) (extracted_row parse_datetime <$> rows df));
     df ← assign "Diastolic" "Diastolic" astype_int df;
     if has_column df "Oxygen Saturation (SpO₂%)" then
       assign "Oxygen Saturation (SpO₂%)" "SpO₂" astype_int df
     else Ok df).
Proof.
  intros Hok. destruct (health_raw_ok_spec df Hok) as (Hhas & Hts & Hcols & Hkeys & _).
  unfold process_health_data.
  rewrite (common_steps_eval parse_datetime df); try assumption.
  2: { unfold frame_has in *. simpl in *. rewrite !andb_true_iff in *.
       destruct Hhas as [[H1 _] H2]. split; [by rewrite H1|].
       rewrite forallb_forall in *. intros r Hr. specialize (H2 r Hr).
       unfold has_cells in *. simpl in *. rewrite !andb_true_iff in *. tauto. }
  assert (Hbp : forall r, r ∈ rows df -> exists v, cells r !! "Blood Pressure" = Some v).
  { intros r Hr. apply (has_cells_lookup ["Timestamp"; "Blood Pressure"]);
      [by apply (frame_has_rows _ df)|column_of_list]. }
  simpl.
  rewrite (assign_fmap _ _ _ (fun r => (str_extract (cell "Blood Pressure" r)).1)).
  2: { apply has_column_add_other with (rs := rows df).
       apply (frame_has_column ["Timestamp"; "Blood Pressure"]);
         [by destruct df|column_of_list]. }
  2: { simpl. apply Forall_fmap, Forall_forall. intros r Hr. simpl.
       destruct (Hbp r Hr) as [v Hv]. exists v.
       rewrite !lookup_insert_ne by discriminate. split; [assumption|].
       unfold cell. simpl. rewrite !lookup_insert_ne by discriminate. by rewrite Hv. }
  simpl.
  rewrite (assign_fmap _ _ _ (fun r => (str_extract (cell "Blood Pressure" r)).2)).
  2: { apply has_column_add_other with (rs := rows df).
       apply has_column_add_other with (rs := rows df).
       apply (frame_has_column ["Timestamp"; "Blood Pressure"]);
         [by destruct df|column_of_list]. }
  2: { simpl. apply Forall_fmap, Forall_fmap, Forall_forall. intros r Hr. simpl.
       destruct (Hbp r Hr) as [v Hv]. exists v.
       rewrite !lookup_insert_ne by discriminate. split; [assumption|].
       unfold cell. simpl. rewrite !lookup_insert_ne by discriminate. by rewrite Hv. }
  simpl. rewrite <- !list_fmap_compose. reflexivity.
Qed.
End HealthCasts.

Lemma assign_err src dst f df r :
  has_column df src = true -> r ∈ rows df -> is_Ok (get r src ≫= f) = false ->
  exists r0 e, r0 ∈ rows df /\ get r0 src ≫= f = Err e /\ assign src dst f df = Err e.
Proof.
  intros Hsrc Hr Hf. unfold assign. rewrite Hsrc.
  assert (Hrow : is_Ok (v ← get r src; w ← f v; Ok (set dst w r)) = false).
  { destruct (get r src) as [v|]; simpl in *; [|reflexivity]. by destruct (f v). }
  destruct (for_each_err (fun r => v ← get r src; w ← f v; Ok (set dst w r))
              (rows df) r Hr Hrow) as (y & e & Hy & Hfy & ->).
  exists y, e. split; [assumption|]. split; [|reflexivity].
  destruct (get y src) as [v|e0]; simpl in *; [|congruence].
  destruct (f v); simpl in *; congruence.
Qed.

Lemma lookup_cell c r v : cells r !! c = Some v -> cells r !! c = Some (cell c r).
Proof. intros H. unfold cell. by rewrite H. Qed.

Section HealthResult.
Variable parse_datetime : value -> result (option Z).

Lemma cast_fails df r s :
  health_raw_ok parse_datetime df = true ->
  r ∈ rows df -> cell "Blood Pressure" r = VStr s -> blood_pressure (VStr s) = None ->
  exists r0 e,
    r0 ∈ rows df /\
    astype_int (str_extract (cell "Blood Pressure" r0)).1 = Err e /\
    process_health_data parse_datetime df = Err e.
Proof.
  intros Hok Hr Hcell Hbp. rewrite (extraction_eval parse_datetime df Hok).
  assert (Hcol : has_column
                   (mkFrame (extracted_columns df) (extracted_row parse_datetime <$> rows df))
                   "Systolic" = true).
  { apply has_column_add_other
      with (rs := []), (has_column_add "Systolic" (add_column "Date" (columns df)) []). }
  assert (Hrow : is_Ok (get (extracted_row parse_datetime r) "Systolic" ≫= astype_int) = false).
  { unfold get, extracted_row. simpl. rewrite lookup_insert_ne, lookup_insert_eq by discriminate.
    simpl. rewrite cell_common, Hcell by discriminate.
    pose proof (astype_int_extract (VStr s)) as H. rewrite Hbp in H.
    destruct H as [H _]. by rewrite H. }
  destruct (assign_err "Systolic" "Systolic" astype_int _ _ Hcol
              (list_elem_of_fmap_2 (extracted_row parse_datetime) _ _ Hr) Hrow)
    as (y & e & Hy & Hfy & ->).
  simpl in Hy. apply list_elem_of_fmap in Hy. destruct Hy as (r0 & -> & Hr0).
  exists r0, e. split; [assumption|]. split; [|reflexivity].
  revert Hfy. unfold get, extracted_row. simpl.
  by rewrite lookup_insert_ne, lookup_insert_eq, cell_common by discriminate.
Qed.

Lemma casts_eval df :
  health_raw_ok parse_datetime df = true ->
  (forall r, r ∈ rows df ->
     exists x y, blood_pressure (cell "Blood Pressure" r) = Some (x, y) /\
                 x <= int64_max /\ y <= int64_max) ->
  exists cols,
    process_health_data parse_datetime df
    = Ok (mkFrame cols
            (normalized_health_row parse_datetime
               (has_column df "Oxygen Saturation (SpO₂%)") <$> rows df)).
Proof.
  intros Hok Hall. rewrite (extraction_eval parse_datetime df Hok).
  destruct (health_raw_ok_spec parse_datetime df Hok) as (_ & _ & _ & _ & Hox).
  assert (Hcast : forall r, r ∈ rows df ->
            astype_int (str_extract (cell "Blood Pressure" r)).1
              = Ok (unwrap (astype_int (str_extract (cell "Blood Pressure" r)).1)) /\
            astype_int (str_extract (cell "Blood Pressure" r)).2
              = Ok (unwrap (astype_int (str_extract (cell "Blood Pressure" r)).2))).
  { intros r Hr. destruct (Hall r Hr) as (x & y & Hxy & Hx & Hy).
    pose proof (astype_int_extract (cell "Blood Pressure" r)) as H. rewrite Hxy in H.
    rewrite !bool_decide_eq_true_2 in H by assumption. destruct H as [-> ->]. by split. }
  unfold extracted_columns at 1.
  rewrite (assign_fmap _ _ _ (fun r => unwrap (astype_int (cell "Systolic" r)))).
  2: apply has_column_add_other
       with (rs := []), (has_column_add "Systolic" (add_column "Date" (columns df)) []).
  2: { simpl. apply Forall_fmap, Forall_forall. intros r Hr. simpl.
       destruct (cell_extracted_bp parse_datetime r) as [HS _].
       exists (str_extract (cell "Blood Pressure" r)).1. split.
       - rewrite lookup_insert_ne, lookup_insert_eq by discriminate.
         by rewrite cell_common by discriminate.
       - rewrite HS. apply (Hcast r Hr). }
  simpl.
  rewrite (assign_fmap _ _ _ (fun r => unwrap (astype_int (cell "Diastolic" r)))).
  2: { apply has_column_add_other with (rs := []). apply has_column_add. }
  2: { simpl. apply Forall_fmap, Forall_fmap, Forall_forall. intros r Hr. simpl.
       destruct (cell_extracted_bp parse_datetime r) as [_ HD].
       exists (str_extract (cell "Blood Pressure" r)).2. split.
       - rewrite lookup_insert_ne, lookup_insert_eq by discriminate.
         by rewrite cell_set_ne, cell_common by discriminate.
       - rewrite cell_set_ne, HD by discriminate. apply (Hcast r Hr). }
  simpl. rewrite <- !list_fmap_compose.
  set (cols := add_column "Diastolic" (add_column "Systolic" (extracted_columns df))).
  assert (Hsame : forall rs, has_column (mkFrame cols rs) "Oxygen Saturation (SpO₂%)"
                             = has_column df "Oxygen Saturation (SpO₂%)").
  { intros rs. unfold has_column, cols, extracted_columns, add_column. simpl.
    apply bool_decide_ext.
    repeat case_bool_decide; rewrite ?elem_of_app, ?list_elem_of_singleton;
      intuition discriminate. }
  rewrite Hsame. destruct (has_column df "Oxygen Saturation (SpO₂%)") eqn:Hcol.
  - rewrite (assign_fmap _ _ _
               (fun r => unwrap (astype_int (cell "Oxygen Saturation (SpO₂%)" r)))).
    2: by rewrite Hsame.
    2: { simpl. apply Forall_fmap, Forall_forall. intros r Hr. simpl.
         destruct (proj1 (Forall_forall _ _) (Hox eq_refl) r Hr) as [[v Hv] Hcastable].
         exists v. rewrite !lookup_insert_ne by discriminate. split; [assumption|].
         unfold cell at 1 2. simpl. rewrite !lookup_insert_ne by discriminate.
         fold (cell "Oxygen Saturation (SpO₂%)" r). rewrite <- (is_Ok_unwrap _ Hcastable).
         unfold cell. by rewrite Hv. }
    simpl. rewrite <- list_fmap_compose. eexists. reflexivity.
  - eexists. reflexivity.
Qed.
End HealthResult.

Lemma normalized_health_row_spec parse_datetime oxygen r x y :
  blood_pressure (cell "Blood Pressure" r) = Some (x, y) ->
  x <= int64_max -> y <= int64_max ->
  label (normalized_health_row parse_datetime oxygen r) = label r /\
  cell "Systolic" (normalized_health_row parse_datetime oxygen r) = VInt x /\
  cell "Diastolic" (normalized_health_row parse_datetime oxygen r) = VInt y.
Proof.
  intros Hxy Hx Hy.
  pose proof (astype_int_extract (cell "Blood Pressure" r)) as H. rewrite Hxy in H.
  rewrite !bool_decide_eq_true_2 in H by assumption. destruct H as [HS HD].
  destruct (cell_extracted_bp parse_datetime r) as [ES ED].
  assert (Hcast : cell "Systolic" (cast_row (extracted_row parse_datetime r)) = VInt x /\
                  cell "Diastolic" (cast_row (extracted_row parse_datetime r)) = VInt y).
  { unfold cast_row. rewrite cell_set_ne, !cell_set by discriminate.
    rewrite cell_set_ne by discriminate. by rewrite ES, ED, HS, HD. }
  split; [by destruct oxygen|].
  unfold normalized_health_row, with_spo2.
  destruct oxygen; [rewrite !cell_set_ne by discriminate|]; exact Hcast.
Qed.

(** C9, amended.  The code has no error type of its own for a malformed
    field.  On a raw health frame whose blood pressure cells are ASCII
    text: if some cell holds a string in which digits, a slash and digits
    are found nowhere, [process_health_data] raises Python's ValueError or
    OverflowError, and ValueError when every first group that is found
    fits 64 bits; if the pattern is found in every cell and both groups fit
    64 bits, it returns the rows in order with [Systolic] and [Diastolic]
    the integers the two groups of the first occurrence denote. *)
Theorem process_health_data_blood_pressure
    (parse_datetime : value -> result (option Z)) (df : DataFrame) :
  health_raw_ok parse_datetime df = true ->
  blood_pressure_text df = true ->
  ((exists r s, r ∈ rows df /\ cell "Blood Pressure" r = VStr s /\
                blood_pressure (VStr s) = None) ->
   (process_health_data parse_datetime df = Err ValueError \/
    process_health_data parse_datetime df = Err OverflowError) /\
   ((forall r x y, r ∈ rows df ->
       blood_pressure (cell "Blood Pressure" r) = Some (x, y) -> x <= int64_max) ->
    process_health_data parse_datetime df = Err ValueError)) /\
  ((forall r, r ∈ rows df ->
      exists x y, blood_pressure (cell "Blood Pressure" r) = Some (x, y) /\
                  x <= int64_max /\ y <= int64_max) ->
   exists df',
     process_health_data parse_datetime df = Ok df' /\
     Forall2 (fun r r' =>
                label r' = label r /\
                exists x y, blood_pressure (cell "Blood Pressure" r) = Some (x, y) /\
                            cell "Systolic" r' = VInt x /\ cell "Diastolic" r' = VInt y)
       (rows df) (rows df')).
Proof.
  intros Hok _. split.
  - intros (r & s & Hr & Hcell & Hnone).
    destruct (cast_fails parse_datetime df r s Hok Hr Hcell Hnone) as (r0 & e & Hr0 & He & ->).
    pose proof (astype_int_extract (cell "Blood Pressure" r0)) as H.
    destruct (blood_pressure (cell "Blood Pressure" r0)) as [[x y]|] eqn:Hxy.
    + destruct H as [H _]. rewrite He in H. split.
      * case_bool_decide; [discriminate|]. right. congruence.
      * intros Hfit. rewrite bool_decide_eq_true_2 in H by apply (Hfit r0 x y Hr0 Hxy).
        discriminate.
    + destruct H as [H _]. rewrite He in H. injection H as ->. by split; [left|].
  - intros Hall. destruct (casts_eval parse_datetime df Hok Hall) as [cols ->].
    eexists. split; [reflexivity|]. simpl.
    apply Forall2_fmap_r, Forall_Forall2_diag, Forall_forall. intros r Hr.
    destruct (Hall r Hr) as (x & y & Hxy & Hx & Hy).
    destruct (normalized_health_row_spec parse_datetime
                (has_column df "Oxygen Saturation (SpO₂%)") r x y Hxy Hx Hy)
      as (Hl & HS & HD).
    split; [assumption|]. exists x, y. by split.
Qed.

(** C9 as stated fails on these frames: a blood pressure without the
    pattern makes the normalizer raise ValueError, the error of
    [astype(int)] on the missing groups, and one in which the pattern is
    found but whose first group does not fit 64 bits makes it raise
    OverflowError instead of filling the two fields. *)
Lemma process_health_data_errors :
  cell "Blood Pressure" <$> rows Examples.health_no_pattern = [VStr "n/a"] /\
  blood_pressure (VStr "n/a") = None /\
  process_health_data Examples.unparsed Examples.health_no_pattern = Err ValueError /\
  cell "Blood Pressure" <$> rows Examples.health_too_large
    = [VStr "99999999999999999999/80"] /\
  blood_pressure (VStr "99999999999999999999/80") = Some (99999999999999999999, 80) /\
  process_health_data Examples.unparsed Examples.health_too_large = Err OverflowError.
Proof. repeat split; vm_compute; reflexivity. Qed.

Lemma process_health_data_blood_pressure_witness :
  let parse_datetime := Examples.unparsed in
  process_health_data parse_datetime Examples.health_no_pattern = Err ValueError /\
  exists df',
    process_health_data parse_datetime Examples.health_raw = Ok df' /\
    Forall2 (fun r r' =>
               label r' = label r /\
               exists x y, blood_pressure (cell "Blood Pressure" r) = Some (x, y) /\
                           cell "Systolic" r' = VInt x /\ cell "Diastolic" r' = VInt y)
      (rows Examples.health_raw) (rows df').
Proof.
  intros parse_datetime. split.
  - apply (process_health_data_blood_pressure parse_datetime Examples.health_no_pattern);
      [vm_compute; reflexivity | vm_compute; reflexivity | |].
    + exists (hd (mkRow 0 ∅) (rows Examples.health_no_pattern)), "n/a"%string.
      split; [|split]; try (vm_compute; reflexivity).
      apply list_elem_of_In. left. reflexivity.
    + intros r x y Hr. revert x y. revert r Hr.
      apply (proj1 (Forall_forall
                      (fun r => forall x y,
                         blood_pressure (cell "Blood Pressure" r) = Some (x, y) ->
                         x <= int64_max) _)).
      apply Forall_cons. split; [|apply Forall_nil; exact I].
      intros x y H. vm_compute in H. discriminate.
  - apply (process_health_data_blood_pressure parse_datetime Examples.health_raw);
      [vm_compute; reflexivity | vm_compute; reflexivity |].
    apply (proj1 (Forall_forall
                    (fun r => exists x y,
                       blood_pressure (cell "Blood Pressure" r) = Some (x, y) /\
                       x <= int64_max /\ y <= int64_max) _)).
    apply Forall_cons. split; [|apply Forall_cons; split; [|apply Forall_nil; exact I]].
    + exists 150, 95. split; [vm_compute; reflexivity|]. unfold int64_max. lia.
    + exists 118, 79. split; [vm_compute; reflexivity|]. unfold int64_max. lia.
Defined.

(** ** What training does to the frames *)

(** Splits the goal on the outcome of the next step of a monadic program. *)
Ltac next_step :=
  match goal with
  | |- context [match ?x with _ => _ end] => destruct x eqn:?; simpl
  end.

Section TrainFrames.
Context (lib : library).

Lemma fit_and_score_frames split σ :
  frames lib (fit_and_score lib split σ).2 = frames lib σ.
Proof.
  unfold fit_and_score, get_self, lift, set_model, mbind, M_bind. simpl.
  repeat next_step; reflexivity.
Qed.

(** After its preprocessing step, [train] leaves the frames alone. *)
Lemma health_train_frames merged_data σ :
  frames lib (HealthRiskPredictor.train lib merged_data σ).2
  = frames lib (HealthRiskPredictor.preprocess_data lib merged_data σ).2.
Proof.
  unfold HealthRiskPredictor.train.
  unfold mbind at 1. unfold M_bind at 1.
  destruct (HealthRiskPredictor.preprocess_data lib merged_data σ) as [[data|e] σ1];
    [|reflexivity].
  unfold try_except, get_self, read, lift, set_trained, mret, M_ret, mbind, M_bind. simpl.
  destruct (project _ _) as [X|?]; simpl; [|reflexivity].
  destruct (column _ _) as [y|?]; simpl; [|reflexivity].
  destruct (train_test_split lib X y) as [split|?]; simpl; [|reflexivity].
  pose proof (fit_and_score_frames split σ1) as Hfs.
  destruct (fit_and_score lib split σ1) as [[accuracy|?] σ2]; simpl in *; assumption.
Qed.

Lemma fall_train_frames safety_data σ :
  frames lib (FallRiskPredictor.train lib safety_data σ).2
  = frames lib (FallRiskPredictor.preprocess_data lib safety_data σ).2.
Proof.
  unfold FallRiskPredictor.train.
  unfold mbind at 1. unfold M_bind at 1.
  destruct (FallRiskPredictor.preprocess_data lib safety_data σ) as [[[data|]|e] σ1];
    [|reflexivity|reflexivity].
  unfold try_except, get_self, read, lift, set_trained, set_model, mret, M_ret,
    mbind, M_bind. simpl.
  destruct (project _ _) as [X|?]; simpl; [|reflexivity].
  destruct (column _ _) as [y|?]; simpl; [|reflexivity].
  destruct (train_test_split lib _ y) as [split|?]; simpl; [|reflexivity].
  match goal with |- context [fit_and_score lib split ?s] =>
    pose proof (fit_and_score_frames split s) as Hfs;
    destruct (fit_and_score lib split s) as [[accuracy|?] σ2]
  end; simpl in *; assumption.
Qed.

Lemma reminder_train_frames reminder_data σ :
  frames lib (ReminderEffectivenessPredictor.train lib reminder_data σ).2
  = frames lib (ReminderEffectivenessPredictor.preprocess_data lib reminder_data σ).2.
Proof.
  unfold ReminderEffectivenessPredictor.train.
  unfold mbind at 1. unfold M_bind at 1.
  destruct (ReminderEffectivenessPredictor.preprocess_data lib reminder_data σ)
    as [[[data|]|e] σ1]; [|reflexivity|reflexivity].
  unfold try_except, get_self, read, lift, set_trained, set_model, mret, M_ret,
    mbind, M_bind. simpl.
  destruct (select_eq _ _ _) as [sent|?]; simpl; [|reflexivity].
  case_bool_decide; simpl; [reflexivity|].
  destruct (project _ _) as [X|?]; simpl; [|reflexivity].
  destruct (column _ _) as [y|?]; simpl; [|reflexivity].
  destruct (train_test_split lib _ y) as [split|?]; simpl; [|reflexivity].
  match goal with |- context [fit_and_score lib split ?s] =>
    pose proof (fit_and_score_frames split s) as Hfs;
    destruct (fit_and_score lib split s) as [[accuracy|?] σ2]
  end; simpl in *; assumption.
Qed.
End TrainFrames.

(** C10 does not hold of the code: [train] writes its derived columns to the
    frame the caller passed.  Whatever scikit-learn does, after
    [HealthRiskPredictor.train] the caller's merged frame has the column
    [Risk], and after [FallRiskPredictor.train] the caller's safety frame has
    the columns [Hour] and [DayOfWeek]; so has the caller's reminder frame
    after [ReminderEffectivenessPredictor.train], once the scheduled times
    are read. *)
Theorem train_writes_to_the_callers_frame :
  (forall lib : library,
     Examples.columns_after
       (HealthRiskPredictor.train lib 0 (Examples.fresh lib [Examples.merged_batch]))
     = Some (columns Examples.merged_batch ++ ["Risk"])) /\
  (forall lib : library,
     Examples.columns_after
       (FallRiskPredictor.train lib (Some 0%nat)
          (Examples.fresh lib [Examples.activity_batch]))
     = Some (columns Examples.activity_batch ++ ["Hour"; "DayOfWeek"])) /\
  Examples.columns_after
    (ReminderEffectivenessPredictor.train (Examples.constant_classifier 0) (Some 0%nat)
       (Examples.fresh (Examples.constant_classifier 0) [Examples.reminder_batch]))
  = Some (columns Examples.reminder_batch ++ ["Hour"; "DayOfWeek"]).
Proof.
  unfold Examples.columns_after. split; [|split].
  - intros lib. rewrite health_train_frames. vm_compute. reflexivity.
  - intros lib. rewrite fall_train_frames. vm_compute. reflexivity.
  - vm_compute. reflexivity.
Qed.

(** * Further properties *)

(** ** Caregiver notification *)

Lemma for_each_inv {A B} (f : A -> result B) (l : list A) ys :
  for_each f l = Ok ys -> Forall2 (fun x y => f x = Ok y) l ys.
Proof.
  revert ys. induction l as [|x l IH]; simpl; intros ys H.
  - injection H as <-. constructor.
  - destruct (f x) as [y|] eqn:Hx; simpl in H; [|discriminate].
    destruct (for_each f l) as [ys'|]; simpl in H; [|discriminate].
    injection H as <-. constructor; auto.
Qed.

Lemma string_prefix_app (a b : string) : String.prefix a (a +:+ b) = true.
Proof.
  induction a as [|c a IH]; simpl; [by destruct b|].
  destruct (ascii_dec c c); [assumption|congruence].
Qed.

Lemma contains_unfold needle hay :
  contains needle hay
  = String.prefix needle hay
    || match hay with
       | EmptyString => false
       | String _ hay' => contains needle hay'
       end.
Proof. destruct hay; reflexivity. Qed.

Lemma contains_app (needle pre post : string) :
  contains needle (pre +:+ needle +:+ post) = true.
Proof.
  induction pre as [|c pre IH].
  - change (contains needle (needle +:+ post) = true).
    by rewrite contains_unfold, string_prefix_app.
  - change (contains needle (String c (pre +:+ needle +:+ post)) = true).
    rewrite contains_unfold, IH. apply orb_true_r.
Qed.

Lemma contains_skip (needle pre hay : string) :
  contains needle hay = true -> contains needle (pre +:+ hay) = true.
Proof.
  intros H. induction pre as [|c pre IH]; [exact H|].
  change (contains needle (String c (pre +:+ hay)) = true).
  rewrite contains_unfold, IH. apply orb_true_r.
Qed.

Lemma lower_app (a b : string) : lower (a +:+ b) = lower a +:+ lower b.
Proof. induction a as [|c a IH]; simpl; [reflexivity|]. by rewrite IH. Qed.

Lemma app_empty_r (s : string) : s +:+ EmptyString = s.
Proof.
  induction s as [|c s IH]; [reflexivity|].
  change (String c (s +:+ EmptyString) = String c s). by rewrite IH.
Qed.

Lemma join_cons sep x l : exists rest, join sep (x :: l) = x +:+ rest.
Proof.
  destruct l as [|y l].
  - exists EmptyString. simpl. by rewrite app_empty_r.
  - eexists. reflexivity.
Qed.

Section Notification.
Variable float_repr : Q -> string.
Variable isoformat : value -> string.

(** X1.  No alert of [generate_reminder_alerts] makes
    [should_notify_caregiver] answer True: a missed reminder never notifies
    the caregiver, a missed medication included. *)
Theorem reminder_alerts_never_notify (df : DataFrame) (alerts : list Alert) :
  generate_reminder_alerts float_repr isoformat df = Ok alerts ->
  Forall (fun a => should_notify_caregiver a = false) alerts.
Proof.
  unfold generate_reminder_alerts.
  destruct (has_column df "Reminder Sent (Yes/No)"); [|discriminate].
  destruct (has_column df "Acknowledged (Yes/No)"); [|discriminate].
  destruct (for_each _ _) as [appended|] eqn:Happ; simpl; [|discriminate].
  intros [= <-]. apply for_each_inv in Happ.
  induction Happ as [|row l rows ls Hrow _ IH]; simpl; [constructor|].
  apply Forall_app. split; [|exact IH].
  revert Hrow. unfold reminder_alert.
  destruct (get row "Device-ID/User-ID"); simpl; [|discriminate].
  destruct (get row "Timestamp"); simpl; [|discriminate].
  destruct (get row "Reminder Type") as [ty|]; simpl; [|discriminate].
  destruct (get row "Scheduled Time"); simpl; [|discriminate].
  destruct (important ty); intros [= <-]; [|constructor].
  constructor; [|constructor].
  unfold should_notify_caregiver. simpl.
  destruct (py_eq ty (VStr "Medication"));
    rewrite bool_decide_eq_false_2 by discriminate; by destruct (contains _ _).
Qed.

Lemma bind_Ok_inv {A B} (m : result A) (f : A -> result B) b :
  m ≫= f = Ok b -> exists a, m = Ok a /\ f a = Ok b.
Proof. destruct m as [a|]; simpl; [eauto|discriminate]. Qed.

Lemma get_cell r c v : get r c = Ok v -> cell c r = v.
Proof. unfold get, cell. destruct (cells r !! c); simpl; congruence. Qed.

(** X2.  Every alert of [generate_safety_alerts] for a fall whose impact
    force level is "High" or "Medium" makes [should_notify_caregiver] answer
    True. *)
Theorem fall_alerts_notify (df : DataFrame) (alerts : list Alert) :
  generate_safety_alerts float_repr isoformat df = Ok alerts ->
  Forall2 (fun row a =>
             cell "Impact Force Level" row = VStr "High" \/
             cell "Impact Force Level" row = VStr "Medium" ->
             should_notify_caregiver a = true)
    (filter (fun row => fall_detected row = true) (rows df)) alerts.
Proof.
  unfold generate_safety_alerts, select_eq.
  destruct (has_column df "Fall Detected (Yes/No)"); simpl; [|discriminate].
  intros Hall. apply for_each_inv in Hall.
  eapply Forall2_impl; [exact Hall|]. clear Hall. intros row a Hrow Himpact.
  revert Hrow. unfold safety_alert.
  destruct (get row "Device-ID/User-ID"); simpl; [|discriminate].
  destruct (get row "Timestamp"); simpl; [|discriminate].
  destruct (get row "Location") as [location|]; simpl; [|discriminate].
  destruct (get row "Impact Force Level") as [impact|] eqn:Hget; simpl; [|discriminate].
  apply get_cell in Hget. rewrite Hget in Himpact.
  destruct (get row "Post-Fall Inactivity Duration (Seconds)") as [inactivity|];
    simpl; [|discriminate].
  destruct (get row "Caregiver Notified (Yes/No)"); simpl; [|discriminate].
  destruct Himpact as [-> | ->].
  - simpl. intros [= <-]. reflexivity.
  - simpl. destruct (py_gt inactivity 300) as [[|]|]; simpl; intros [= <-];
      [reflexivity|].
    unfold should_notify_caregiver. cbn [Priority Alert_Type Message py_str].
    rewrite !bool_decide_eq_false_2 by discriminate.
    rewrite bool_decide_eq_true_2 by reflexivity. cbn [andb].
    rewrite (contains_skip "Medium" "Fall detected in "),
      orb_true_r; [reflexivity|].
    apply contains_skip, contains_skip.
    apply (contains_app "Medium" EmptyString).
Qed.

(** X3.  Every alert of [generate_health_alerts] for an event whose heart
    rate flag is 'Yes' makes [should_notify_caregiver] answer True, also
    when it is the only flag and the priority is Medium. *)
Theorem heart_rate_alerts_notify (df : DataFrame) (alerts : list Alert) :
  generate_health_alerts float_repr isoformat df = Ok alerts ->
  Forall2 (fun row a =>
             cell "Heart Rate Below/Above Threshold (Yes/No)" row = VStr "Yes" ->
             should_notify_caregiver a = true)
    (filter (fun row => alert_triggered row = true) (rows df)) alerts.
Proof.
  unfold generate_health_alerts, select_eq.
  destruct (has_column df "Alert Triggered (Yes/No)"); simpl; [|discriminate].
  intros Hall. apply for_each_inv in Hall.
  eapply Forall2_impl; [exact Hall|]. clear Hall. intros row a Hrow Hflag.
  unfold health_alert in Hrow.
  apply bind_Ok_inv in Hrow as (device_id & _ & Hrow).
  apply bind_Ok_inv in Hrow as (timestamp & _ & Hrow).
  apply bind_Ok_inv in Hrow as (r1 & Hr1 & Hrow).
  apply bind_Ok_inv in Hrow as (r2 & _ & Hrow).
  apply bind_Ok_inv in Hrow as (r3 & _ & Hrow).
  apply bind_Ok_inv in Hrow as (r4 & _ & Hrow).
  apply bind_Ok_inv in Hrow as (notified & _ & Hrow).
  injection Hrow as <-.
  unfold reason in Hr1. apply bind_Ok_inv in Hr1 as (f1 & Hf1 & Hr1).
  apply get_cell in Hf1. rewrite Hflag in Hf1. subst f1.
  change (py_eq (VStr "Yes") (VStr "Yes")) with true in Hr1. cbn iota in Hr1.
  apply bind_Ok_inv in Hr1 as (t & Ht & Hr1). injection Hr1 as <-.
  apply bind_Ok_inv in Ht as (hr & _ & Ht). injection Ht as <-.
  unfold should_notify_caregiver. cbn [Priority Alert_Type Message].
  case_bool_decide; [reflexivity|].
  rewrite bool_decide_eq_true_2 by reflexivity. cbn [andb].
  destruct (join_cons "; " ("Abnormal heart rate: " +:+ py_str float_repr isoformat hr)
              (r2 ++ r3 ++ r4)) as [rest Hrest].
  change ((["Abnormal heart rate: " +:+ py_str float_repr isoformat hr] ++ r2 ++ r3 ++ r4))
    with (("Abnormal heart rate: " +:+ py_str float_repr isoformat hr) :: (r2 ++ r3 ++ r4)).
  rewrite Hrest, !lower_app.
  exact (contains_app "heart rate" "abnormal "
           (": " +:+ lower (py_str float_repr isoformat hr) +:+ lower rest)).
Qed.
End Notification.

(** ** What the normalizers do to a raw frame *)

Lemma raw_ok_spec parse_datetime df :
  raw_ok parse_datetime df = true ->
  has_column df "Timestamp" = true /\
  (forall c r, has_column df c = true -> r ∈ rows df -> is_Some (cells r !! c)) /\
  Forall (fun r => is_Ok (to_datetime parse_datetime (cell "Timestamp" r)) = true) (rows df) /\
  Forall (fun c => stripped c = true) (columns df) /\
  Forall (fun r => forall k v, cells r !! k = Some v -> stripped k = true) (rows df).
Proof.
  unfold raw_ok. rewrite !andb_true_iff.
  intros [[[[H1 H2] H3] H4] H5]. split; [assumption|].
  split; [|split; [by apply forallb_Forall|split; [by apply forallb_Forall|]]].
  - intros c r Hc Hr. apply has_column_elem in Hc.
    apply forallb_Forall in H2.
    destruct (has_cells_lookup (columns df) r c) as [v Hv]; [|assumption|by eexists].
    by apply (proj1 (Forall_forall _ _) H2).
  - apply forallb_Forall in H5. eapply Forall_impl; [exact H5|].
    intros r Hr k v Hk. simpl in Hr. apply forallb_Forall in Hr.
    apply (proj1 (Forall_forall _ _) Hr (k, v)). by apply elem_of_map_to_list.
Qed.

Lemma raw_common_steps parse_datetime df :
  raw_ok parse_datetime df = true ->
  common_steps parse_datetime df
  = Ok (mkFrame (add_column "Date" (columns df)) (common_row parse_datetime <$> rows df)).
Proof.
  intros Hok. destruct (raw_ok_spec _ _ Hok) as (Hts & Hcells & Hconv & Hcols & Hkeys).
  apply common_steps_eval; try assumption.
  unfold frame_has. simpl. rewrite Hts. simpl.
  apply forallb_forall. intros r Hr. unfold has_cells. simpl.
  rewrite andb_true_r. apply bool_decide_eq_true_2.
  apply Hcells; [assumption|by apply list_elem_of_In].
Qed.

Lemma when_present_map col g df :
  (has_column df col = true -> Forall (fun r => is_Some (cells r !! col)) (rows df)) ->
  when_present col (fun v => Ok (g v)) df
  = Ok (mkFrame (columns df) (mapped (has_column df col) col g <$> rows df)).
Proof.
  intros Hcells. unfold when_present, mapped.
  destruct (has_column df col) eqn:Hcol.
  - rewrite (assign_fmap _ _ _ (fun r => g (cell col r))); [|assumption|].
    + by rewrite add_column_present by (by apply has_column_elem).
    + eapply Forall_impl; [exact (Hcells eq_refl)|]. intros r [v Hv].
      exists v. split; [assumption|]. unfold cell. by rewrite Hv.
  - rewrite list_fmap_id. by destruct df.
Qed.

Lemma cell_mapped present col g c r :
  cell c (mapped present col g r)
  = if present && bool_decide (c = col) then g (cell col r) else cell c r.
Proof.
  unfold mapped. destruct present; simpl; [|reflexivity].
  case_bool_decide as Hc.
  - subst. apply cell_set.
  - apply cell_set_ne. congruence.
Qed.


Lemma is_Some_mapped present col g c r :
  is_Some (cells r !! c) -> is_Some (cells (mapped present col g r) !! c).
Proof.
  unfold mapped. destruct present; [|done]. simpl. intros H.
  destruct (decide (col = c)) as [->|Hne];
    [rewrite lookup_insert_eq; by eexists | by rewrite lookup_insert_ne].
Qed.

Lemma is_Some_set c' v c r :
  is_Some (cells r !! c) -> is_Some (cells (set c' v r) !! c).
Proof.
  intros H. unfold set. simpl.
  destruct (decide (c' = c)) as [->|Hne];
    [rewrite lookup_insert_eq; by eexists | by rewrite lookup_insert_ne].
Qed.

Lemma lookup_set_ne c' v c r : c <> c' -> cells (set c' v r) !! c = cells r !! c.
Proof. intros H. unfold set. simpl. by rewrite lookup_insert_ne. Qed.

Lemma is_Some_common parse_datetime c r :
  is_Some (cells r !! c) -> is_Some (cells (common_row parse_datetime r) !! c).
Proof.
  unfold common_row. simpl. intros H.
  rewrite !lookup_insert. repeat case_decide; try by eexists. assumption.
Qed.

Lemma lookup_common parse_datetime c r :
  c <> "Timestamp" -> c <> "Date" ->
  cells (common_row parse_datetime r) !! c = cells r !! c.
Proof. intros H1 H2. unfold common_row. simpl. by rewrite !lookup_insert_ne. Qed.

Lemma has_column_date df rs c :
  c <> "Date" ->
  has_column (mkFrame (add_column "Date" (columns df)) rs) c = has_column df c.
Proof.
  intros Hc. unfold has_column, add_column. simpl. apply bool_decide_ext.
  case_bool_decide; [reflexivity|].
  rewrite elem_of_app, list_elem_of_singleton. intuition congruence.
Qed.

Section Normalizers.
Variable parse_datetime : value -> result (option Z).

Lemma process_safety_data_eval df :
  raw_ok parse_datetime df = true ->
  process_safety_data parse_datetime df
  = Ok (mkFrame (add_column "Date" (columns df))
          (normalized_safety_row parse_datetime df <$> rows df)).
Proof.
  intros Hok. destruct (raw_ok_spec _ _ Hok) as (_ & Hcells & _).
  unfold process_safety_data. rewrite (raw_common_steps _ _ Hok).
  cbn [mbind result_bind].
  rewrite when_present_map.
  2: { rewrite has_column_date by discriminate. intros Hc. cbn [rows].
       apply Forall_fmap, Forall_forall. intros r Hr. apply is_Some_common; auto. }
  cbn [mbind result_bind]. rewrite when_present_map.
  2: { cbn [columns rows]. rewrite has_column_date by discriminate. intros Hc.
       rewrite <- list_fmap_compose.
       apply Forall_fmap, Forall_forall. intros r Hr.
       apply is_Some_mapped, is_Some_common; auto. }
  cbn [mbind result_bind]. rewrite when_present_map.
  2: { cbn [columns rows]. rewrite has_column_date by discriminate. intros Hc.
       rewrite <- !list_fmap_compose.
       apply Forall_fmap, Forall_forall. intros r Hr.
       apply is_Some_mapped, is_Some_mapped, is_Some_common; auto. }
  cbn [mbind result_bind]. rewrite when_present_map.
  2: { cbn [columns rows]. rewrite has_column_date by discriminate. intros Hc.
       rewrite <- !list_fmap_compose.
       apply Forall_fmap, Forall_forall. intros r Hr.
       apply is_Some_mapped, is_Some_mapped, is_Some_mapped, is_Some_common; auto. }
  cbn [columns rows]. rewrite !has_column_date by discriminate.
  rewrite <- !list_fmap_compose. reflexivity.
Qed.


Variable parse_time : value -> result (option Z).

Lemma process_reminder_data_eval df :
  raw_ok parse_datetime df = true ->
  scheduled_times_ok parse_time df = true ->
  process_reminder_data parse_datetime parse_time df
  = Ok (mkFrame (add_column "Date" (columns df))
          (normalized_reminder_row parse_datetime parse_time df <$> rows df)).
Proof.
  intros Hok Hsched. destruct (raw_ok_spec _ _ Hok) as (_ & Hcells & _).
  apply andb_true_iff in Hsched as [Hst Htimes]. apply forallb_Forall in Htimes.
  unfold process_reminder_data. rewrite (raw_common_steps _ _ Hok).
  cbn [mbind result_bind].
  rewrite (assign_fmap _ _ _
             (fun r => unwrap (to_time parse_time (cell "Scheduled Time" r)))).
  2: by rewrite has_column_date by discriminate.
  2: { cbn [rows]. apply Forall_fmap, Forall_forall. intros r Hr. cbn beta.
       destruct (Hcells "Scheduled Time" r Hst Hr) as [v Hv].
       exists v. rewrite lookup_common by discriminate. split; [assumption|].
       rewrite cell_common by discriminate.
       assert (Hc : cell "Scheduled Time" r = v) by (unfold cell; by rewrite Hv).
       rewrite <- Hc. apply is_Ok_unwrap.
       by apply (proj1 (Forall_forall _ _) Htimes). }
  cbn [mbind result_bind columns rows].
  rewrite (add_column_present "Scheduled Time").
  2: { apply (proj1 (has_column_elem (mkFrame (add_column "Date" (columns df)) []) _)).
       by rewrite has_column_date by discriminate. }
  rewrite when_present_map.
  2: { cbn [columns rows]. rewrite has_column_date by discriminate. intros Hc.
       rewrite <- !list_fmap_compose.
       apply Forall_fmap, Forall_forall. intros r Hr. cbn beta.
       apply is_Some_set, is_Some_common; auto. }
  cbn [mbind result_bind]. rewrite when_present_map.
  2: { cbn [columns rows]. rewrite has_column_date by discriminate. intros Hc.
       rewrite <- !list_fmap_compose.
       apply Forall_fmap, Forall_forall. intros r Hr. cbn beta.
       apply is_Some_mapped, is_Some_set, is_Some_common; auto. }
  cbn [columns rows]. rewrite !has_column_date by discriminate.
  rewrite <- !list_fmap_compose. reflexivity.
Qed.


(** X7.  A normalizer raises KeyError for the column it cannot do without:
    each of the three for [Timestamp], and on a frame that got past the
    common steps [process_health_data] for [Blood Pressure] and
    [process_reminder_data] for [Scheduled Time]. *)
Theorem normalizers_missing_column (df : DataFrame) :
  (has_column df "Timestamp" = false ->
   process_health_data parse_datetime df = Err (KeyError "Timestamp") /\
   process_safety_data parse_datetime df = Err (KeyError "Timestamp") /\
   process_reminder_data parse_datetime parse_time df = Err (KeyError "Timestamp")) /\
  (raw_ok parse_datetime df = true ->
   (has_column df "Blood Pressure" = false ->
    process_health_data parse_datetime df = Err (KeyError "Blood Pressure")) /\
   (has_column df "Scheduled Time" = false ->
    process_reminder_data parse_datetime parse_time df = Err (KeyError "Scheduled Time"))).
Proof.
  split.
  - intros Hts.
    unfold process_health_data, process_safety_data, process_reminder_data,
      common_steps, assign.
    rewrite Hts. by repeat split.
  - intros Hok.
    unfold process_health_data, process_reminder_data.
    rewrite (raw_common_steps _ _ Hok). cbn [mbind result_bind]. unfold assign.
    split; intros Hcol; by rewrite has_column_date, Hcol by discriminate.
Qed.
End Normalizers.

Section HealthFields.
Variable parse_datetime : value -> result (option Z).

(** X8.  When [process_health_data] succeeds, no field of an event other
    than [Timestamp] is changed, the fields [Date], [Systolic], [Diastolic]
    and [SpO₂] apart, which it derives: [Timestamp] is the converted instant,
    [Date] its date, and [SpO₂], when there is an oxygen saturation column,
    that column as an integer: an integer saturation as it is, a float one
    within 64 bits cut towards zero, and in general what [astype(int)] makes
    of the cell. *)
Theorem process_health_data_fields (df : DataFrame) :
  health_raw_ok parse_datetime df = true ->
  blood_pressure_fits df = true ->
  exists df',
    process_health_data parse_datetime df = Ok df' /\
    Forall2 (fun r r' =>
               (forall c, c ∉ ["Timestamp"; "Date"; "Systolic"; "Diastolic"; "SpO₂"] ->
                          cells r' !! c = cells r !! c) /\
               to_datetime parse_datetime (cell "Timestamp" r) = Ok (cell "Timestamp" r') /\
               dt_date (cell "Timestamp" r') = Ok (cell "Date" r') /\
               (has_column df "Oxygen Saturation (SpO₂%)" = true ->
                astype_int (cell "Oxygen Saturation (SpO₂%)" r) = Ok (cell "SpO₂" r') /\
                (forall n : Z,
                   cell "Oxygen Saturation (SpO₂%)" r = VInt n ->
                   cell "SpO₂" r' = VInt n) /\
                (forall q : Q,
                   cell "Oxygen Saturation (SpO₂%)" r = VFloat q ->
                   int64_min <= Z.quot (Qnum q) (Zpos (Qden q)) <= int64_max ->
                   cell "SpO₂" r' = VInt (Z.quot (Qnum q) (Zpos (Qden q))))))
      (rows df) (rows df').
Proof.
  intros Hok Hfits.
  assert (Hall : forall r, r ∈ rows df ->
            exists x y, blood_pressure (cell "Blood Pressure" r) = Some (x, y) /\
                        x <= int64_max /\ y <= int64_max).
  { intros r Hr. apply forallb_Forall in Hfits.
    pose proof (proj1 (Forall_forall _ _) Hfits r Hr) as H. cbn beta in H.
    destruct (blood_pressure _) as [[x y]|]; [|discriminate].
    apply andb_true_iff in H as [Hx Hy].
    exists x, y. split; [reflexivity|].
    split; [exact (bool_decide_eq_true_1 _ Hx)|exact (bool_decide_eq_true_1 _ Hy)]. }
  destruct (casts_eval parse_datetime df Hok Hall) as [cols ->].
  destruct (health_raw_ok_spec parse_datetime df Hok) as (_ & Hts & _ & _ & Hox).
  eexists. split; [reflexivity|]. cbn [rows].
  apply Forall2_fmap_r, Forall_Forall2_diag, Forall_forall. intros r Hr.
  assert (Hconv : to_datetime parse_datetime (cell "Timestamp" r)
                  = Ok (unwrap (to_datetime parse_datetime (cell "Timestamp" r)))).
  { apply is_Ok_unwrap. by apply (proj1 (Forall_forall _ _) Hts). }
  assert (Hkeep : forall c oxygen,
            c <> "Systolic" -> c <> "Diastolic" -> c <> "SpO₂" ->
            cells (normalized_health_row parse_datetime oxygen r) !! c
            = cells (common_row parse_datetime r) !! c).
  { intros c oxygen H1 H2 H3.
    unfold normalized_health_row, with_spo2, cast_row, extracted_row.
    destruct oxygen; by rewrite !lookup_set_ne by assumption. }
  assert (Hcell : forall c oxygen,
            c <> "Systolic" -> c <> "Diastolic" -> c <> "SpO₂" ->
            cell c (normalized_health_row parse_datetime oxygen r)
            = cell c (common_row parse_datetime r)).
  { intros c oxygen H1 H2 H3. unfold cell. by rewrite Hkeep. }
  split; [|split; [|split]].
  - intros c Hc. rewrite !not_elem_of_cons in Hc.
    destruct Hc as (H1 & H2 & H3 & H4 & H5 & _).
    rewrite Hkeep by assumption. by apply lookup_common.
  - rewrite Hcell by discriminate. unfold common_row.
    by rewrite cell_set_ne, cell_set by discriminate.
  - rewrite !Hcell by discriminate. unfold common_row.
    rewrite cell_set_ne, !cell_set by discriminate.
    apply (to_datetime_date parse_datetime (cell "Timestamp" r)). exact Hconv.
  - intros Hcol. rewrite Hcol.
    destruct (proj1 (Forall_forall _ _) (Hox Hcol) r Hr) as [_ Hcast].
    unfold normalized_health_row, with_spo2. rewrite cell_set.
    unfold cast_row, extracted_row. rewrite !cell_set_ne by discriminate.
    rewrite cell_common by discriminate.
    split; [by apply is_Ok_unwrap|]. split.
    + intros n Hn. rewrite Hn in Hcast |- *. unfold astype_int in *.
      destruct (in_int64 n); [reflexivity|discriminate].
    + intros q Hq Hrange. rewrite Hq. unfold astype_int, in_int64. cbn [unwrap].
      by rewrite bool_decide_eq_true_2.
Qed.
End HealthFields.

Lemma filter_fmap_bool {A B} (f : A -> B) (P : B -> bool) (l : list A) :
  filter (fun y => P y = true) (f <$> l) = f <$> filter (fun x => P (f x) = true) l.
Proof.
  induction l as [|x l IH]; [reflexivity|]. rewrite fmap_cons.
  destruct (P (f x)) eqn:HP.
  - rewrite !filter_cons_True by assumption. by rewrite fmap_cons, IH.
  - rewrite !filter_cons_False by (by rewrite HP). exact IH.
Qed.

Lemma map_yes_no_true v : py_eq (map_yes_no v) (VBool true) = bool_decide (v = VStr "Yes").
Proof.
  destruct (decide (v = VStr "Yes")) as [->|Hne]; [reflexivity|].
  rewrite bool_decide_eq_false_2 by assumption.
  unfold map_yes_no.
  repeat (match goal with
          | |- context [match ?x with _ => _ end] => destruct x; try reflexivity
          end); congruence.
Qed.

Lemma exceeds_fillna v n : 0 <= n -> exceeds (fillna_0 v) n <-> exceeds v n.
Proof.
  intros Hn. unfold fillna_0, exceeds.
  destruct v; simpl; try reflexivity;
    (split; [|by intros (x & [=] & _)];
     intros (x & [= <-] & Hlt); exfalso;
     apply Qlt_not_le in Hlt; apply Hlt;
     rewrite <- Zle_Qle; exact Hn).
Qed.

Lemma comparable_fillna v : comparable v = true -> comparable (fillna_0 v) = true.
Proof. by destruct v. Qed.

Section Pipeline.
Variable float_repr : Q -> string.
Variable isoformat : value -> string.
Variable parse_datetime : value -> result (option Z).

Lemma normalized_safety_frame_ok df :
  raw_ok parse_datetime df = true -> safety_frame_ok df = true ->
  safety_frame_ok
    (mkFrame (add_column "Date" (columns df))
       (normalized_safety_row parse_datetime df <$> rows df)) = true.
Proof.
  intros Hok Hsafe. unfold safety_frame_ok in *.
  apply andb_true_iff in Hsafe as [Hhas Hcmp].
  assert (Hinact : has_column df "Post-Fall Inactivity Duration (Seconds)" = true)
    by (apply (frame_has_column safety_columns); [assumption|column_of_list]).
  apply andb_true_iff. split.
  - unfold frame_has in *. apply andb_true_iff in Hhas as [Hcols Hrows].
    apply andb_true_iff. cbn [rows]. split.
    + apply forallb_forall. intros c Hc.
      rewrite forallb_forall in Hcols. specialize (Hcols c Hc).
      apply has_column_elem. apply has_column_elem in Hcols.
      unfold add_column. cbn [columns]. case_bool_decide; [assumption|].
      apply elem_of_app. by left.
    + apply forallb_forall. intros r' Hr'. apply list_elem_of_In in Hr'.
      apply list_elem_of_fmap in Hr' as (r & -> & Hr).
      rewrite forallb_forall in Hrows.
      specialize (Hrows r (proj1 (list_elem_of_In _ _) Hr)).
      unfold has_cells in *. apply forallb_forall. intros c Hc.
      rewrite forallb_forall in Hrows. specialize (Hrows c Hc).
      apply bool_decide_eq_true_2. apply bool_decide_eq_true_1 in Hrows.
      unfold normalized_safety_row.
      by apply is_Some_mapped, is_Some_mapped, is_Some_mapped, is_Some_mapped,
        is_Some_common.
  - cbn [rows]. apply forallb_forall. intros r' Hr'. apply list_elem_of_In in Hr'.
    apply list_elem_of_fmap in Hr' as (r & -> & Hr).
    rewrite forallb_forall in Hcmp.
    specialize (Hcmp r (proj1 (list_elem_of_In _ _) Hr)).
    unfold normalized_safety_row. rewrite !cell_mapped, Hinact. simpl.
    rewrite !andb_false_r. rewrite cell_common by discriminate.
    by apply comparable_fillna.
Qed.

(** X9.  From raw safety events to fall alerts, as [load_data] chains the
    two: normalizing a raw safety frame and generating the fall alerts of
    the result succeeds, and the alerts stand one to one, in order, to the
    raw events whose fall flag is the text 'Yes'; an alert carries the
    event's device and converted timestamp, and its priority is High exactly
    when the raw impact is "High" or the raw inactivity exceeds 300. *)
Theorem normalized_falls_alert (df : DataFrame) :
  raw_ok parse_datetime df = true ->
  safety_frame_ok df = true ->
  exists df' alerts,
    process_safety_data parse_datetime df = Ok df' /\
    generate_safety_alerts float_repr isoformat df' = Ok alerts /\
    Forall2 (fun r a =>
               Device_ID a = cell "Device-ID/User-ID" r /\
               to_datetime parse_datetime (cell "Timestamp" r) = Ok (Timestamp a) /\
               (Priority a = "High" <->
                  cell "Impact Force Level" r = VStr "High" \/
                  exceeds (cell "Post-Fall Inactivity Duration (Seconds)" r) 300))
      (filter (fun r => cell "Fall Detected (Yes/No)" r = VStr "Yes") (rows df)) alerts.
Proof.
  intros Hok Hsafe.
  destruct (raw_ok_spec _ _ Hok) as (_ & _ & Hts & _).
  assert (Hflag : has_column df "Fall Detected (Yes/No)" = true /\
                  has_column df "Post-Fall Inactivity Duration (Seconds)" = true).
  { unfold safety_frame_ok in Hsafe. apply andb_true_iff in Hsafe as [Hhas _].
    split; apply (frame_has_column safety_columns); try assumption; column_of_list. }
  destruct Hflag as [Hflag Hinact].
  destruct (safety_alerts_total float_repr isoformat _
              (normalized_safety_frame_ok df Hok Hsafe)) as (alerts & Hgen & Hall).
  eexists _, alerts. split; [by apply process_safety_data_eval|].
  split; [exact Hgen|]. cbn [rows] in Hall.
  rewrite (filter_fmap_bool (normalized_safety_row parse_datetime df) fall_detected) in Hall.
  assert (Hfilter : filter (fun r => fall_detected (normalized_safety_row parse_datetime df r)
                                     = true) (rows df)
                    = filter (fun r => cell "Fall Detected (Yes/No)" r = VStr "Yes") (rows df)).
  { apply list_filter_iff. intros r. unfold fall_detected.
    rewrite where_eq_cell. unfold normalized_safety_row.
    rewrite !cell_mapped, Hflag. simpl. rewrite !andb_false_r.
    rewrite cell_common by discriminate.
    by rewrite map_yes_no_true, bool_decide_eq_true. }
  rewrite Hfilter, Forall2_fmap_l in Hall.
  eapply Forall2_impl_elem; [exact Hall|]. cbn beta.
  intros r a Hr (_ & Hdev & Htime & _ & Hprio & _).
  apply list_elem_of_filter in Hr as [_ Hr].
  revert Hdev Htime Hprio. unfold normalized_safety_row.
  rewrite !cell_mapped, Hinact. simpl. rewrite !andb_false_r.
  intros Hdev Htime Hprio.
  rewrite (cell_common _ "Device-ID/User-ID") in Hdev by discriminate.
  rewrite (cell_common _ "Impact Force Level"),
    (cell_common _ "Post-Fall Inactivity Duration (Seconds)") in Hprio by discriminate.
  split; [exact Hdev|]. split.
  - rewrite Htime. unfold common_row. rewrite cell_set_ne, cell_set by discriminate.
    apply is_Ok_unwrap. by apply (proj1 (Forall_forall _ _) Hts).
  - rewrite Hprio, exceeds_fillna by lia. reflexivity.
Qed.
End Pipeline.

Section TrainEdges.
Context (lib : library).

(** X14.  Without events the fall and reminder models are not trained: for
    [None] and for a frame without rows [train] returns its fixed error
    dictionary and changes neither the frames nor the predictor. *)
Theorem train_without_data (σ : State lib) :
  FallRiskPredictor.train lib None σ
    = (Ok (Failure (Fixed "No valid safety data for training") None), σ) /\
  ReminderEffectivenessPredictor.train lib None σ
    = (Ok (Failure (Fixed "No valid reminder data for training") None), σ) /\
  (forall l df, frames lib σ !! l = Some df -> rows df = [] ->
     FallRiskPredictor.train lib (Some l) σ
       = (Ok (Failure (Fixed "No valid safety data for training") None), σ) /\
     ReminderEffectivenessPredictor.train lib (Some l) σ
       = (Ok (Failure (Fixed "No valid reminder data for training") None), σ)).
Proof.
  split; [reflexivity|]. split; [reflexivity|].
  intros l df Hl Hrows.
  unfold FallRiskPredictor.train, ReminderEffectivenessPredictor.train,
    FallRiskPredictor.preprocess_data, ReminderEffectivenessPredictor.preprocess_data.
  unfold mbind, M_bind. rewrite (read_ok lib σ l df Hl), Hrows. simpl.
  split; reflexivity.
Qed.

(** X15.  A frame without the column that the preprocessing reads makes
    [train] raise KeyError instead of returning an error dictionary: the
    lookup stands before the [try] block. *)
Theorem train_raises_key_error (σ : State lib) (l : nat) (df : DataFrame) :
  frames lib σ !! l = Some df ->
  (has_column df "Has Any Alert" = false ->
   (HealthRiskPredictor.train lib l σ).1 = Err (KeyError "Has Any Alert")) /\
  (rows df <> [] -> has_column df "Timestamp" = false ->
   (FallRiskPredictor.train lib (Some l) σ).1 = Err (KeyError "Timestamp")) /\
  (rows df <> [] -> has_column df "Scheduled Time" = false ->
   (ReminderEffectivenessPredictor.train lib (Some l) σ).1
     = Err (KeyError "Scheduled Time")).
Proof.
  intros Hl. split; [|split].
  - intros Hcol. unfold HealthRiskPredictor.train.
    erewrite bind_err; [reflexivity|]. unfold HealthRiskPredictor.preprocess_data.
    erewrite bind_ok; [|by apply read_ok]. cbn zeta.
    erewrite bind_ok; [|reflexivity].
    erewrite bind_err; [reflexivity|].
    apply update_err with df; [exact Hl|]. unfold assign. by rewrite Hcol.
  - intros Hrows Hcol. unfold FallRiskPredictor.train.
    erewrite bind_err; [reflexivity|]. unfold FallRiskPredictor.preprocess_data.
    erewrite bind_ok; [|by apply read_ok].
    rewrite bool_decide_eq_false_2 by (by destruct (rows df)).
    erewrite bind_err; [reflexivity|].
    apply update_err with df; [exact Hl|]. unfold assign. by rewrite Hcol.
  - intros Hrows Hcol. unfold ReminderEffectivenessPredictor.train.
    erewrite bind_err; [reflexivity|].
    unfold ReminderEffectivenessPredictor.preprocess_data.
    erewrite bind_ok; [|by apply read_ok].
    rewrite bool_decide_eq_false_2 by (by destruct (rows df)).
    erewrite bind_err; [reflexivity|].
    apply update_err with df; [exact Hl|]. unfold assign. by rewrite Hcol.
Qed.
End TrainEdges.

Section NoAlerts.
Variable float_repr : Q -> string.
Variable isoformat : value -> string.

(** X4.  A frame in which no event qualifies yields no alert and no error,
    whatever columns it has besides the flags the rule filters on. *)
Theorem rules_without_an_event (df : DataFrame) :
  (has_column df "Alert Triggered (Yes/No)" = true ->
   forallb (fun r => negb (alert_triggered r)) (rows df) = true ->
   generate_health_alerts float_repr isoformat df = Ok []) /\
  (has_column df "Fall Detected (Yes/No)" = true ->
   forallb (fun r => negb (fall_detected r)) (rows df) = true ->
   generate_safety_alerts float_repr isoformat df = Ok []) /\
  (has_column df "Reminder Sent (Yes/No)" = true ->
   has_column df "Acknowledged (Yes/No)" = true ->
   forallb (fun r => negb (unacknowledged r)) (rows df) = true ->
   generate_reminder_alerts float_repr isoformat df = Ok []).
Proof.
  assert (Hnil : forall (P : Row -> bool),
            forallb (fun r => negb (P r)) (rows df) = true ->
            filter (fun r => P r = true) (rows df) = []).
  { intros P H. apply forallb_Forall in H.
    induction H as [|r l Hr _ IH]; [reflexivity|].
    rewrite filter_cons_False by (by destruct (P r)). exact IH. }
  unfold generate_health_alerts, generate_safety_alerts, generate_reminder_alerts,
    select_eq.
  repeat split.
  - intros -> H. cbn [mbind result_bind rows].
    by rewrite (Hnil (where_eq "Alert Triggered (Yes/No)" (VStr "Yes")) H).
  - intros -> H. cbn [mbind result_bind rows].
    by rewrite (Hnil (where_eq "Fall Detected (Yes/No)" (VBool true)) H).
  - intros -> -> H. by rewrite (Hnil _ H).
Qed.
End NoAlerts.

(** ** A logic for the predictors' store *)

Section Rules.
Context {lib : library}.
Implicit Types (P E : State lib -> Prop) (σ : State lib).

Lemma hoare_conseq {A} P P' (m : M lib A) (Q Q' : result A -> State lib -> Prop) :
  hoare P' m Q' -> (forall σ, P σ -> P' σ) -> (forall r σ, Q' r σ -> Q r σ) ->
  hoare P m Q.
Proof. intros H HP HQ σ Hσ. apply HQ, H, HP, Hσ. Qed.

Lemma hoare_bind {A B} P (m : M lib A) (f : A -> M lib B)
    (Q : A -> State lib -> Prop) (R : B -> State lib -> Prop) E :
  hoare P m (post Q E) ->
  (forall a, hoare (Q a) (f a) (post R E)) ->
  hoare P (m ≫= f) (post R E).
Proof.
  intros Hm Hf σ Hσ. specialize (Hm σ Hσ). unfold mbind, M_bind.
  destruct (m σ) as [[a|e] σ1]; simpl in *; [by apply Hf | assumption].
Qed.

Lemma hoare_try {A} P (body : M lib A) (handler : exn -> M lib A)
    (Q : A -> State lib -> Prop) E (R : result A -> State lib -> Prop) :
  hoare P body (post Q E) ->
  (forall a σ, Q a σ -> R (Ok a) σ) ->
  (forall e, hoare E (handler e) R) ->
  hoare P (try_except lib body handler) R.
Proof.
  intros Hb HQ Hh σ Hσ. specialize (Hb σ Hσ). unfold try_except.
  destruct (body σ) as [[a|e] σ1]; simpl in *; [by apply HQ | by apply Hh].
Qed.

Lemma hoare_ret {A} P E (a : A) : hoare P (mret a) (post (fun a' σ => a' = a /\ P σ) E).
Proof. intros σ Hσ. by split. Qed.

Lemma hoare_lift {A} P (r : result A) : hoare P (lift lib r) (post (fun _ => P) P).
Proof. intros σ Hσ. unfold lift. by destruct r. Qed.

Lemma hoare_lift_ok {A} P (r : result A) :
  hoare P (lift lib r) (post (fun a σ => r = Ok a /\ P σ) P).
Proof. intros σ Hσ. unfold lift. by destruct r. Qed.

Lemma hoare_read P E l : hoare P (read lib l) (post (fun _ => P) E).
Proof. intros σ Hσ. exact Hσ. Qed.

Lemma hoare_get_self P E :
  hoare P (get_self lib) (post (fun me σ => me = self lib σ /\ P σ) E).
Proof. intros σ Hσ. by split. Qed.
End Rules.

Section FrameRules.
Context {lib : library}.
Implicit Types (fs : list DataFrame) (σ : State lib) (E : State lib -> Prop).

Lemma made_since_kept fs l σ : made_since fs l σ -> frames_kept fs σ.
Proof. by intros [H _]. Qed.

Lemma hoare_alloc fs E df :
  hoare (frames_kept fs) (alloc lib df) (post (made_since fs) E).
Proof.
  intros σ Hσ. unfold alloc, made_since, frames_kept in *. simpl.
  split; [by apply prefix_app_r|]. rewrite length_app. simpl.
  apply prefix_length in Hσ. lia.
Qed.

Lemma hoare_copy fs E l :
  hoare (frames_kept fs) (copy lib l) (post (made_since fs) E).
Proof. intros σ Hσ. exact (hoare_alloc fs E _ σ Hσ). Qed.

Lemma hoare_update fs l f :
  hoare (made_since fs l) (update lib l f)
    (post (fun _ => made_since fs l) (made_since fs l)).
Proof.
  intros σ [Hσ Hl]. unfold update, read, lift, write, mbind, M_bind. simpl.
  destruct (f _) as [df'|e]; simpl; [|by split].
  unfold made_since, frames_kept in *. simpl.
  split; [|by rewrite length_insert].
  destruct Hσ as [k Hk]. rewrite Hk.
  rewrite insert_app_r_alt by lia. by apply prefix_app_r.
Qed.

Lemma hoare_sentinel fs E score level l :
  hoare (made_since fs l) (sentinel lib score level l)
    (post (fun _ => made_since fs l) E).
Proof.
  intros σ [Hσ Hl]. unfold sentinel, update, read, lift, write, mbind, M_bind. simpl.
  unfold made_since, frames_kept in *. simpl.
  split; [|by rewrite !length_insert].
  destruct Hσ as [k Hk]. rewrite Hk.
  rewrite !insert_app_r_alt by lia.
  by apply prefix_app_r.
Qed.

Lemma hoare_failed_result fs E new_data score level :
  hoare (frames_kept fs) (failed_result lib new_data score level)
    (post (made_since fs) E).
Proof.
  unfold failed_result.
  eapply hoare_bind; [apply hoare_copy|]. intros result_df.
  eapply hoare_bind; [apply hoare_sentinel|]. intros []. cbn beta.
  eapply hoare_conseq; [apply (hoare_ret (made_since fs result_df) E)|auto|].
  intros [l|e] σ; simpl; [intros [Hl H]; by rewrite Hl | auto].
Qed.

Lemma hoare_untrained_result fs E new_data minimal score level :
  hoare (frames_kept fs) (untrained_result lib new_data minimal score level)
    (post (made_since fs) E).
Proof.
  unfold untrained_result.
  eapply hoare_bind; [apply hoare_read|]. intros df.
  eapply hoare_bind; [destruct (negb (empty df)); [apply hoare_copy|apply hoare_alloc]|].
  intros result_df.
  eapply hoare_bind; [apply hoare_sentinel|]. intros []. cbn beta.
  eapply hoare_conseq; [apply (hoare_ret (made_since fs result_df) E)|auto|].
  intros [l|e] σ; simpl; [intros [Hl H]; by rewrite Hl | auto].
Qed.
End FrameRules.

Section Predict.
Context {lib : library}.
Implicit Types (fs : list DataFrame) (σ : State lib).

Lemma hoare_update_made fs l f :
  hoare (made_since fs l) (update lib l f)
    (post (fun _ => made_since fs l) (frames_kept fs)).
Proof.
  eapply hoare_conseq; [apply (hoare_update fs l f)|auto|].
  intros [[]|e] σ; simpl; [auto|apply made_since_kept].
Qed.

Lemma hoare_lift_made {A} fs l (r : result A) :
  hoare (made_since fs l) (lift lib r)
    (post (fun _ => made_since fs l) (frames_kept fs)).
Proof.
  eapply hoare_conseq; [apply (hoare_lift (made_since fs l) r)|auto|].
  intros [a|e] σ; simpl; [auto|apply made_since_kept].
Qed.

Lemma hoare_ret_made fs l :
  hoare (made_since fs l) (mret l : M lib nat) (post (made_since fs) (frames_kept fs)).
Proof.
  eapply hoare_conseq; [apply (hoare_ret (made_since fs l) (frames_kept fs))|auto|].
  intros [l'|e] σ; simpl; [intros [Hl H]; by rewrite Hl | auto].
Qed.

(** One step of a body that works on the frame it made. *)
Ltac frame_step :=
  eapply hoare_bind;
  [ first [ apply hoare_copy | apply hoare_read | apply hoare_update_made
          | apply hoare_lift_made | apply hoare_sentinel ]
  | intros ?; cbn beta ].

Lemma hoare_at {A} (P : State lib -> Prop) (m : M lib A) Q σ :
  hoare P m Q -> P σ -> Q (m σ).1 (m σ).2.
Proof. intros H. apply H. Qed.

Lemma hoare_self {A} (P : State lib -> Prop) (f : Predictor lib -> M lib A) Q :
  (forall σ, P σ -> Q (f (self lib σ) σ).1 (f (self lib σ) σ).2) ->
  hoare P (get_self lib ≫= f) Q.
Proof. intros H σ Hσ. apply H, Hσ. Qed.

Lemma predict_risk_frames fs new_data :
  hoare (frames_kept fs) (HealthRiskPredictor.predict_risk lib new_data)
    (post (made_since fs) (fun _ => False)).
Proof.
  apply hoare_self. intros σ Hσ.
  destruct (trained lib (self lib σ)), (model lib (self lib σ)) as [est|];
    try (by apply hoare_untrained_result).
  apply (hoare_at (frames_kept fs)); [|assumption].
  eapply hoare_try; [|intros l σ' H; exact H|intros e; apply hoare_failed_result].
  repeat frame_step. apply hoare_ret_made.
Qed.

Lemma predict_fall_risk_frames fs new_data :
  hoare (frames_kept fs) (FallRiskPredictor.predict_fall_risk lib new_data)
    (post (made_since fs) (fun _ => False)).
Proof.
  apply hoare_self. intros σ Hσ.
  destruct (trained lib (self lib σ)), (model lib (self lib σ)) as [est|];
    try (by apply hoare_untrained_result).
  apply (hoare_at (frames_kept fs)); [|assumption].
  eapply hoare_try; [|intros l σ' H; exact H|intros e; apply hoare_failed_result].
  repeat frame_step. apply hoare_ret_made.
Qed.

Lemma predict_effectiveness_frames fs new_data :
  hoare (frames_kept fs)
    (ReminderEffectivenessPredictor.predict_effectiveness lib new_data)
    (post (made_since fs) (fun _ => False)).
Proof.
  apply hoare_self. intros σ Hσ.
  destruct (trained lib (self lib σ)), (model lib (self lib σ)) as [est|];
    try (by apply hoare_untrained_result).
  apply (hoare_at (frames_kept fs)); [|assumption].
  eapply hoare_try; [|intros l σ' H; exact H|intros e; apply hoare_failed_result].
  repeat frame_step. apply hoare_ret_made.
Qed.
End Predict.

(** X10.  Trained or not, and whatever scikit-learn does, each of the three
    predict operations returns a frame: it never raises, the frame is a new
    one, and every frame that existed before the call, the caller's among
    them, is as it was. *)
Theorem predict_returns_a_new_frame (lib : library) (σ : State lib) (new_data : nat) :
  new_frame σ (HealthRiskPredictor.predict_risk lib new_data σ) /\
  new_frame σ (FallRiskPredictor.predict_fall_risk lib new_data σ) /\
  new_frame σ (ReminderEffectivenessPredictor.predict_effectiveness lib new_data σ).
Proof.
  assert (H : forall m : M lib nat,
            hoare (frames_kept (frames lib σ)) m
              (post (made_since (frames lib σ)) (fun _ => False)) ->
            new_frame σ (m σ)).
  { intros m Hm. specialize (Hm σ (reflexivity _)). unfold new_frame.
    destruct (m σ) as [[l|e] σ']; simpl in *; [|contradiction].
    destruct Hm as [Hkept Hl]. exists l. split; [reflexivity|]. by split. }
  split; [|split]; apply H.
  - apply predict_risk_frames.
  - apply predict_fall_risk_frames.
  - apply predict_effectiveness_frames.
Qed.

Section TrainedFlag.
Context {lib : library}.
Implicit Types (b : bool) (σ : State lib).

Lemma hoare_update_trained b l f : hoare (trained_is b) (update lib l f) (unchanged b).
Proof.
  intros σ Hσ. unfold update, read, lift, write, mbind, M_bind. simpl.
  by destruct (f _).
Qed.

Lemma hoare_alloc_trained b df : hoare (trained_is b) (alloc lib df) (unchanged b).
Proof. intros σ Hσ. exact Hσ. Qed.

Lemma hoare_set_model_trained b m : hoare (trained_is b) (set_model lib m) (unchanged b).
Proof. intros σ Hσ. exact Hσ. Qed.

Lemma hoare_set_features_trained b fs :
  hoare (trained_is b) (set_features lib fs) (unchanged b).
Proof. intros σ Hσ. exact Hσ. Qed.

Lemma hoare_set_trained b b' :
  hoare (trained_is b) (set_trained lib b') (post (fun _ => trained_is b') (trained_is b)).
Proof. intros σ Hσ. reflexivity. Qed.

Lemma hoare_lift_trained {A} b (r : result A) :
  hoare (trained_is b) (lift lib r) (unchanged b).
Proof. apply hoare_lift. Qed.

Lemma hoare_ret_trained {A} b (a : A) :
  hoare (trained_is b) (mret a : M lib A) (unchanged b).
Proof. intros σ Hσ. exact Hσ. Qed.

Lemma hoare_get_self_trained b : hoare (trained_is b) (get_self lib) (unchanged b).
Proof. intros σ Hσ. exact Hσ. Qed.

Lemma fit_and_score_trained b split :
  hoare (trained_is b) (fit_and_score lib split) (unchanged b).
Proof.
  unfold fit_and_score.
  eapply hoare_bind; [apply hoare_get_self_trained|]. intros me. cbn beta.
  eapply hoare_bind; [apply hoare_lift_trained|]. intros a. cbn beta.
  eapply hoare_bind; [apply hoare_lift_trained|]. intros m. cbn beta.
  eapply hoare_bind; [apply hoare_set_model_trained|]. intros []. cbn beta.
  apply hoare_lift_trained.
Qed.

Ltac quiet_step :=
  first [ apply hoare_ret_trained
        | eapply hoare_bind;
          [ first [ apply hoare_read | apply hoare_update_trained
                  | apply hoare_alloc_trained | apply hoare_set_model_trained
                  | apply hoare_set_features_trained | apply hoare_lift_trained
                  | apply hoare_get_self_trained | apply fit_and_score_trained ]
          | intros ?; cbn beta zeta ] ].

Lemma health_preprocess_trained b merged_data :
  hoare (trained_is b) (HealthRiskPredictor.preprocess_data lib merged_data) (unchanged b).
Proof. unfold HealthRiskPredictor.preprocess_data. repeat quiet_step. Qed.

Lemma fall_preprocess_trained b safety_data :
  hoare (trained_is b) (FallRiskPredictor.preprocess_data lib safety_data) (unchanged b).
Proof.
  unfold FallRiskPredictor.preprocess_data.
  destruct safety_data as [safety_data|]; [|apply hoare_ret_trained].
  eapply hoare_bind; [apply hoare_read|]. intros df. cbn beta.
  case_bool_decide; repeat quiet_step.
Qed.

Lemma reminder_preprocess_trained b reminder_data :
  hoare (trained_is b) (ReminderEffectivenessPredictor.preprocess_data lib reminder_data)
    (unchanged b).
Proof.
  unfold ReminderEffectivenessPredictor.preprocess_data.
  destruct reminder_data as [reminder_data|]; [|apply hoare_ret_trained].
  eapply hoare_bind; [apply hoare_read|]. intros df. cbn beta.
  case_bool_decide; repeat quiet_step.
Qed.

Lemma hoare_ret_success b accuracy model_type n :
  hoare (trained_is true) (mret (Success accuracy model_type n) : M lib TrainingResult)
    (train_post b).
Proof. intros σ Hσ. exact Hσ. Qed.

Lemma hoare_ret_failure b error rest :
  hoare (trained_is b) (mret (Failure error rest) : M lib TrainingResult) (train_post b).
Proof. intros σ Hσ. exact Hσ. Qed.

(** The [try] block of a [train]: everything up to [self.trained = True]
    leaves the flag alone. *)
Ltac try_block :=
  eapply hoare_try;
  [ repeat (eapply hoare_bind;
            [ first [ apply hoare_lift_trained | apply hoare_set_model_trained
                    | apply fit_and_score_trained | apply hoare_set_trained ]
            | intros ?; cbn beta ]);
    apply hoare_ret_success
  | intros ? ? ?; assumption
  | intros e;
    first [ apply hoare_ret_failure
          | eapply hoare_bind; [apply hoare_get_self_trained|];
            intros ?; apply hoare_ret_failure ] ].

Lemma health_train_trained b merged_data :
  hoare (trained_is b) (HealthRiskPredictor.train lib merged_data) (train_post b).
Proof.
  unfold HealthRiskPredictor.train.
  eapply hoare_bind; [apply health_preprocess_trained|]. intros data. cbn beta.
  do 4 (eapply hoare_bind;
        [first [apply hoare_get_self_trained | apply hoare_read | apply hoare_lift_trained]|];
        intros ?; cbn beta).
  try_block.
Qed.

Lemma fall_train_trained b safety_data :
  hoare (trained_is b) (FallRiskPredictor.train lib safety_data) (train_post b).
Proof.
  unfold FallRiskPredictor.train.
  eapply hoare_bind; [apply fall_preprocess_trained|]. intros [data|]; cbn beta iota;
    [|apply hoare_ret_failure].
  do 4 (eapply hoare_bind;
        [first [apply hoare_get_self_trained | apply hoare_read | apply hoare_lift_trained]|];
        intros ?; cbn beta zeta).
  try_block.
Qed.

Lemma reminder_train_trained b reminder_data :
  hoare (trained_is b) (ReminderEffectivenessPredictor.train lib reminder_data)
    (train_post b).
Proof.
  unfold ReminderEffectivenessPredictor.train.
  eapply hoare_bind; [apply reminder_preprocess_trained|]. intros [data|]; cbn beta iota;
    [|apply hoare_ret_failure].
  do 2 (eapply hoare_bind;
        [first [apply hoare_read | apply hoare_lift_trained]|];
        intros ?; cbn beta zeta).
  case_bool_decide; [apply hoare_ret_failure|].
  do 3 (eapply hoare_bind;
        [first [apply hoare_get_self_trained | apply hoare_read | apply hoare_lift_trained]|];
        intros ?; cbn beta zeta).
  try_block.
Qed.
End TrainedFlag.

(** X13.  Each of the three [train] operations sets [self.trained] when it
    returns the accuracy; when it returns an error dictionary or raises, the
    flag is what it was before the call. *)
Theorem train_sets_the_flag_on_success (lib : library) (σ : State lib)
    (merged_data : nat) (data : option nat) :
  train_outcome σ (HealthRiskPredictor.train lib merged_data σ) /\
  train_outcome σ (FallRiskPredictor.train lib data σ) /\
  train_outcome σ (ReminderEffectivenessPredictor.train lib data σ).
Proof.
  unfold train_outcome. split; [|split].
  - by apply (health_train_trained _ merged_data σ).
  - by apply (fall_train_trained _ data σ).
  - by apply (reminder_train_trained _ data σ).
Qed.

Section PredictErrors.
Context {lib : library}.
Implicit Types (fs : list DataFrame) (σ : State lib).

Lemma hoare_false {A} (m : M lib A) Q : hoare (fun _ => False) m Q.
Proof. by intros σ []. Qed.

Lemma hoare_proba_fails fs l a m X :
  (forall X, is_Ok (predict_proba lib m X) = false) ->
  hoare (made_since fs l) (lift lib (probabilities lib (Fitted lib a m) X))
    (post (fun _ _ => False) (frames_kept fs)).
Proof.
  intros Hm σ Hσ. unfold lift, probabilities. simpl.
  specialize (Hm X). destruct (predict_proba lib m X); [discriminate|].
  simpl. by apply made_since_kept in Hσ.
Qed.

Lemma failed_result_spec σ new_data df score level :
  frames lib σ !! new_data = Some df ->
  failed_result lib new_data score level σ
  = (Ok (length (frames lib σ)),
     mkState lib
       (frames lib σ ++ [assign_const level (VStr "Low") (assign_const score (VInt 0) df)])
       (self lib σ)).
Proof.
  intros Hdf. unfold failed_result.
  rewrite (bind_ok _ _ _ _ _ _ (copy_ok lib σ new_data df Hdf)).
  erewrite bind_ok; [|apply sentinel_ok; simpl; apply lookup_new].
  simpl. by rewrite insert_new.
Qed.

(** What a trained [predict] returns when its [try] block raises. *)
Lemma swallowed σ new_data df score level (body : M lib nat) :
  frames lib σ !! new_data = Some df ->
  hoare (frames_kept (frames lib σ)) body
    (post (fun _ _ => False) (frames_kept (frames lib σ))) ->
  low_risk σ new_data score level
    (try_except lib body (fun _ => failed_result lib new_data score level) σ).
Proof.
  intros Hdf Hbody. specialize (Hbody σ (reflexivity _)). unfold try_except.
  destruct (body σ) as [[l|e] σ']; simpl in Hbody; [contradiction|].
  assert (Hdf' : frames lib σ' !! new_data = Some df).
  { destruct Hbody as [k ->]. by apply lookup_app_l_Some. }
  rewrite (failed_result_spec σ' new_data df score level Hdf').
  unfold low_risk. simpl. eexists _, _. split; [reflexivity|].
  split; [apply lookup_new|]. intros df0 Hdf0. rewrite Hdf in Hdf0.
  injection Hdf0 as <-. unfold assign_const. simpl.
  by rewrite <- list_fmap_compose.
Qed.
End PredictErrors.

(** One step of a body whose call of [predict_proba] raises. *)
Ltac failing_step H :=
  eapply hoare_bind;
  [ first [ apply hoare_copy | apply hoare_read | apply hoare_update_made
          | apply (hoare_proba_fails _ _ _ _ _ H) | apply hoare_lift_made ]
  | intros ?; cbn beta zeta; try apply hoare_false ].

Lemma bind_get_self {lib : library} {A} (f : Predictor lib -> M lib A) (σ : State lib) :
  (get_self lib ≫= f) σ = f (self lib σ) σ.
Proof. reflexivity. Qed.

(** X11.  A trained predictor whose classifier raises reports low risk: each
    of the three predict operations swallows the exception and returns the
    rows of the caller's frame with score 0 and level "Low", as a predictor
    that was never trained does. *)
Theorem prediction_errors_read_as_low_risk (lib : library) (σ : State lib)
    (new_data : nat) (df : DataFrame) (a : algorithm) (m : Model lib) :
  frames lib σ !! new_data = Some df ->
  trained lib (self lib σ) = true ->
  model lib (self lib σ) = Some (Fitted lib a m) ->
  (forall X, is_Ok (predict_proba lib m X) = false) ->
  low_risk σ new_data "Risk_Score" "Risk_Level"
    (HealthRiskPredictor.predict_risk lib new_data σ) /\
  low_risk σ new_data "Fall_Risk_Score" "Fall_Risk_Level"
    (FallRiskPredictor.predict_fall_risk lib new_data σ) /\
  low_risk σ new_data "Effectiveness_Score" "Effectiveness_Level"
    (ReminderEffectivenessPredictor.predict_effectiveness lib new_data σ).
Proof.
  intros Hdf Htrained Hmodel Hfails.
  unfold HealthRiskPredictor.predict_risk, FallRiskPredictor.predict_fall_risk,
    ReminderEffectivenessPredictor.predict_effectiveness.
  rewrite !bind_get_self, Htrained, Hmodel.
  split; [|split]; (apply (swallowed σ new_data df); [exact Hdf|]);
    repeat (failing_step Hfails).
Qed.

(** ** The scores of a trained predictor *)

Lemma has_column_foldl_const v (l : list string) df c :
  has_column (foldl (fun d f => assign_const f v d) df l) c = true <->
  has_column df c = true \/ c ∈ l.
Proof.
  revert df. induction l as [|f l IH]; intros df; simpl.
  - rewrite elem_of_nil. tauto.
  - rewrite IH, elem_of_cons. unfold assign_const, has_column, add_column. simpl.
    rewrite !bool_decide_eq_true. case_bool_decide as Hf.
    + split; [intros [H|H]; auto|intros [H|[->|H]]; auto].
    + rewrite elem_of_app, list_elem_of_singleton. tauto.
Qed.

Lemma project_ok cols df :
  Forall (fun c => has_column df c = true) cols ->
  exists X, project cols df = Ok X /\ length (rows X) = length (rows df).
Proof.
  intros H. unfold project.
  destruct (List.find _ cols) as [c|] eqn:Hfind.
  - apply find_some in Hfind as [Hin Hc]. apply list_elem_of_In in Hin.
    rewrite (proj1 (Forall_forall _ _) H c Hin) in Hc. discriminate.
  - eexists. split; [reflexivity|]. simpl. by rewrite length_fmap.
Qed.

Lemma project_eval cols df :
  Forall (fun c => has_column df c = true) cols ->
  project cols df
  = Ok (mkFrame cols
          ((fun r => mkRow (label r)
                       (filter (fun kv : string * value => kv.1 ∈ cols) (cells r)))
             <$> rows df)).
Proof.
  intros H. unfold project.
  destruct (List.find _ cols) as [c|] eqn:Hfind; [|reflexivity].
  apply find_some in Hfind as [Hin Hc]. apply list_elem_of_In in Hin.
  rewrite (proj1 (Forall_forall _ _) H c Hin) in Hc. discriminate.
Qed.

Lemma lookup_projected (cols : list string) (m : gmap string value) c :
  filter (fun kv : string * value => kv.1 ∈ cols) m !! c
  = if decide (c ∈ cols) then m !! c else None.
Proof.
  apply option_eq. intros v. rewrite map_lookup_filter_Some. cbn [fst].
  case_decide; naive_solver.
Qed.

Lemma rows_foldl_const v (l : list string) df :
  rows (foldl (fun d f => assign_const f v d) df l)
  = (fun r => foldl (fun r f => set f v r) r l) <$> rows df.
Proof.
  revert df. induction l as [|f l IH]; intros df; cbn [foldl].
  - by rewrite list_fmap_id.
  - rewrite IH. unfold assign_const. cbn [rows]. by rewrite <- list_fmap_compose.
Qed.

Lemma foldl_set_row v (l : list string) r :
  label (foldl (fun r f => set f v r) r l) = label r /\
  forall c, cells (foldl (fun r f => set f v r) r l) !! c
            = if decide (c ∈ l) then Some v else cells r !! c.
Proof.
  revert r. induction l as [|f l IH]; intros r; cbn [foldl].
  - split; [reflexivity|]. intros c. by rewrite decide_False by apply not_elem_of_nil.
  - destruct (IH (set f v r)) as [Hlabel Hcells]. split; [by rewrite Hlabel|].
    intros c. rewrite Hcells. unfold set. cbn [cells].
    destruct (decide (c ∈ l)) as [Hl|Hl].
    + rewrite decide_True; [reflexivity|]. apply elem_of_cons. by right.
    + destruct (decide (c = f)) as [->|Hne].
      * rewrite lookup_insert_eq, decide_True; [reflexivity|]. apply elem_of_cons. by left.
      * rewrite lookup_insert_ne by congruence. rewrite decide_False; [reflexivity|].
        rewrite elem_of_cons. tauto.
Qed.

(** The rows that [df[S] = values] makes: each row with its value put in,
    and nothing else touched. *)
Lemma zip_with_values (S : string) (vs : list value) (l : list Row) :
  length vs = length l ->
  Forall2 (fun v r' => cells r' !! S = Some v) vs
    (zip_with (fun v r => set S v r) vs l) /\
  Forall2 (fun r r' => label r' = label r /\
                       forall c, c <> S -> cells r' !! c = cells r !! c)
    l (zip_with (fun v r => set S v r) vs l).
Proof.
  revert l. induction vs as [|v vs IH]; intros [|r l] Hlen; try discriminate;
    cbn [zip_with].
  - split; constructor.
  - destruct (IH l) as [H1 H2]; [simpl in Hlen; lia|].
    split; constructor; try assumption; unfold set; cbn [cells label].
    + by rewrite lookup_insert_eq.
    + split; [reflexivity|]. intros c Hc. by rewrite lookup_insert_ne.
Qed.

Lemma Forall2_compose {A B C} (R1 : A -> B -> Prop) (R2 : B -> C -> Prop)
    (R3 : A -> C -> Prop) l k m :
  (forall x y z, R1 x y -> R2 y z -> R3 x z) ->
  Forall2 R1 l k -> Forall2 R2 k m -> Forall2 R3 l m.
Proof.
  intros H H1. revert m. induction H1 as [|x y l k Hxy _ IH]; intros m H2;
    inversion H2; subst; constructor; eauto.
Qed.

Section Scores.
Context (lib : library).

(** X12.  A trained health risk predictor whose classifier answers returns
    the caller's rows, in order and with their cells, a feature column the
    frame lacks filled with NaN, and two cells more: as [Risk_Score] the
    probability the classifier gives for the row, asked about the frame [X]
    of the feature columns of the caller's rows, and as [Risk_Level] "Low"
    for a score in (0, 0.3], "Medium" in (0.3, 0.7] and "High" in (0.7, 1]. *)
Theorem predict_risk_scores (σ : State lib) (new_data : nat) (df : DataFrame)
    (a : algorithm) (m : Model lib) :
  frames lib σ !! new_data = Some df ->
  trained lib (self lib σ) = true ->
  model lib (self lib σ) = Some (Fitted lib a m) ->
  (forall X, exists ps, predict_proba lib m X = Ok ps /\ length ps = length (rows X)) ->
  let fs := default [] (features lib (self lib σ)) in
  exists l scored X ps,
    (HealthRiskPredictor.predict_risk lib new_data σ).1 = Ok l /\
    frames lib (HealthRiskPredictor.predict_risk lib new_data σ).2 !! l = Some scored /\
    columns X = fs /\
    Forall2 (fun r x =>
               label x = label r /\
               forall c, cells x !! c
                         = if decide (c ∈ fs)
                           then if has_column df c then cells r !! c else Some VNaN
                           else None)
      (rows df) (rows X) /\
    predict_proba lib m X = Ok ps /\
    Forall2 (fun r r' =>
               label r' = label r /\
               forall c, c <> "Risk_Score" -> c <> "Risk_Level" ->
                         cells r' !! c
                         = if decide (c ∈ fs)
                           then if has_column df c then cells r !! c else Some VNaN
                           else cells r !! c)
      (rows df) (rows scored) /\
    Forall2 (fun p r' =>
               cell "Risk_Score" r' = VFloat p /\
               ((0 < p)%Q -> (p <= 3 # 10)%Q -> cell "Risk_Level" r' = VStr "Low") /\
               ((3 # 10 < p)%Q -> (p <= 7 # 10)%Q -> cell "Risk_Level" r' = VStr "Medium") /\
               ((7 # 10 < p)%Q -> (p <= 1)%Q -> cell "Risk_Level" r' = VStr "High"))
      ps (rows scored).
Proof.
  intros Hdf Htrained Hmodel Hproba fs.
  set (missing := filter (fun f => has_column df f = false) fs).
  set (df2 := foldl (fun d f => assign_const f VNaN d) df missing).
  set (fill := fun r => foldl (fun r f => set f VNaN r) r missing).
  assert (Hrows2 : rows df2 = fill <$> rows df) by apply rows_foldl_const.
  assert (Hfill : forall r c,
             cells (fill r) !! c
             = if decide (c ∈ fs)
               then if has_column df c then cells r !! c else Some VNaN
               else cells r !! c).
  { intros r c. unfold fill. rewrite (proj2 (foldl_set_row VNaN missing r)).
    unfold missing. destruct (decide (c ∈ fs)) as [Hc|Hc].
    - destruct (has_column df c) eqn:Hcol.
      + rewrite decide_False; [reflexivity|]. rewrite list_elem_of_filter. intros [H _].
        congruence.
      + rewrite decide_True; [reflexivity|]. by apply list_elem_of_filter.
    - rewrite decide_False; [reflexivity|]. rewrite list_elem_of_filter. tauto. }
  set (X := mkFrame fs
              ((fun r => mkRow (label r)
                           (filter (fun kv : string * value => kv.1 ∈ fs) (cells r)))
                 <$> rows df2)).
  assert (HX : project fs df2 = Ok X).
  { apply project_eval. apply Forall_forall. intros c Hc. unfold df2.
    apply has_column_foldl_const.
    destruct (has_column df c) eqn:Hcol; [by left|right].
    unfold missing. by apply list_elem_of_filter. }
  destruct (Hproba X) as (ps & Hps & Hlen).
  assert (Hlen2 : length (VFloat <$> ps) = length (rows df2)).
  { rewrite length_fmap, Hlen. unfold X. cbn [rows]. by rewrite length_fmap. }
  destruct (zip_with_values "Risk_Score" (VFloat <$> ps) (rows df2) Hlen2)
    as [Hscores Hkept].
  set (df3 := mkFrame (add_column "Risk_Score" (columns df2))
                (zip_with (fun v r => set "Risk_Score" v r) (List.map VFloat ps) (rows df2))).
  set (level := fun r => pd_cut HealthRiskPredictor.bins labels (cell "Risk_Score" r)).
  set (df4 := mkFrame (add_column "Risk_Level" (columns df3))
                ((fun r => set "Risk_Level" (level r) r) <$> rows df3)).
  assert (Hrun : HealthRiskPredictor.predict_risk lib new_data σ
                 = (Ok (length (frames lib σ)),
                    mkState lib (frames lib σ ++ [df4]) (self lib σ))).
  { unfold HealthRiskPredictor.predict_risk.
    rewrite bind_get_self, Htrained, Hmodel. unfold try_except.
    erewrite bind_ok; [|by apply copy_ok].
    erewrite bind_ok; [|apply read_ok; simpl; apply lookup_new].
    erewrite bind_ok; [|eapply update_ok; [simpl; apply lookup_new|reflexivity]].
    simpl frames. rewrite insert_new.
    erewrite bind_ok; [|apply read_ok; simpl; apply lookup_new].
    fold fs missing df2.
    erewrite bind_ok; [|unfold lift; by rewrite HX].
    erewrite bind_ok; [|unfold lift, probabilities; by rewrite Hps].
    erewrite bind_ok.
    2: { eapply update_ok; [simpl; apply lookup_new|].
         unfold assign_values. rewrite bool_decide_eq_true_2; [reflexivity|].
         rewrite length_map. by rewrite length_fmap in Hlen2. }
    simpl frames. rewrite insert_new. fold df3.
    erewrite bind_ok.
    2: { eapply update_ok; [simpl; apply lookup_new|].
         apply (assign_fmap _ _ _ level); [apply has_column_add|].
         eapply Forall2_Forall_r; [exact Hscores|].
         apply Forall_forall. intros v _ r' Hv.
         exists v. split; [assumption|]. unfold level, cell. by rewrite Hv. }
    simpl frames. rewrite insert_new. reflexivity. }
  rewrite Hrun. cbn [fst snd frames]. exists (length (frames lib σ)), df4, X, ps.
  split; [reflexivity|]. split; [apply lookup_new|]. split; [reflexivity|].
  split; [|split; [exact Hps|split]].
  - unfold X. cbn [rows]. rewrite Hrows2, <- list_fmap_compose, Forall2_fmap_r.
    apply Forall_Forall2_diag, Forall_forall. intros r _. cbn [compose label cells].
    split; [apply (foldl_set_row VNaN missing r)|].
    intros c. rewrite lookup_projected, Hfill. by destruct (decide (c ∈ fs)).
  - unfold df4, df3. cbn [rows]. rewrite Forall2_fmap_r.
    change (List.map VFloat ps) with (VFloat <$> ps).
    assert (H12 : Forall2 (fun r r2 => r2 = fill r) (rows df) (rows df2)).
    { rewrite Hrows2. apply Forall2_fmap_r, Forall_Forall2_diag, Forall_forall.
      by intros r _. }
    eapply Forall2_compose; [|exact H12|exact Hkept].
    intros r r2 r3 Hr2 [Hl3 Hc3]. cbn beta in Hr2. subst r2.
    unfold compose, set. cbn [label cells].
    split; [rewrite Hl3; apply (foldl_set_row VNaN missing r)|].
    intros c H1 H2. rewrite lookup_insert_ne by congruence.
    rewrite Hc3 by assumption. apply Hfill.
  - unfold df4, df3. cbn [rows]. rewrite Forall2_fmap_r.
    change (List.map VFloat ps) with (VFloat <$> ps).
    rewrite Forall2_fmap_l in Hscores.
    eapply Forall2_impl; [exact Hscores|]. intros p r' Hcell.
    unfold compose. cbn beta in Hcell |- *.
    assert (Hscore : cell "Risk_Score" r' = VFloat p) by (unfold cell; by rewrite Hcell).
    rewrite cell_set_ne by discriminate. split; [exact Hscore|].
    rewrite cell_set. unfold level, pd_cut. rewrite Hscore. simpl.
    destruct (cut_levels (7 # 10) p) as (HL & HM & HH & _); [discriminate..|].
    unfold HealthRiskPredictor.bins. by repeat split.
Qed.
End Scores.

(** ** Normalizing health events twice *)

Lemma assign_columns src dst f df df' :
  assign src dst f df = Ok df' -> columns df' = add_column dst (columns df).
Proof.
  unfold assign. destruct (has_column df src); [|discriminate].
  destruct (for_each _ _); simpl; [|discriminate]. by intros [= <-].
Qed.

Lemma has_column_add_iff c c' cols rs rs' :
  has_column (mkFrame (add_column c cols) rs) c'
  = bool_decide (c' = c) || has_column (mkFrame cols rs') c'.
Proof.
  unfold has_column, add_column. simpl.
  rewrite <- bool_decide_or. apply bool_decide_ext.
  case_bool_decide as Hc; [|rewrite elem_of_app, list_elem_of_singleton];
    intuition (subst; auto).
Qed.

Section HealthTwice.
Variable parse_datetime : value -> result (option Z).

Lemma process_health_data_columns df df' :
  health_raw_ok parse_datetime df = true ->
  process_health_data parse_datetime df = Ok df' ->
  columns df' = normalized_health_columns df.
Proof.
  intros Hok. rewrite (extraction_eval parse_datetime df Hok).
  intros H.
  apply bind_Ok_inv in H as (d1 & H1 & H). apply assign_columns in H1.
  apply bind_Ok_inv in H as (d2 & H2 & H). apply assign_columns in H2.
  cbn [columns] in H1.
  assert (Hsame : has_column d2 "Oxygen Saturation (SpO₂%)"
                  = has_column df "Oxygen Saturation (SpO₂%)").
  { destruct d2 as [c2 r2]. cbn [columns] in H2. subst c2.
    rewrite (has_column_add_iff _ _ _ _ []), H1, (has_column_add_iff _ _ _ _ []).
    unfold extracted_columns.
    rewrite !(has_column_add_iff _ _ _ _ []). simpl. by destruct df. }
  unfold normalized_health_columns. rewrite Hsame in H.
  destruct (has_column df "Oxygen Saturation (SpO₂%)").
  - apply assign_columns in H. by rewrite H, H2, H1.
  - injection H as <-. by rewrite H2, H1.
Qed.
End HealthTwice.

Lemma normalized_health_row_cells parse_datetime oxygen r :
  normalized_health_row parse_datetime oxygen r = health_row parse_datetime oxygen r.
Proof.
  unfold normalized_health_row, health_row, with_spo2, cast_row.
  destruct (cell_extracted_bp parse_datetime r) as [HS HD].
  rewrite (cell_set_ne "Systolic" "Diastolic"), HS, HD by discriminate.
  rewrite !(cell_set_ne _ "Oxygen Saturation (SpO₂%)") by discriminate.
  assert (Hox : cell "Oxygen Saturation (SpO₂%)" (extracted_row parse_datetime r)
                = cell "Oxygen Saturation (SpO₂%)" r).
  { unfold extracted_row. rewrite !cell_set_ne by discriminate.
    by apply cell_common. }
  rewrite Hox. unfold extracted_row, common_row.
  rewrite (cell_set "Timestamp").
  unfold set. cbn [label cells].
  destruct oxygen; f_equal; [f_equal|];
    apply map_eq; intros k; rewrite !lookup_insert; by repeat case_decide.
Qed.

Lemma to_datetime_fixed parse_datetime v w :
  to_datetime parse_datetime v = Ok w -> to_datetime parse_datetime w = Ok w.
Proof.
  unfold to_datetime.
  destruct v; try (intros [= <-]; reflexivity);
    destruct (parse_datetime _) as [[t|]|]; simpl; intros [= <-]; reflexivity.
Qed.

Lemma cell_health_row parse_datetime oxygen r c :
  c <> "Timestamp" -> c <> "Date" -> c <> "Systolic" -> c <> "Diastolic" -> c <> "SpO₂" ->
  cells (health_row parse_datetime oxygen r) !! c = cells r !! c.
Proof.
  intros H1 H2 H3 H4 H5. unfold health_row. cbn [cells].
  destruct oxygen; by rewrite !lookup_insert_ne by congruence.
Qed.

Lemma timestamp_health_row parse_datetime oxygen r :
  cell "Timestamp" (health_row parse_datetime oxygen r)
  = unwrap (to_datetime parse_datetime (cell "Timestamp" r)).
Proof.
  unfold health_row, cell at 1. cbn [cells].
  destruct oxygen; rewrite !lookup_insert_ne by discriminate;
    by rewrite lookup_insert_eq.
Qed.

Lemma health_row_twice parse_datetime oxygen r :
  is_Ok (to_datetime parse_datetime (cell "Timestamp" r)) = true ->
  health_row parse_datetime oxygen (health_row parse_datetime oxygen r)
  = health_row parse_datetime oxygen r.
Proof.
  intros Hts. apply is_Ok_unwrap in Hts. apply to_datetime_fixed in Hts.
  unfold health_row at 1.
  rewrite timestamp_health_row, Hts. cbn [unwrap].
  assert (Hbp : cell "Blood Pressure" (health_row parse_datetime oxygen r)
                = cell "Blood Pressure" r)
    by (unfold cell; by rewrite cell_health_row by discriminate).
  assert (Hox : cell "Oxygen Saturation (SpO₂%)" (health_row parse_datetime oxygen r)
                = cell "Oxygen Saturation (SpO₂%)" r)
    by (unfold cell; by rewrite cell_health_row by discriminate).
  rewrite Hbp, Hox. unfold health_row. cbn [label cells].
  destruct oxygen; f_equal;
    apply map_eq; intros k; rewrite !lookup_insert; by repeat case_decide.
Qed.

Lemma elem_of_add_column_inv c x cols : c ∈ add_column x cols -> c = x \/ c ∈ cols.
Proof.
  unfold add_column. case_bool_decide; [by right|].
  rewrite elem_of_app, list_elem_of_singleton. tauto.
Qed.

Lemma elem_of_add_column_keep c x cols : c ∈ cols -> c ∈ add_column x cols.
Proof.
  intros H. unfold add_column. case_bool_decide; [assumption|].
  apply elem_of_app. by left.
Qed.

Lemma elem_of_add_column_new x cols : x ∈ add_column x cols.
Proof.
  unfold add_column. case_bool_decide; [assumption|].
  apply elem_of_app. right. by apply list_elem_of_singleton.
Qed.

Lemma elem_of_normalized_columns df c :
  c ∈ normalized_health_columns df ->
  c ∈ ["Date"; "Systolic"; "Diastolic"; "SpO₂"] \/ c ∈ columns df.
Proof.
  unfold normalized_health_columns, extracted_columns.
  destruct (has_column df _); intros H;
    repeat (apply elem_of_add_column_inv in H as [->|H]); try (left; column_of_list);
    by right.
Qed.

Lemma normalized_columns_keep df c :
  c ∈ columns df -> c ∈ normalized_health_columns df.
Proof.
  intros H. unfold normalized_health_columns, extracted_columns.
  destruct (has_column df _); by repeat apply elem_of_add_column_keep.
Qed.

Lemma normalized_columns_new df :
  "Date" ∈ normalized_health_columns df /\
  "Systolic" ∈ normalized_health_columns df /\
  "Diastolic" ∈ normalized_health_columns df /\
  (has_column df "Oxygen Saturation (SpO₂%)" = true ->
   "SpO₂" ∈ normalized_health_columns df).
Proof.
  unfold normalized_health_columns, extracted_columns.
  destruct (has_column df _); repeat split; try discriminate; intros;
    repeat first [ apply elem_of_add_column_new | apply elem_of_add_column_keep ].
Qed.

Lemma normalized_columns_fixed df :
  "Date" ∈ columns df -> "Systolic" ∈ columns df -> "Diastolic" ∈ columns df ->
  (has_column df "Oxygen Saturation (SpO₂%)" = true -> "SpO₂" ∈ columns df) ->
  normalized_health_columns df = columns df.
Proof.
  intros HD HS HDi HSp. unfold normalized_health_columns, extracted_columns.
  rewrite (add_column_present "Date" (columns df)) by assumption.
  rewrite !(add_column_present "Systolic" (columns df)) by assumption.
  rewrite !(add_column_present "Diastolic" (columns df)) by assumption.
  rewrite !(add_column_present "Systolic" (columns df)) by assumption.
  rewrite !(add_column_present "Diastolic" (columns df)) by assumption.
  destruct (has_column df _); [|reflexivity].
  apply add_column_present. by apply HSp.
Qed.

Section HealthIdempotent.
Variable parse_datetime : value -> result (option Z).

Lemma normalized_health_ok df :
  health_raw_ok parse_datetime df = true ->
  blood_pressure_fits df = true ->
  let df' := mkFrame (normalized_health_columns df)
               (health_row parse_datetime (has_column df "Oxygen Saturation (SpO₂%)")
                  <$> rows df) in
  health_raw_ok parse_datetime df' = true /\
  blood_pressure_fits df' = true /\
  has_column df' "Oxygen Saturation (SpO₂%)" = has_column df "Oxygen Saturation (SpO₂%)" /\
  normalized_health_columns df' = normalized_health_columns df.
Proof.
  intros Hok Hfits df'.
  destruct (health_raw_ok_spec parse_datetime df Hok) as (Hhas & Hts & Hcols & Hkeys & Hox).
  set (oxygen := has_column df "Oxygen Saturation (SpO₂%)") in *.
  assert (Hsame : has_column df' "Oxygen Saturation (SpO₂%)" = oxygen).
  { subst oxygen. unfold has_column. apply bool_decide_ext. subst df'. cbn [columns].
    split; [|apply normalized_columns_keep].
    intros H. apply elem_of_normalized_columns in H as [H|H]; [|assumption].
    apply list_elem_of_In in H. simpl in H.
    destruct H as [H|[H|[H|[H|[]]]]]; discriminate. }
  assert (Hkeep : forall c r,
            c <> "Timestamp" -> c <> "Date" -> c <> "Systolic" -> c <> "Diastolic" ->
            c <> "SpO₂" ->
            cell c (health_row parse_datetime oxygen r) = cell c r).
  { intros c r H1 H2 H3 H4 H5. unfold cell. by rewrite cell_health_row. }
  split; [|split; [|split]].
  - unfold health_raw_ok. rewrite !andb_true_iff. repeat split.
    + unfold frame_has. apply andb_true_iff. split.
      * apply forallb_forall. intros c Hc. apply has_column_elem. subst df'.
        cbn [columns]. apply normalized_columns_keep. apply has_column_elem.
        apply (frame_has_column ["Timestamp"; "Blood Pressure"]);
          [assumption|by apply list_elem_of_In].
      * subst df'. cbn [rows]. apply forallb_forall. intros r' Hr'.
        apply list_elem_of_In, list_elem_of_fmap in Hr' as (r & -> & Hr).
        pose proof (frame_has_rows _ _ _ Hhas Hr) as Hcells.
        unfold has_cells in *. apply forallb_forall. intros c Hc.
        rewrite forallb_forall in Hcells. specialize (Hcells c Hc).
        apply bool_decide_eq_true_2. apply bool_decide_eq_true_1 in Hcells.
        simpl in Hc. destruct Hc as [<-|[<-|[]]].
        -- unfold health_row. cbn [cells].
           destruct oxygen; rewrite !lookup_insert_ne by discriminate;
             rewrite lookup_insert_eq; by eexists.
        -- by rewrite cell_health_row by discriminate.
    + subst df'. cbn [rows]. apply forallb_forall. intros r' Hr'.
      apply list_elem_of_In, list_elem_of_fmap in Hr' as (r & -> & Hr).
      rewrite timestamp_health_row.
      pose proof (proj1 (Forall_forall _ _) Hts r Hr) as H.
      apply is_Ok_unwrap in H. apply to_datetime_fixed in H. by rewrite H.
    + subst df'. cbn [columns]. apply forallb_forall. intros c Hc.
      apply list_elem_of_In, elem_of_normalized_columns in Hc as [Hc|Hc].
      * apply list_elem_of_In in Hc. simpl in Hc.
        destruct Hc as [<-|[<-|[<-|[<-|[]]]]]; vm_compute; reflexivity.
      * by apply (proj1 (Forall_forall _ _) Hcols).
    + subst df'. cbn [rows]. apply forallb_forall. intros r' Hr'.
      apply list_elem_of_In, list_elem_of_fmap in Hr' as (r & -> & Hr).
      apply forallb_forall. intros [k v] Hkv.
      apply list_elem_of_In, elem_of_map_to_list in Hkv. cbn [fst].
      destruct (decide (k ∈ ["Timestamp"; "Date"; "Systolic"; "Diastolic"; "SpO₂"]))
        as [Hk|Hk].
      * apply list_elem_of_In in Hk. simpl in Hk.
        destruct Hk as [<-|[<-|[<-|[<-|[<-|[]]]]]]; vm_compute; reflexivity.
      * rewrite !not_elem_of_cons in Hk. destruct Hk as (H1 & H2 & H3 & H4 & H5 & _).
        rewrite cell_health_row in Hkv by congruence.
        by apply (proj1 (Forall_forall _ _) Hkeys r Hr k v).
    + rewrite Hsame. destruct oxygen eqn:Hoxy; [|reflexivity]. simpl.
      subst df'. cbn [rows]. apply forallb_forall. intros r' Hr'.
      apply list_elem_of_In, list_elem_of_fmap in Hr' as (r & -> & Hr).
      destruct (proj1 (Forall_forall _ _) (Hox eq_refl) r Hr) as [Hsome Hcast].
      rewrite Hkeep by discriminate. rewrite Hcast, andb_true_r.
      apply bool_decide_eq_true_2. rewrite cell_health_row by discriminate.
      destruct Hsome as [v Hv]. by exists v.
  - unfold blood_pressure_fits in *. subst df'. cbn [rows].
    apply forallb_forall. intros r' Hr'.
    apply list_elem_of_In, list_elem_of_fmap in Hr' as (r & -> & Hr).
    rewrite Hkeep by discriminate.
    rewrite forallb_forall in Hfits. apply Hfits. by apply list_elem_of_In.
  - exact Hsame.
  - destruct (normalized_columns_new df) as (HD & HS & HDi & HSp).
    apply (normalized_columns_fixed df');
      [exact HD|exact HS|exact HDi|rewrite Hsame; exact HSp].
Qed.
End HealthIdempotent.

Lemma blood_pressure_fits_spec df :
  blood_pressure_fits df = true ->
  forall r, r ∈ rows df ->
    exists x y, blood_pressure (cell "Blood Pressure" r) = Some (x, y) /\
                x <= int64_max /\ y <= int64_max.
Proof.
  intros Hfits r Hr. apply forallb_Forall in Hfits.
  pose proof (proj1 (Forall_forall _ _) Hfits r Hr) as H. cbn beta in H.
  destruct (blood_pressure _) as [[x y]|]; [|discriminate].
  apply andb_true_iff in H as [Hx Hy].
  exists x, y. split; [reflexivity|].
  split; [exact (bool_decide_eq_true_1 _ Hx)|exact (bool_decide_eq_true_1 _ Hy)].
Qed.

Section HealthTwiceTheorem.
Variable parse_datetime : value -> result (option Z).

Lemma process_health_data_result df :
  health_raw_ok parse_datetime df = true ->
  blood_pressure_fits df = true ->
  process_health_data parse_datetime df
  = Ok (mkFrame (normalized_health_columns df)
          (health_row parse_datetime (has_column df "Oxygen Saturation (SpO₂%)")
             <$> rows df)).
Proof.
  intros Hok Hfits.
  destruct (casts_eval parse_datetime df Hok (blood_pressure_fits_spec df Hfits))
    as [cols Hrun].
  pose proof (process_health_data_columns parse_datetime df _ Hok Hrun) as Hcols.
  cbn [columns] in Hcols. subst cols. rewrite Hrun. do 2 f_equal.
  apply list_fmap_ext. intros i r _. apply normalized_health_row_cells.
Qed.

(** X16.  [process_health_data] is idempotent: on a raw health frame that
    it normalizes, normalizing the result again succeeds and returns the
    same frame, columns and fields. *)
Theorem process_health_data_idempotent (df : DataFrame) :
  health_raw_ok parse_datetime df = true ->
  blood_pressure_fits df = true ->
  exists df',
    process_health_data parse_datetime df = Ok df' /\
    process_health_data parse_datetime df' = Ok df'.
Proof.
  intros Hok Hfits. rewrite (process_health_data_result df Hok Hfits).
  eexists. split; [reflexivity|].
  destruct (normalized_health_ok parse_datetime df Hok Hfits)
    as (Hok' & Hfits' & Hsame & Hcols).
  rewrite (process_health_data_result _ Hok' Hfits'), Hsame, Hcols. cbn [rows].
  do 2 f_equal. rewrite <- list_fmap_compose.
  apply list_fmap_ext. intros i r Hr. cbn.
  apply health_row_twice.
  destruct (health_raw_ok_spec parse_datetime df Hok) as (_ & Hts & _).
  apply (proj1 (Forall_forall _ _) Hts). by eapply list_elem_of_lookup_2.
Qed.
End HealthTwiceTheorem.

(** ** Frames a trained predictor cannot read *)

Section MissingColumn.
Context {lib : library}.
Implicit Types (σ : State lib).

(** A [try] block that starts by copying the caller's frame and reading a
    column the frame does not have. *)
Lemma missing_column_swallowed σ new_data df src dst f score level
    (rest : nat -> M lib nat) :
  frames lib σ !! new_data = Some df ->
  has_column df src = false ->
  low_risk σ new_data score level
    (try_except lib
       (processed_data ← copy lib new_data;
        update lib processed_data (assign src dst f);;
        rest processed_data)
       (fun _ => failed_result lib new_data score level) σ).
Proof.
  intros Hdf Hsrc. apply (swallowed σ new_data df); [exact Hdf|].
  intros σ0 [k Hk].
  assert (Hdf0 : frames lib σ0 !! new_data = Some df).
  { rewrite Hk. by apply lookup_app_l_Some. }
  rewrite (bind_ok _ _ _ _ _ _ (copy_ok lib σ0 new_data df Hdf0)).
  erewrite bind_err.
  2:{ apply (update_err lib _ _ _ df (KeyError src)); [apply lookup_new|].
      unfold assign. by rewrite Hsrc. }
  simpl. exists (k ++ [df]). by rewrite Hk, (assoc_L (++)).
Qed.
End MissingColumn.

(** X17.  A trained predictor reports low risk for every event of a frame
    that lacks the column its [try] block reads first, whatever the
    classifier would have answered: [predict_fall_risk] without [Timestamp]
    and [predict_effectiveness] without [Scheduled Time] return the rows of
    the caller's frame with score 0 and level "Low". *)
Theorem missing_column_reads_as_low_risk (lib : library) (σ : State lib)
    (new_data : nat) (df : DataFrame) (est : estimator lib) :
  frames lib σ !! new_data = Some df ->
  trained lib (self lib σ) = true ->
  model lib (self lib σ) = Some est ->
  (has_column df "Timestamp" = false ->
   low_risk σ new_data "Fall_Risk_Score" "Fall_Risk_Level"
     (FallRiskPredictor.predict_fall_risk lib new_data σ)) /\
  (has_column df "Scheduled Time" = false ->
   low_risk σ new_data "Effectiveness_Score" "Effectiveness_Level"
     (ReminderEffectivenessPredictor.predict_effectiveness lib new_data σ)).
Proof.
  intros Hdf Htrained Hmodel.
  unfold FallRiskPredictor.predict_fall_risk,
    ReminderEffectivenessPredictor.predict_effectiveness.
  rewrite !bind_get_self, Htrained, Hmodel.
  split; intros Hmissing.
  - exact (missing_column_swallowed σ new_data df _ _ _ _ _ _ Hdf Hmissing).
  - exact (missing_column_swallowed σ new_data df _ _ _ _ _ _ Hdf Hmissing).
Qed.

(** ** Health alerts of normalized events *)

Lemma for_each_fmap_each {A A' B B'} (f : A -> result B) (f' : A' -> result B')
    (g : A -> A') (h : B -> B') (l : list A) :
  Forall (fun x => f' (g x) = fmap (M:=result) h (f x)) l ->
  for_each f' (fmap (M:=list) g l)
  = fmap (M:=result) (fmap (M:=list) h) (for_each f l).
Proof.
  induction 1 as [|x l Hx _ IH]; [reflexivity|].
  rewrite fmap_cons. cbn [for_each]. rewrite Hx, IH.
  destruct (f x); [|reflexivity]. by destruct (for_each f l).
Qed.

Section HealthAlertsPipeline.
Variable float_repr : Q -> string.
Variable isoformat : value -> string.
Variable parse_datetime : value -> result (option Z).

Lemma get_health_row oxygen r c :
  c <> "Timestamp" -> c <> "Date" -> c <> "Systolic" -> c <> "Diastolic" -> c <> "SpO₂" ->
  get (health_row parse_datetime oxygen r) c = get r c.
Proof. intros. unfold get. by rewrite cell_health_row. Qed.

Lemma get_timestamp_health_row oxygen r :
  get (health_row parse_datetime oxygen r) "Timestamp"
  = Ok (unwrap (to_datetime parse_datetime (cell "Timestamp" r))).
Proof.
  unfold get, health_row. cbn [cells].
  destruct oxygen; rewrite !lookup_insert_ne by discriminate;
    by rewrite lookup_insert_eq.
Qed.

Lemma where_eq_health_row oxygen r c k :
  c <> "Timestamp" -> c <> "Date" -> c <> "Systolic" -> c <> "Diastolic" -> c <> "SpO₂" ->
  where_eq c k (health_row parse_datetime oxygen r) = where_eq c k r.
Proof. intros. unfold where_eq. by rewrite cell_health_row. Qed.

(** The alert of a normalized event is the alert of the raw event with the
    timestamp converted. *)
Lemma health_alert_health_row oxygen r :
  is_Some (cells r !! "Timestamp") ->
  health_alert float_repr isoformat (health_row parse_datetime oxygen r)
  = (fun a => {| Device_ID := Device_ID a;
                 Alert_Type := Alert_Type a;
                 Timestamp := unwrap (to_datetime parse_datetime (Timestamp a));
                 Status := Status a;
                 Message := Message a;
                 Priority := Priority a |})
      <$> health_alert float_repr isoformat r.
Proof.
  intros [v Hv]. unfold health_alert, reason.
  rewrite get_timestamp_health_row, !get_health_row by discriminate.
  assert (Hget : get r "Timestamp" = Ok v) by (unfold get; by rewrite Hv).
  assert (Hcell : cell "Timestamp" r = v) by (unfold cell; by rewrite Hv).
  rewrite Hget, Hcell.
  destruct (get r "Device-ID/User-ID"); [|reflexivity].
  cbn [mbind result_bind].
  repeat match goal with
         | |- context [get r ?c] => destruct (get r c); cbn [mbind result_bind];
                                    [|try reflexivity]
         | |- context [py_eq ?x (VStr "Yes")] =>
             destruct (py_eq x (VStr "Yes")); cbn [mbind result_bind]
         end; reflexivity.
Qed.

Lemma health_alert_timestamp r a :
  health_alert float_repr isoformat r = Ok a -> get r "Timestamp" = Ok (Timestamp a).
Proof.
  unfold health_alert, reason. intros H.
  repeat match type of H with
         | context [get r ?c] =>
             destruct (get r c); cbn [mbind result_bind] in H; [|discriminate]
         | context [py_eq ?x (VStr "Yes")] =>
             destruct (py_eq x (VStr "Yes")); cbn [mbind result_bind] in H
         end; by injection H as <-.
Qed.

Lemma normalized_has_column df c :
  c <> "Date" -> c <> "Systolic" -> c <> "Diastolic" -> c <> "SpO₂" ->
  forall rs, has_column (mkFrame (normalized_health_columns df) rs) c = has_column df c.
Proof.
  intros H1 H2 H3 H4 rs. unfold has_column. cbn [columns]. apply bool_decide_ext. split.
  - intros H. apply elem_of_normalized_columns in H as [H|H]; [|exact H].
    repeat (apply elem_of_cons in H as [->|H]; [congruence|]). by apply elem_of_nil in H.
  - apply normalized_columns_keep.
Qed.

(** X18.  Normalizing changes nothing about the health alerts but the
    timestamp, as [load_data] chains the two: the alerts of the frame that
    [process_health_data] returns are those of the raw frame, one to one and
    in order, with the same device, type, status, message and priority and
    with the converted timestamp; and where the rule raises on the raw
    frame it raises the same on the normalized one. *)
Theorem normalized_health_alerts (df : DataFrame) :
  health_raw_ok parse_datetime df = true ->
  blood_pressure_fits df = true ->
  exists df',
    process_health_data parse_datetime df = Ok df' /\
    (forall e, generate_health_alerts float_repr isoformat df = Err e ->
               generate_health_alerts float_repr isoformat df' = Err e) /\
    (forall alerts, generate_health_alerts float_repr isoformat df = Ok alerts ->
       exists alerts',
         generate_health_alerts float_repr isoformat df' = Ok alerts' /\
         Forall2 (fun a a' =>
                    Device_ID a' = Device_ID a /\
                    Alert_Type a' = Alert_Type a /\
                    Status a' = Status a /\
                    Message a' = Message a /\
                    Priority a' = Priority a /\
                    to_datetime parse_datetime (Timestamp a) = Ok (Timestamp a'))
           alerts alerts').
Proof.
  intros Hok Hfits.
  rewrite (process_health_data_result parse_datetime df Hok Hfits).
  destruct (health_raw_ok_spec parse_datetime df Hok) as (Hhas & Hts & _).
  set (oxygen := has_column df "Oxygen Saturation (SpO₂%)").
  set (at_instant := fun a => {| Device_ID := Device_ID a;
                                 Alert_Type := Alert_Type a;
                                 Timestamp := unwrap (to_datetime parse_datetime (Timestamp a));
                                 Status := Status a;
                                 Message := Message a;
                                 Priority := Priority a |}).
  set (flagged := filter (fun r => where_eq "Alert Triggered (Yes/No)" (VStr "Yes") r = true)
                    (rows df)).
  assert (Heq : generate_health_alerts float_repr isoformat
                  (mkFrame (normalized_health_columns df)
                     (health_row parse_datetime oxygen <$> rows df))
                = fmap (M:=result) (fmap (M:=list) at_instant)
                    (generate_health_alerts float_repr isoformat df)).
  { unfold generate_health_alerts, select_eq.
    rewrite normalized_has_column by discriminate.
    destruct (has_column df "Alert Triggered (Yes/No)"); [|reflexivity].
    cbn [mbind result_bind rows].
    rewrite (filter_fmap_bool (health_row parse_datetime oxygen)
               (where_eq "Alert Triggered (Yes/No)" (VStr "Yes"))).
    rewrite (list_filter_iff _
               (fun r => where_eq "Alert Triggered (Yes/No)" (VStr "Yes") r = true))
      by (intros r; by rewrite where_eq_health_row by discriminate).
    apply for_each_fmap_each. apply Forall_forall. intros r Hr.
    apply health_alert_health_row.
    apply list_elem_of_filter in Hr as [_ Hr].
    destruct (has_cells_lookup _ r "Timestamp" (frame_has_rows _ _ _ Hhas Hr)) as [v Hv];
      [column_of_list|]. by exists v. }
  eexists. split; [reflexivity|]. split.
  - intros e He. by rewrite Heq, He.
  - intros alerts Hgen. rewrite Heq, Hgen. eexists. split; [reflexivity|].
    rewrite Forall2_fmap_r. apply Forall_Forall2_diag, Forall_forall. intros a Ha.
    cbn [Device_ID Alert_Type Status Message Priority Timestamp at_instant].
    repeat (split; [reflexivity|]). apply is_Ok_unwrap.
    unfold generate_health_alerts, select_eq in Hgen.
    destruct (has_column df "Alert Triggered (Yes/No)"); [|discriminate].
    cbn [mbind result_bind rows] in Hgen. apply for_each_inv in Hgen.
    apply list_elem_of_lookup in Ha as [i Hi].
    destruct (Forall2_lookup_r _ _ _ _ _ Hgen Hi) as (r & Hr & Ha).
    apply list_elem_of_lookup_2, list_elem_of_filter in Hr as [_ Hr].
    apply health_alert_timestamp, get_cell in Ha. rewrite <- Ha.
    by apply (proj1 (Forall_forall _ _) Hts).
Qed.
End HealthAlertsPipeline.

(** ** Reminder alerts of normalized events *)

Lemma map_yes_no_false v : py_eq (map_yes_no v) (VBool false) = bool_decide (v = VStr "No").
Proof.
  destruct (decide (v = VStr "No")) as [->|Hne]; [reflexivity|].
  rewrite bool_decide_eq_false_2 by assumption.
  unfold map_yes_no.
  repeat (match goal with
          | |- context [match ?x with _ => _ end] => destruct x; try reflexivity
          end); congruence.
Qed.

Section ReminderPipeline.
Variable float_repr : Q -> string.
Variable isoformat : value -> string.
Variable parse_datetime parse_time : value -> result (option Z).

Lemma normalized_reminder_frame_has df :
  frame_has reminder_columns df = true ->
  frame_has reminder_columns
    (mkFrame (add_column "Date" (columns df))
       (normalized_reminder_row parse_datetime parse_time df <$> rows df)) = true.
Proof.
  intros Hhas. unfold frame_has in *. apply andb_true_iff in Hhas as [Hcols Hrows].
  apply andb_true_iff. cbn [rows]. split.
  - apply forallb_forall. intros c Hc.
    rewrite forallb_forall in Hcols. specialize (Hcols c Hc).
    apply has_column_elem. apply has_column_elem in Hcols.
    unfold add_column. cbn [columns]. case_bool_decide; [assumption|].
    apply elem_of_app. by left.
  - apply forallb_forall. intros r' Hr'. apply list_elem_of_In in Hr'.
    apply list_elem_of_fmap in Hr' as (r & -> & Hr).
    rewrite forallb_forall in Hrows.
    specialize (Hrows r (proj1 (list_elem_of_In _ _) Hr)).
    unfold has_cells in *. apply forallb_forall. intros c Hc.
    rewrite forallb_forall in Hrows. specialize (Hrows c Hc).
    apply bool_decide_eq_true_2. apply bool_decide_eq_true_1 in Hrows.
    unfold normalized_reminder_row.
    by apply is_Some_mapped, is_Some_mapped, is_Some_set, is_Some_common.
Qed.

(** X19.  From raw reminders to reminder alerts, as [load_data] chains the
    two: normalizing a raw reminder frame and generating the alerts of the
    result succeeds, and the alerts stand one to one, in order, to the raw
    reminders that were sent ('Yes'), not acknowledged ('No') and are of type
    Medication or Appointment; an alert is Active, carries the reminder's
    device and converted timestamp, and has priority Medium for a
    medication and Low for an appointment. *)
Theorem normalized_reminders_alert (df : DataFrame) :
  raw_ok parse_datetime df = true ->
  scheduled_times_ok parse_time df = true ->
  frame_has reminder_columns df = true ->
  exists df' alerts,
    process_reminder_data parse_datetime parse_time df = Ok df' /\
    generate_reminder_alerts float_repr isoformat df' = Ok alerts /\
    Forall2 (fun r a =>
               Device_ID a = cell "Device-ID/User-ID" r /\
               to_datetime parse_datetime (cell "Timestamp" r) = Ok (Timestamp a) /\
               Status a = "Active" /\
               (cell "Reminder Type" r = VStr "Medication" -> Priority a = "Medium") /\
               (cell "Reminder Type" r = VStr "Appointment" -> Priority a = "Low"))
      (filter (fun r => cell "Reminder Sent (Yes/No)" r = VStr "Yes" /\
                        cell "Acknowledged (Yes/No)" r = VStr "No" /\
                        (cell "Reminder Type" r = VStr "Medication" \/
                         cell "Reminder Type" r = VStr "Appointment"))
         (rows df))
      alerts.
Proof.
  intros Hok Hsched Hhas.
  destruct (raw_ok_spec _ _ Hok) as (_ & _ & Hts & _).
  assert (Hsent : has_column df "Reminder Sent (Yes/No)" = true)
    by (apply (frame_has_column reminder_columns); [assumption|column_of_list]).
  assert (Hack : has_column df "Acknowledged (Yes/No)" = true)
    by (apply (frame_has_column reminder_columns); [assumption|column_of_list]).
  destruct (reminder_alerts_total float_repr isoformat _
              (normalized_reminder_frame_has df Hhas)) as (alerts & Hgen & Hall).
  eexists _, alerts. split; [by apply process_reminder_data_eval|].
  split; [exact Hgen|]. cbn [rows] in Hall.
  rewrite (filter_fmap_bool (normalized_reminder_row parse_datetime parse_time df) alerting)
    in Hall.
  assert (Hcells : forall r,
             cell "Reminder Sent (Yes/No)" (normalized_reminder_row parse_datetime parse_time df r)
             = map_yes_no (cell "Reminder Sent (Yes/No)" r) /\
             cell "Acknowledged (Yes/No)" (normalized_reminder_row parse_datetime parse_time df r)
             = map_yes_no (cell "Acknowledged (Yes/No)" r) /\
             cell "Reminder Type" (normalized_reminder_row parse_datetime parse_time df r)
             = cell "Reminder Type" r /\
             cell "Device-ID/User-ID" (normalized_reminder_row parse_datetime parse_time df r)
             = cell "Device-ID/User-ID" r /\
             cell "Timestamp" (normalized_reminder_row parse_datetime parse_time df r)
             = unwrap (to_datetime parse_datetime (cell "Timestamp" r))).
  { intros r. unfold normalized_reminder_row. rewrite !cell_mapped, Hsent, Hack.
    cbn [andb]. repeat (case_bool_decide; try congruence).
    rewrite !cell_set_ne by discriminate.
    rewrite !cell_common by discriminate.
    repeat (split; [reflexivity|]).
    unfold common_row. by rewrite cell_set_ne, cell_set by discriminate. }
  assert (Hfilter : filter (fun r => alerting (normalized_reminder_row parse_datetime
                                                 parse_time df r) = true) (rows df)
                    = filter (fun r => cell "Reminder Sent (Yes/No)" r = VStr "Yes" /\
                                       cell "Acknowledged (Yes/No)" r = VStr "No" /\
                                       (cell "Reminder Type" r = VStr "Medication" \/
                                        cell "Reminder Type" r = VStr "Appointment"))
                        (rows df)).
  { apply list_filter_iff. intros r. unfold alerting.
    destruct (Hcells r) as (-> & -> & -> & _).
    rewrite map_yes_no_true, map_yes_no_false.
    rewrite !andb_true_iff, orb_true_iff, !bool_decide_eq_true. tauto. }
  rewrite Hfilter, Forall2_fmap_l in Hall.
  eapply Forall2_impl_elem; [exact Hall|]. cbn beta.
  intros r a Hr (_ & Hdev & Htime & Hstatus & Hmed & Happ).
  apply list_elem_of_filter in Hr as [_ Hr].
  destruct (Hcells r) as (_ & _ & Htype & Hdevice & Hstamp).
  rewrite Htype in Hmed, Happ. rewrite Hdevice in Hdev. rewrite Hstamp in Htime.
  split; [exact Hdev|]. split; [|by repeat split].
  rewrite Htime. apply is_Ok_unwrap. by apply (proj1 (Forall_forall _ _) Hts).
Qed.
End ReminderPipeline.

(** ** Training again *)

Lemma column_assigned c (g : Row -> value) cols (rs : list Row) :
  column c (mkFrame (add_column c cols) ((fun r => set c (g r) r) <$> rs))
  = Ok (g <$> rs).
Proof.
  unfold column. rewrite has_column_add. cbn [rows].
  induction rs as [|r rs IH]; [reflexivity|].
  rewrite !fmap_cons. cbn [for_each]. rewrite IH.
  unfold get, set. cbn [cells]. by rewrite lookup_insert_eq.
Qed.

Section Retraining.
Context (lib : library).
Implicit Types (σ : State lib).

Lemma hoare_unfitted fs l a X :
  hoare (made_since fs l) (lift lib (probabilities lib (Unfitted lib a) X))
    (post (fun _ _ => False) (frames_kept fs)).
Proof. intros σ Hσ. simpl. by apply made_since_kept in Hσ. Qed.

(** A predictor that counts as trained and holds a classifier that was not
    fitted. *)
Lemma unfitted_predict_risk σ new_data df a :
  frames lib σ !! new_data = Some df ->
  trained lib (self lib σ) = true ->
  model lib (self lib σ) = Some (Unfitted lib a) ->
  low_risk σ new_data "Risk_Score" "Risk_Level"
    (HealthRiskPredictor.predict_risk lib new_data σ).
Proof.
  intros Hdf Htrained Hmodel. unfold HealthRiskPredictor.predict_risk.
  rewrite bind_get_self, Htrained, Hmodel.
  apply (swallowed σ new_data df); [exact Hdf|].
  repeat (eapply hoare_bind;
          [ first [ apply hoare_copy | apply hoare_read | apply hoare_update_made
                  | apply hoare_unfitted | apply hoare_lift_made ]
          | intros ?; cbn beta zeta; try apply hoare_false ]).
Qed.

Lemma health_preprocess_run σ merged_data df :
  frames lib σ !! merged_data = Some df ->
  has_column df "Has Any Alert" = true ->
  Forall (fun r => is_Some (cells r !! "Has Any Alert")) (rows df) ->
  exists a,
    HealthRiskPredictor.preprocess_data lib merged_data σ
    = (Ok merged_data,
       mkState lib
         (<[merged_data :=
              mkFrame (add_column "Risk" (columns df))
                ((fun r => set "Risk" (cell "Has Any Alert" r) r) <$> rows df)]>
            (frames lib σ))
         (mkPredictor lib (Some (Unfitted lib a))
            (Some (filter (fun f => has_column df f = true)
                     HealthRiskPredictor.all_features))
            (trained lib (self lib σ)))).
Proof.
  intros Hdf Hcol Hcells. unfold HealthRiskPredictor.preprocess_data.
  erewrite bind_ok; [|by apply read_ok].
  erewrite bind_ok; [|reflexivity].
  erewrite bind_ok.
  2:{ eapply update_ok; [exact Hdf|].
      apply (assign_fmap _ _ _ (fun r => cell "Has Any Alert" r)); [exact Hcol|].
      eapply Forall_impl; [exact Hcells|]. intros r [v Hv]. exists v.
      split; [exact Hv|]. unfold cell. by rewrite Hv. }
  erewrite bind_ok.
  2:{ apply read_ok. cbn [frames]. apply list_lookup_insert_eq.
      by apply lookup_lt_Some in Hdf. }
  eexists. reflexivity.
Qed.

(** X20.  Training a health risk predictor again can silence it: when the
    predictor counts as trained and scikit-learn's [fit] raises, [train]
    returns the error dictionary, [self.trained] stays True, and the pipeline
    that the preprocessing step put in place of the fitted one was never
    fitted, so that [predict_risk] from then on reports score 0 and level
    "Low" for every row of every frame. *)
Theorem failed_retraining_reads_as_low_risk (σ : State lib) (merged_data : nat)
    (df : DataFrame) :
  frames lib σ !! merged_data = Some df ->
  has_column df "Has Any Alert" = true ->
  Forall (fun r => is_Some (cells r !! "Has Any Alert")) (rows df) ->
  trained lib (self lib σ) = true ->
  (forall a split, is_Ok (fit lib a split) = false) ->
  exists e n σ',
    HealthRiskPredictor.train lib merged_data σ
    = (Ok (Failure (Raised e) (Some ("Random Forest", n))), σ') /\
    trained lib (self lib σ') = true /\
    forall new_data df',
      frames lib σ' !! new_data = Some df' ->
      low_risk σ' new_data "Risk_Score" "Risk_Level"
        (HealthRiskPredictor.predict_risk lib new_data σ').
Proof.
  intros Hdf Hcol Hcells Htrained Hfit.
  destruct (health_preprocess_run σ merged_data df Hdf Hcol Hcells) as [a Hpre].
  set (fs := filter (fun f => has_column df f = true) HealthRiskPredictor.all_features)
    in Hpre.
  set (df1 := mkFrame (add_column "Risk" (columns df))
                ((fun r => set "Risk" (cell "Has Any Alert" r) r) <$> rows df)) in Hpre.
  set (σ1 := mkState lib (<[merged_data := df1]> (frames lib σ))
               (mkPredictor lib (Some (Unfitted lib a)) (Some fs)
                  (trained lib (self lib σ)))) in Hpre.
  destruct (project_ok fs df1) as (X & HX & _).
  { apply Forall_forall. intros c Hc. apply list_elem_of_filter in Hc as [Hc _].
    apply (has_column_add_other "Risk" c (columns df) (rows df)).
    by destruct df. }
  assert (Hrun : exists e,
             HealthRiskPredictor.train lib merged_data σ
             = (Ok (Failure (Raised e) (Some ("Random Forest", length fs))), σ1)).
  { unfold HealthRiskPredictor.train.
    rewrite (bind_ok lib _ _ _ _ _ Hpre). cbn beta.
    erewrite bind_ok; [|reflexivity]. cbn beta.
    erewrite bind_ok.
    2:{ apply read_ok. apply list_lookup_insert_eq. by apply lookup_lt_Some in Hdf. }
    cbn beta.
    erewrite bind_ok; [|unfold lift; apply (f_equal2 pair); [exact HX|reflexivity]].
    cbn beta.
    erewrite bind_ok;
      [|unfold lift; apply (f_equal2 pair); [apply column_assigned|reflexivity]].
    cbn beta.
    unfold try_except, lift, mbind at 1, M_bind at 1.
    destruct (train_test_split lib X _) as [split|e].
    - unfold fit_and_score, get_self, lift, mbind, M_bind. cbn [self σ1 model].
      specialize (Hfit a split). destruct (fit lib a split) as [m|e]; [discriminate|].
      by exists e.
    - by exists e. }
  destruct Hrun as [e Hrun]. exists e, (length fs), σ1.
  split; [exact Hrun|]. split; [exact Htrained|].
  intros new_data df' Hdf'.
  by apply (unfitted_predict_risk σ1 new_data df' a).
Qed.
End Retraining.

(** ** The scores of a trained fall risk predictor *)

Lemma instants_hours df :
  instants df = true ->
  Forall (fun r => exists v, cells r !! "Timestamp" = Some v /\
                             dt_hour v = Ok (unwrap (dt_hour (cell "Timestamp" r))) /\
                             dt_dayofweek v = Ok (unwrap (dt_dayofweek (cell "Timestamp" r))))
    (rows df).
Proof.
  intros Hdf. apply Forall_forall. intros r Hr.
  destruct (instants_cell df r Hdf Hr) as [t Ht]. unfold cell in *.
  destruct (cells r !! "Timestamp") as [v|]; [|discriminate].
  simpl in Ht. subst v. exists (VTimestamp t). by repeat split.
Qed.

Section FallScores.
Context (lib : library).

(** X21.  A trained fall risk predictor whose classifier answers returns
    the caller's rows, in order and with their cells, and four cells more:
    [Hour] and [DayOfWeek] of the timestamp, as [Fall_Risk_Score] the
    probability the classifier gives for the row, and as [Fall_Risk_Level]
    "Low" for a score in (0, 0.3], "Medium" in (0.3, 0.6] and "High" in
    (0.6, 1].  The classifier is asked about the frame [X]: the feature
    columns of those rows ([selected]), encoded by [get_dummies], in the
    columns the classifier was fitted on, with 0 in a column the encoding
    does not have. *)
Theorem predict_fall_risk_scores (σ : State lib) (new_data : nat) (df : DataFrame)
    (a : algorithm) (m : Model lib) (fs : list string) :
  frames lib σ !! new_data = Some df ->
  trained lib (self lib σ) = true ->
  model lib (self lib σ) = Some (Fitted lib a m) ->
  features lib (self lib σ) = Some fs ->
  has_column df "Timestamp" = true ->
  instants df = true ->
  Forall (fun c => has_column df c = true \/ c = "Hour" \/ c = "DayOfWeek") fs ->
  (forall p b d, length (rows (get_dummies lib p b d)) = length (rows d)) ->
  (forall X, exists ps, predict_proba lib m X = Ok ps /\ length ps = length (rows X)) ->
  exists l scored selected X ps,
    (FallRiskPredictor.predict_fall_risk lib new_data σ).1 = Ok l /\
    frames lib (FallRiskPredictor.predict_fall_risk lib new_data σ).2 !! l = Some scored /\
    columns selected = fs /\
    Forall2 (fun r x =>
               label x = label r /\
               exists hour weekday,
                 dt_hour (cell "Timestamp" r) = Ok hour /\
                 dt_dayofweek (cell "Timestamp" r) = Ok weekday /\
                 forall c, cells x !! c
                           = if decide (c ∈ fs)
                             then if decide (c = "DayOfWeek") then Some weekday
                                  else if decide (c = "Hour") then Some hour
                                  else cells r !! c
                             else None)
      (rows df) (rows selected) /\
    columns X = feature_names_in lib m /\
    Forall2 (fun d x =>
               label x = label d /\
               forall c, cells x !! c
                         = if decide (c ∈ feature_names_in lib m)
                           then if has_column (get_dummies lib None true selected) c
                                then cells d !! c else Some (VInt 0)
                           else None)
      (rows (get_dummies lib None true selected)) (rows X) /\
    predict_proba lib m X = Ok ps /\
    Forall2 (fun r r' =>
               label r' = label r /\
               dt_hour (cell "Timestamp" r) = Ok (cell "Hour" r') /\
               dt_dayofweek (cell "Timestamp" r) = Ok (cell "DayOfWeek" r') /\
               forall c, c ∉ ["Hour"; "DayOfWeek"; "Fall_Risk_Score"; "Fall_Risk_Level"] ->
                         cells r' !! c = cells r !! c)
      (rows df) (rows scored) /\
    Forall2 (fun p r' =>
               cell "Fall_Risk_Score" r' = VFloat p /\
               ((0 < p)%Q -> (p <= 3 # 10)%Q -> cell "Fall_Risk_Level" r' = VStr "Low") /\
               ((3 # 10 < p)%Q -> (p <= 6 # 10)%Q ->
                cell "Fall_Risk_Level" r' = VStr "Medium") /\
               ((6 # 10 < p)%Q -> (p <= 1)%Q -> cell "Fall_Risk_Level" r' = VStr "High"))
      ps (rows scored).
Proof.
  intros Hdf Htrained Hmodel Hfeatures Hts Hinst Hfs Hdummies Hproba.
  pose proof (instants_hours df Hinst) as Hhours.
  set (hour := fun r => unwrap (dt_hour (cell "Timestamp" r))).
  set (weekday := fun r => unwrap (dt_dayofweek (cell "Timestamp" r))).
  set (timed := fun r => set "DayOfWeek" (weekday r) (set "Hour" (hour r) r)).
  set (df1 := mkFrame (add_column "Hour" (columns df))
                ((fun r => set "Hour" (hour r) r) <$> rows df)).
  set (df2 := mkFrame (add_column "DayOfWeek" (columns df1)) (timed <$> rows df)).
  assert (Hdf1 : assign "Timestamp" "Hour" dt_hour df = Ok df1).
  { apply (assign_fmap _ _ _ hour); [exact Hts|].
    eapply Forall_impl; [exact Hhours|]. intros r (v & Hv & Hh & _). by exists v. }
  assert (Hdf2 : assign "Timestamp" "DayOfWeek" dt_dayofweek df1 = Ok df2).
  { rewrite (assign_fmap _ _ _ weekday).
    - unfold df2, df1, timed. cbn [rows columns]. rewrite <- list_fmap_compose.
      do 2 f_equal. apply list_fmap_ext. intros i r _. unfold compose, weekday.
      by rewrite cell_set_ne by discriminate.
    - apply (has_column_add_other "Hour" "Timestamp" (columns df) (rows df)).
      by destruct df.
    - unfold df1. cbn [rows]. apply Forall_fmap.
      eapply Forall_impl; [exact Hhours|]. intros r (v & Hv & _ & Hw). cbn beta.
      exists v. unfold weekday. split.
      + rewrite lookup_set_ne by discriminate. exact Hv.
      + by rewrite cell_set_ne by discriminate. }
  assert (Htimed : forall r, r ∈ rows df ->
             label (timed r) = label r /\
             dt_hour (cell "Timestamp" r) = Ok (hour r) /\
             dt_dayofweek (cell "Timestamp" r) = Ok (weekday r) /\
             forall c, cells (timed r) !! c
                       = if decide (c = "DayOfWeek") then Some (weekday r)
                         else if decide (c = "Hour") then Some (hour r)
                         else cells r !! c).
  { intros r Hr. split; [reflexivity|].
    destruct (proj1 (Forall_forall _ _) Hhours r Hr) as (v & Hv & Hh & Hw).
    assert (Hcell : cell "Timestamp" r = v) by (unfold cell; by rewrite Hv).
    rewrite Hcell. split; [exact Hh|]. split; [exact Hw|].
    intros c. unfold timed, set. cbn [cells].
    destruct (decide (c = "DayOfWeek")) as [->|H1]; [by rewrite lookup_insert_eq|].
    rewrite lookup_insert_ne by congruence.
    destruct (decide (c = "Hour")) as [->|H2]; [by rewrite lookup_insert_eq|].
    by rewrite lookup_insert_ne by congruence. }
  set (selected := mkFrame fs
                     ((fun r => mkRow (label r)
                                  (filter (fun kv : string * value => kv.1 ∈ fs) (cells r)))
                        <$> rows df2)).
  assert (Hsel : project fs df2 = Ok selected).
  { apply project_eval. eapply Forall_impl; [exact Hfs|]. intros c [Hc | [-> | ->]].
    - apply (has_column_add_other "DayOfWeek" c (columns df1) (rows df1)).
      apply (has_column_add_other "Hour" c (columns df) (rows df)). by destruct df.
    - apply (has_column_add_other "DayOfWeek" "Hour" (columns df1) (rows df1)).
      apply has_column_add.
    - apply has_column_add. }
  set (X0 := get_dummies lib None true selected).
  set (names := feature_names_in lib m).
  set (missing_cols := filter (fun c => has_column X0 c = false) names).
  set (X1 := foldl (fun d c => assign_const c (VInt 0) d) X0 missing_cols).
  set (X := mkFrame names
              ((fun r => mkRow (label r)
                           (filter (fun kv : string * value => kv.1 ∈ names) (cells r)))
                 <$> rows X1)).
  assert (HX : project names X1 = Ok X).
  { apply project_eval. apply Forall_forall. intros c Hc. unfold X1.
    apply has_column_foldl_const.
    destruct (has_column X0 c) eqn:Hcol; [by left|right].
    unfold missing_cols. by apply list_elem_of_filter. }
  assert (Hrows1 : rows X1 = (fun r => foldl (fun r f => set f (VInt 0) r) r missing_cols)
                             <$> rows X0) by apply rows_foldl_const.
  destruct (Hproba X) as (ps & Hps & Hlen).
  assert (Hrows : length (VFloat <$> ps) = length (rows df2)).
  { rewrite length_fmap, Hlen. unfold X. cbn [rows]. rewrite length_fmap, Hrows1, length_fmap.
    unfold X0. rewrite Hdummies. unfold selected. cbn [rows]. by rewrite length_fmap. }
  destruct (zip_with_values "Fall_Risk_Score" (VFloat <$> ps) (rows df2) Hrows)
    as [Hscores Hkept].
  set (df3 := mkFrame (add_column "Fall_Risk_Score" (columns df2))
                (zip_with (fun v r => set "Fall_Risk_Score" v r) (List.map VFloat ps)
                   (rows df2))).
  set (level := fun r => pd_cut FallRiskPredictor.bins labels (cell "Fall_Risk_Score" r)).
  set (df4 := mkFrame (add_column "Fall_Risk_Level" (columns df3))
                ((fun r => set "Fall_Risk_Level" (level r) r) <$> rows df3)).
  assert (Hrun : FallRiskPredictor.predict_fall_risk lib new_data σ
                 = (Ok (length (frames lib σ)),
                    mkState lib (frames lib σ ++ [df4]) (self lib σ))).
  { unfold FallRiskPredictor.predict_fall_risk.
    rewrite bind_get_self, Htrained, Hmodel, Hfeatures. unfold try_except.
    erewrite bind_ok; [|by apply copy_ok].
    erewrite bind_ok; [|eapply update_ok; [simpl; apply lookup_new|exact Hdf1]].
    simpl frames. rewrite insert_new.
    erewrite bind_ok; [|eapply update_ok; [simpl; apply lookup_new|exact Hdf2]].
    simpl frames. rewrite insert_new.
    erewrite bind_ok; [|apply read_ok; simpl; apply lookup_new].
    erewrite bind_ok; [|unfold lift; apply (f_equal2 pair); [exact Hsel|reflexivity]].
    erewrite bind_ok; [|reflexivity].
    fold X0 names missing_cols X1.
    erewrite bind_ok; [|unfold lift; apply (f_equal2 pair); [exact HX|reflexivity]].
    erewrite bind_ok; [|unfold lift, probabilities; by rewrite Hps].
    erewrite bind_ok.
    2: { eapply update_ok; [simpl; apply lookup_new|].
         unfold assign_values. rewrite bool_decide_eq_true_2; [reflexivity|].
         rewrite length_map. by rewrite length_fmap in Hrows. }
    simpl frames. rewrite insert_new. fold df3.
    erewrite bind_ok.
    2: { eapply update_ok; [simpl; apply lookup_new|].
         apply (assign_fmap _ _ _ level); [apply has_column_add|].
         eapply Forall2_Forall_r; [exact Hscores|].
         apply Forall_forall. intros v _ r' Hv.
         exists v. split; [assumption|]. unfold level, cell. by rewrite Hv. }
    simpl frames. rewrite insert_new. reflexivity. }
  rewrite Hrun. cbn [fst snd frames].
  exists (length (frames lib σ)), df4, selected, X, ps.
  split; [reflexivity|]. split; [apply lookup_new|]. split; [reflexivity|].
  split; [|split; [reflexivity|split; [|split; [exact Hps|split]]]].
  - unfold selected, df2. cbn [rows]. rewrite <- list_fmap_compose, Forall2_fmap_r.
    apply Forall_Forall2_diag, Forall_forall. intros r Hr. unfold compose. cbn [label cells].
    destruct (Htimed r Hr) as (Hlabel & Hh & Hw & Hcells).
    split; [exact Hlabel|]. exists (hour r), (weekday r).
    split; [exact Hh|]. split; [exact Hw|].
    intros c. rewrite lookup_projected, Hcells. reflexivity.
  - fold X0. unfold X. cbn [rows]. rewrite Hrows1, <- list_fmap_compose, Forall2_fmap_r.
    apply Forall_Forall2_diag, Forall_forall. intros d _. unfold compose. cbn [label cells].
    destruct (foldl_set_row (VInt 0) missing_cols d) as [Hlabel Hcells].
    split; [exact Hlabel|]. intros c. rewrite lookup_projected, Hcells.
    fold names. destruct (decide (c ∈ names)) as [Hc|Hc]; [|reflexivity].
    unfold missing_cols. destruct (has_column X0 c) eqn:Hcol.
    + rewrite decide_False; [reflexivity|]. rewrite list_elem_of_filter. intros [H _].
      congruence.
    + rewrite decide_True; [reflexivity|]. by apply list_elem_of_filter.
  - unfold df4, df3. cbn [rows]. rewrite Forall2_fmap_r.
    change (List.map VFloat ps) with (VFloat <$> ps).
    assert (H12 : Forall2 (fun r r2 => r ∈ rows df /\ r2 = timed r) (rows df) (rows df2)).
    { unfold df2. cbn [rows]. apply Forall2_fmap_r, Forall_Forall2_diag, Forall_forall.
      by intros r Hr. }
    eapply Forall2_compose; [|exact H12|exact Hkept].
    intros r r2 r3 [Hr Hr2] [Hl3 Hc3]. subst r2.
    destruct (Htimed r Hr) as (Hlabel & Hh & Hw & Hcells).
    unfold compose. split; [unfold set at 1; cbn [label]; by rewrite Hl3|].
    assert (Hcell3 : forall c, c <> "Fall_Risk_Score" -> c <> "Fall_Risk_Level" ->
               cells (set "Fall_Risk_Level" (level r3) r3) !! c = cells (timed r) !! c).
    { intros c H1 H2. unfold set at 1. cbn [cells].
      rewrite lookup_insert_ne by congruence. by apply Hc3. }
    split; [|split].
    + rewrite Hh. f_equal. unfold cell. rewrite Hcell3 by discriminate.
      rewrite Hcells. by rewrite decide_False, decide_True by (discriminate || reflexivity).
    + rewrite Hw. f_equal. unfold cell. rewrite Hcell3 by discriminate.
      rewrite Hcells. by rewrite decide_True.
    + intros c Hc. rewrite !not_elem_of_cons in Hc.
      destruct Hc as (H1 & H2 & H3 & H4 & _).
      rewrite Hcell3 by assumption. rewrite Hcells.
      by rewrite !decide_False by assumption.
  - unfold df4, df3. cbn [rows]. rewrite Forall2_fmap_r.
    change (List.map VFloat ps) with (VFloat <$> ps).
    rewrite Forall2_fmap_l in Hscores.
    eapply Forall2_impl; [exact Hscores|]. intros p r' Hcell.
    unfold compose. cbn beta in Hcell |- *.
    assert (Hscore : cell "Fall_Risk_Score" r' = VFloat p)
      by (unfold cell; by rewrite Hcell).
    rewrite cell_set_ne by discriminate. split; [exact Hscore|].
    rewrite cell_set. unfold level, pd_cut. rewrite Hscore. simpl.
    destruct (cut_levels (6 # 10) p) as (HL & HM & HH & _); [discriminate..|].
    unfold FallRiskPredictor.bins. by repeat split.
Qed.
End FallScores.

(** ** The further properties on the example frames *)

Lemma reminder_alerts_never_notify_witness :
  exists alerts,
    generate_reminder_alerts Examples.no_repr Examples.no_isoformat Examples.reminder_batch
      = Ok alerts /\
    length alerts = 2%nat /\
    Forall (fun a => should_notify_caregiver a = false) alerts.
Proof.
  eexists. split; [vm_compute; reflexivity|]. split; [reflexivity|].
  apply (reminder_alerts_never_notify Examples.no_repr Examples.no_isoformat
           Examples.reminder_batch).
  vm_compute. reflexivity.
Defined.

Lemma fall_alerts_notify_witness :
  exists alerts,
    generate_safety_alerts Examples.no_repr Examples.no_isoformat Examples.safety_batch
      = Ok alerts /\
    Forall2 (fun row a =>
               cell "Impact Force Level" row = VStr "High" \/
               cell "Impact Force Level" row = VStr "Medium" ->
               should_notify_caregiver a = true)
      (filter (fun row => fall_detected row = true) (rows Examples.safety_batch)) alerts.
Proof.
  eexists. split; [vm_compute; reflexivity|].
  apply (fall_alerts_notify Examples.no_repr Examples.no_isoformat Examples.safety_batch).
  vm_compute. reflexivity.
Defined.

Lemma heart_rate_alerts_notify_witness :
  exists alerts,
    generate_health_alerts Examples.no_repr Examples.no_isoformat Examples.health_batch
      = Ok alerts /\
    Forall2 (fun row a =>
               cell "Heart Rate Below/Above Threshold (Yes/No)" row = VStr "Yes" ->
               should_notify_caregiver a = true)
      (filter (fun row => alert_triggered row = true) (rows Examples.health_batch)) alerts.
Proof.
  eexists. split; [vm_compute; reflexivity|].
  apply (heart_rate_alerts_notify Examples.no_repr Examples.no_isoformat
           Examples.health_batch).
  vm_compute. reflexivity.
Defined.

Lemma rules_without_an_event_witness :
  generate_health_alerts Examples.no_repr Examples.no_isoformat Examples.flags_only = Ok [] /\
  generate_safety_alerts Examples.no_repr Examples.no_isoformat Examples.flags_only = Ok [] /\
  generate_reminder_alerts Examples.no_repr Examples.no_isoformat Examples.flags_only = Ok [].
Proof.
  destruct (rules_without_an_event Examples.no_repr Examples.no_isoformat
              Examples.flags_only) as (Hh & Hs & Hr).
  split; [|split].
  - apply Hh; vm_compute; reflexivity.
  - apply Hs; vm_compute; reflexivity.
  - apply Hr; vm_compute; reflexivity.
Defined.



Lemma normalizers_missing_column_witness :
  let parse_time := parse_time (Examples.constant_classifier 0) in
  process_safety_data Examples.unparsed Examples.merged_batch = Err (KeyError "Timestamp") /\
  process_health_data Examples.unparsed Examples.safety_raw
    = Err (KeyError "Blood Pressure") /\
  process_reminder_data Examples.unparsed parse_time Examples.safety_raw
    = Err (KeyError "Scheduled Time").
Proof.
  intros parse_time.
  destruct (normalizers_missing_column Examples.unparsed parse_time Examples.merged_batch)
    as [Hts _].
  destruct (normalizers_missing_column Examples.unparsed parse_time Examples.safety_raw)
    as [_ Hraw].
  split.
  - apply Hts. vm_compute; reflexivity.
  - destruct Hraw as [Hbp Hst]; [vm_compute; reflexivity|].
    split; [apply Hbp|apply Hst]; vm_compute; reflexivity.
Defined.

Lemma process_health_data_fields_witness :
  health_raw_ok Examples.unparsed Examples.health_raw = true /\
  blood_pressure_fits Examples.health_raw = true /\
  exists df',
    process_health_data Examples.unparsed Examples.health_raw = Ok df' /\
    length (rows df') = length (rows Examples.health_raw).
Proof.
  split; [vm_compute; reflexivity|]. split; [vm_compute; reflexivity|].
  destruct (process_health_data_fields Examples.unparsed Examples.health_raw)
    as (df' & Hrun & Hall).
  - vm_compute; reflexivity.
  - vm_compute; reflexivity.
  - exists df'. split; [exact Hrun|]. symmetry. exact (Forall2_length _ _ _ Hall).
Defined.

Lemma normalized_falls_alert_witness :
  raw_ok Examples.unparsed Examples.safety_raw = true /\
  safety_frame_ok Examples.safety_raw = true /\
  exists df' alerts,
    process_safety_data Examples.unparsed Examples.safety_raw = Ok df' /\
    generate_safety_alerts Examples.no_repr Examples.no_isoformat df' = Ok alerts /\
    length alerts
    = length (filter (fun r => cell "Fall Detected (Yes/No)" r = VStr "Yes")
                (rows Examples.safety_raw)).
Proof.
  split; [vm_compute; reflexivity|]. split; [vm_compute; reflexivity|].
  destruct (normalized_falls_alert Examples.no_repr Examples.no_isoformat
              Examples.unparsed Examples.safety_raw)
    as (df' & alerts & Hrun & Hgen & Hall).
  - vm_compute; reflexivity.
  - vm_compute; reflexivity.
  - exists df', alerts. split; [exact Hrun|]. split; [exact Hgen|].
    symmetry. exact (Forall2_length _ _ _ Hall).
Defined.

Lemma prediction_errors_read_as_low_risk_witness :
  let lib := Examples.failing_classifier in
  let σ := Examples.trained_session lib tt ["Heart Rate"; "Systolic"]
             [Examples.merged_batch] in
  low_risk σ 0 "Risk_Score" "Risk_Level" (HealthRiskPredictor.predict_risk lib 0 σ) /\
  low_risk σ 0 "Fall_Risk_Score" "Fall_Risk_Level"
    (FallRiskPredictor.predict_fall_risk lib 0 σ) /\
  low_risk σ 0 "Effectiveness_Score" "Effectiveness_Level"
    (ReminderEffectivenessPredictor.predict_effectiveness lib 0 σ).
Proof.
  intros lib σ.
  apply (prediction_errors_read_as_low_risk lib σ 0 Examples.merged_batch RandomForest tt).
  - reflexivity.
  - reflexivity.
  - reflexivity.
  - intros X. reflexivity.
Defined.

Lemma predict_risk_scores_witness :
  let lib := Examples.constant_classifier (1 # 2) in
  let σ := Examples.trained_session lib tt ["Heart Rate"; "Systolic"]
             [Examples.merged_batch] in
  exists l scored,
    (HealthRiskPredictor.predict_risk lib 0 σ).1 = Ok l /\
    frames lib (HealthRiskPredictor.predict_risk lib 0 σ).2 !! l = Some scored /\
    length (rows scored) = length (rows Examples.merged_batch).
Proof.
  intros lib σ.
  destruct (predict_risk_scores lib σ 0 Examples.merged_batch RandomForest tt)
    as (l & scored & X & ps & Hrun & Hout & _ & _ & _ & Hlabels & _).
  - reflexivity.
  - reflexivity.
  - reflexivity.
  - intros X. eexists. split; [reflexivity|]. apply length_map.
  - exists l, scored. split; [exact Hrun|]. split; [exact Hout|].
    symmetry. exact (Forall2_length _ _ _ Hlabels).
Defined.

Lemma train_without_data_witness :
  let lib := Examples.constant_classifier 0 in
  let σ := Examples.fresh lib [Examples.no_rows] in
  FallRiskPredictor.train lib (Some 0%nat) σ
    = (Ok (Failure (Fixed "No valid safety data for training") None), σ) /\
  ReminderEffectivenessPredictor.train lib (Some 0%nat) σ
    = (Ok (Failure (Fixed "No valid reminder data for training") None), σ).
Proof.
  intros lib σ.
  destruct (train_without_data lib σ) as (_ & _ & Hempty).
  apply (Hempty 0%nat Examples.no_rows); reflexivity.
Defined.

Lemma train_raises_key_error_witness :
  let lib := Examples.constant_classifier 0 in
  let σ := Examples.fresh lib [Examples.flags_only] in
  (HealthRiskPredictor.train lib 0 σ).1 = Err (KeyError "Has Any Alert") /\
  (FallRiskPredictor.train lib (Some 0%nat) σ).1 = Err (KeyError "Timestamp") /\
  (ReminderEffectivenessPredictor.train lib (Some 0%nat) σ).1
    = Err (KeyError "Scheduled Time").
Proof.
  intros lib σ.
  destruct (train_raises_key_error lib σ 0 Examples.flags_only) as (Hh & Hf & Hr);
    [reflexivity|].
  split; [|split].
  - apply Hh. vm_compute; reflexivity.
  - apply Hf; [discriminate|vm_compute; reflexivity].
  - apply Hr; [discriminate|vm_compute; reflexivity].
Defined.

Lemma process_health_data_idempotent_witness :
  health_raw_ok Examples.unparsed Examples.health_raw = true /\
  blood_pressure_fits Examples.health_raw = true /\
  exists df',
    process_health_data Examples.unparsed Examples.health_raw = Ok df' /\
    process_health_data Examples.unparsed df' = Ok df'.
Proof.
  split; [vm_compute; reflexivity|]. split; [vm_compute; reflexivity|].
  apply (process_health_data_idempotent Examples.unparsed Examples.health_raw);
    vm_compute; reflexivity.
Defined.

Lemma missing_column_reads_as_low_risk_witness :
  let lib := Examples.constant_classifier (9 # 10) in
  let σ := Examples.trained_session lib tt ["Hour"; "DayOfWeek"]
             [Examples.flags_only] in
  low_risk σ 0 "Fall_Risk_Score" "Fall_Risk_Level"
    (FallRiskPredictor.predict_fall_risk lib 0 σ) /\
  low_risk σ 0 "Effectiveness_Score" "Effectiveness_Level"
    (ReminderEffectivenessPredictor.predict_effectiveness lib 0 σ).
Proof.
  intros lib σ.
  destruct (missing_column_reads_as_low_risk lib σ 0 Examples.flags_only
              (Fitted lib RandomForest tt)) as [Hfall Hreminder];
    [reflexivity | reflexivity | reflexivity |].
  split; [apply Hfall | apply Hreminder]; vm_compute; reflexivity.
Defined.

Lemma normalized_health_alerts_witness :
  health_raw_ok Examples.unparsed Examples.health_batch = true /\
  blood_pressure_fits Examples.health_batch = true /\
  exists df',
    process_health_data Examples.unparsed Examples.health_batch = Ok df' /\
    forall alerts,
      generate_health_alerts Examples.no_repr Examples.no_isoformat Examples.health_batch
        = Ok alerts ->
      exists alerts',
        generate_health_alerts Examples.no_repr Examples.no_isoformat df' = Ok alerts' /\
        length alerts' = length alerts.
Proof.
  split; [vm_compute; reflexivity|]. split; [vm_compute; reflexivity|].
  destruct (normalized_health_alerts Examples.no_repr Examples.no_isoformat
              Examples.unparsed Examples.health_batch)
    as (df' & Hrun & _ & Hsame).
  - vm_compute; reflexivity.
  - vm_compute; reflexivity.
  - exists df'. split; [exact Hrun|]. intros alerts Hraw.
    destruct (Hsame alerts Hraw) as (alerts' & Hgen & Hall).
    exists alerts'. split; [exact Hgen|]. symmetry. exact (Forall2_length _ _ _ Hall).
Defined.

Lemma normalized_reminders_alert_witness :
  let parse_time := parse_time (Examples.constant_classifier 0) in
  raw_ok Examples.unparsed Examples.reminder_raw = true /\
  scheduled_times_ok parse_time Examples.reminder_raw = true /\
  frame_has reminder_columns Examples.reminder_raw = true /\
  exists df' alerts,
    process_reminder_data Examples.unparsed parse_time Examples.reminder_raw = Ok df' /\
    generate_reminder_alerts Examples.no_repr Examples.no_isoformat df' = Ok alerts /\
    length alerts
    = length (filter (fun r => cell "Reminder Sent (Yes/No)" r = VStr "Yes" /\
                               cell "Acknowledged (Yes/No)" r = VStr "No" /\
                               (cell "Reminder Type" r = VStr "Medication" \/
                                cell "Reminder Type" r = VStr "Appointment"))
                (rows Examples.reminder_raw)).
Proof.
  intros parse_time.
  split; [vm_compute; reflexivity|]. split; [vm_compute; reflexivity|].
  split; [vm_compute; reflexivity|].
  destruct (normalized_reminders_alert Examples.no_repr Examples.no_isoformat
              Examples.unparsed parse_time Examples.reminder_raw)
    as (df' & alerts & Hrun & Hgen & Hall).
  - vm_compute; reflexivity.
  - vm_compute; reflexivity.
  - vm_compute; reflexivity.
  - exists df', alerts. split; [exact Hrun|]. split; [exact Hgen|].
    symmetry. exact (Forall2_length _ _ _ Hall).
Defined.

Lemma failed_retraining_reads_as_low_risk_witness :
  let lib := Examples.failing_fit in
  let σ := Examples.trained_session lib tt ["Heart Rate"; "Systolic"]
             [Examples.merged_batch] in
  exists e n σ',
    HealthRiskPredictor.train lib 0 σ
    = (Ok (Failure (Raised e) (Some ("Random Forest", n))), σ') /\
    trained lib (self lib σ') = true /\
    forall new_data df',
      frames lib σ' !! new_data = Some df' ->
      low_risk σ' new_data "Risk_Score" "Risk_Level"
        (HealthRiskPredictor.predict_risk lib new_data σ').
Proof.
  intros lib σ.
  apply (failed_retraining_reads_as_low_risk lib σ 0 Examples.merged_batch).
  - reflexivity.
  - vm_compute; reflexivity.
  - repeat constructor; vm_compute; by eexists.
  - reflexivity.
  - intros a split. reflexivity.
Defined.

Lemma predict_fall_risk_scores_witness :
  let lib := Examples.constant_classifier (1 # 2) in
  let σ := Examples.trained_session lib tt ["Hour"; "DayOfWeek"; "Location"]
             [Examples.safety_batch] in
  exists l scored,
    (FallRiskPredictor.predict_fall_risk lib 0 σ).1 = Ok l /\
    frames lib (FallRiskPredictor.predict_fall_risk lib 0 σ).2 !! l = Some scored /\
    length (rows scored) = length (rows Examples.safety_batch).
Proof.
  intros lib σ.
  destruct (predict_fall_risk_scores lib σ 0 Examples.safety_batch RandomForest tt
              ["Hour"; "DayOfWeek"; "Location"])
    as (l & scored & selected & X & ps & Hrun & Hout & _ & _ & _ & _ & _ & Hlabels & _).
  - reflexivity.
  - reflexivity.
  - reflexivity.
  - reflexivity.
  - vm_compute; reflexivity.
  - vm_compute; reflexivity.
  - constructor; [by right; left|].
    constructor; [by right; right|].
    constructor; [left; vm_compute; reflexivity|]. constructor.
  - intros p b d. reflexivity.
  - intros X. eexists. split; [reflexivity|]. apply length_map.
  - exists l, scored. split; [exact Hrun|]. split; [exact Hout|].
    symmetry. exact (Forall2_length _ _ _ Hlabels).
Defined.
